(* ===== verification/_CoqProject ===== *)
-Q . S2P
Prelude.v
Semver.v
Preview.v
Registry.v
RegistryConcurrency.v
Definitions.v
ChartModel.v
Wireframe.v
WireframeDelete.v
WireframeSchema.v
TimeRange.v
Convert.v
