(* ===== verification/Prelude.v ===== *)
(** * A verification development for terraform-provider-signalfx

    This library models, in Rocq, the parts of the provider that carry
    logic of their own: the feature-preview registry under
    [src/internal/feature], the dashboard-wireframe resource under
    [src/internal/framework/dashboard], the time-range validator under
    [src/internal/framework/validator] and the publish-label converter
    under [src/internal/convert], with the wireframe's schema and the
    structs its handlers decode into.  The rest of the repository is
    I/O or generated API models.

    ** Parts of the program and how they interact

    Feature previews.  [definitions.go] registers each preview at package
    initialization with [MustRegister] on the global registry; the
    provider's configuration layer later calls [Configure] per feature,
    and the documentation tool enumerates [All].  [Register] validates the
    name with a regular expression, builds the preview with [NewPreview]
    (which applies the options of [preview_option.go], validating versions
    with [semver.IsValid]) and stores it unless the name exists; [All]
    sorts the previews with [semver.Compare], then by name.

    Dashboard wireframe.  Terraform calls [ValidateConfig], [Create],
    [Read], [Update] and [Delete] of [wireframe.go]; they dispatch each
    chart to one of six request builders of [wireframe_chart_model.go],
    call the SignalFx API client, and check chart positions with
    [CheckCollision].  Each handler first decodes the configuration, plan
    or state into [ResourceDashboardWireframeModel] with the framework's
    [Get], which requires the struct's [tfsdk] tags to be the schema's
    attribute names.

    Validators and converters.  Schemas attach the time-range validator
    to string attributes: Terraform calls [ValidateString] with the
    configured value, which the validator parses with the time-range
    type and compares with its bounds.  The detector resource converts
    each publish label of its configuration with
    [ToDetectorPublishLabelOptions] before calling the API.

    ** Files

    - [Prelude.v] (this file): Go's [(value, error)] as [result] with the
      [let?] notation of [provider_scope]; the class [GoCmp] of comparison
      functions in the shape [slices.SortFunc] requires (a total preorder)
      with its lemmas and the combinators [lex_cmp], [cmp_on],
      [option_cmp] and [list_lex]; Go's byte-wise [strings.Compare];
      [slices.SortFunc] as [sort_func] (stdpp's merge sort) with
      [sort_func_unique]: under a comparator that ties only equal
      elements every sorting algorithm gives the same list; the
      [provider] hint and rewrite database and the tactic [case_nat_ltb].
    - [Semver.v], Module [Semver]: [golang.org/x/mod/semver] ([parse],
      [IsValid], [compareInt], [comparePrerelease], [Compare]), modelled
      after the library's code since it is not under [src/]; the
      reference order [Compare_ref] and the proof that [Compare] equals it
      and is a total preorder.  Fuel: the prerelease loop gets
      [S (length x)] iterations, one per identifier plus the final check,
      and [prerelease_loop_terminates] shows that more changes nothing.
    - [Preview.v], Module [Preview]: the [Preview] record, [PreviewOption]
      as an optional function, the three options, [apply], [NewPreview];
      the configuration-struct specification ([OptionSpec],
      [PreviewConfig]) of the spec's design notes and the refinement
      theorem.
    - [Registry.v], Module [Registry]: the registry state as a
      [gmap string Preview]; [Register], [MustRegister] (panic as an
      outcome), [Get], [Configure] (with its log records) and [All];
      the step relation of the state-changing operations, reachability
      and the invariant [reg_wf]; persistence of entries along any run;
      the order of [All] and its independence from map order.
    - [RegistryConcurrency.v], Module [RegistryConcurrency]: the
      registry as a heap of [*Preview] pointers; [Register] as a thread
      of two atomic steps (everything up to the [Get] check, then the
      [Store]), [Configure] writing through the pointer; schedules
      ([run]) and the step relation [cstep] of any number of threads and
      [Configure] calls; the invariant [cwf] of reachable states; the
      refinement of the sequential model; the lost-registration race.
    - [Definitions.v], Module [Definitions]: package initialization of
      [definitions.go] and the global registry.
    - [ChartModel.v], Module [ChartModel]: Terraform values
      ([tf_value]), int32 wrap-around ([wrap32]), the chart structs, the
      position and [CheckCollision] (characterised as the overlap of the
      positions with the grid axes swapped), the six
      request builders (a section over the time-range parser).
    - [Wireframe.v], Module [Wireframe]: the API client as the class
      [ChartAPI] (state passing over a server state), the handlers
      [ValidateConfig], [Create], [Read], [Update], [Delete], and
      [MemServer], an instance over finite maps used by the witnesses;
      [first_collisions], the reference for what [ValidateConfig]
      reports, and the splitting lemma [create_loop_app] of [Create]'s
      chart loop.
    - [WireframeDelete.v], Module [WireframeDelete]: the class
      [ChartAPILaws] of what [Delete]'s theorems assume of the API's
      delete calls, its [MemServer] instance, and [Delete]'s results.
    - [WireframeSchema.v], Module [WireframeSchema]: the resource's
      [Schema] as data ([attr]), every struct of [wireframe_model.go] and
      [wireframe_chart_model.go] as its tags ([gotype]), the framework's
      schema rules ([attr_wf]: modes, defaults [Computed] and of the
      attribute's type, validators fitting their attribute), its
      reflection rule ([field_errors],
      [attr_errors]) and plan defaults ([plan_int32]), and the handlers
      composed with their decoding ([CreateResource], ...).
    - [TimeRange.v], Module [TimeRange]: the string validator of
      [src/internal/framework/validator/time_range.go] ([timeRangeBounds],
      its constructors, [MarkdownDescription], [ValidateString]) over the
      class [TimeRangeType], the interface of the time-range type's
      parser, with [go_time_range], an instance for Go's integer duration
      syntax used by the examples.
    - [Convert.v], Module [Convert]: [ToDetectorPublishLabelOptions] of
      [src/internal/convert/convert_visual_options.go], Go's dynamic
      values as [any] and a failed type assertion as a panic value.

    ** What the theorems show

    Registry: successful and failing registration, the well-formedness
    invariant of every reachable registry, persistence of entries,
    [Configure] on known and unknown names; [All] yields exactly the
    registry's entries, sorted, in an order independent of the map's
    iteration order and of the sorting algorithm.
    Concurrency: an uninterrupted [Register] thread refines the
    sequential [Register], and [Configure] through the shared pointer
    refines the sequential [Configure] in every reachable state; two
    interleaved registrations of one name both succeed and the first
    caller's preview is lost.  Semver:
    [Compare] is a total preorder and equals its lexicographic reference;
    the prerelease loop terminates.  Previews: the options refine the
    configuration struct and fail at the first bad option.  Wireframe:
    the structs do not match the schema, so every handler fails at
    decoding before any API call (the theorems on the handlers below
    describe them past decoding, as they would run once the tags are
    fixed); the schema's position validators and defaults refine
    [position_valid]; positions round-trip from [Create] to [Read];
    the exact meaning of [CheckCollision] (with two counterexamples on
    the grid as examples), builders' required fields, durations always
    sent and wrapped to int32, [ValidateConfig] reporting only the
    collisions of the first colliding chart, [Create] returning on a
    builder error with the charts it already created left on the server,
    [Read] duplicating charts, [Delete] removing
    everything when it reports no error, keeping the dashboard when a
    chart fails, and never completing once one chart is gone.  Time ranges: the
    validator accepts exactly the values within the bounds that are set,
    bounds included (though its messages say "greater than" and "less
    than"), reports at most one diagnostic, [TimeRangeBetween] is the
    conjunction of the one-sided validators and an inverted range rejects
    everything.  Converter: its three outcomes (nil, a value, a panic)
    and the fields it copies.  Each group ends with the assertions of the
    repository's Go tests as examples.

    ** Not modelled

    The documentation generator ([src/cmd/doc-feature-preview]: file
    creation and template execution over [All]) and [src/main.go] (one
    [plugin.Serve] call) are I/O; the vendored API models are data
    structs of a third-party client; [All] running concurrently with
    registrations (its snapshot is one [Range] call) is not modelled.
    The libraries the code calls are parameters or interfaces of the
    model ([fwerr.ErrorHandler], [pmeta.LoadApplicationURL], the
    time-range parser, the colour palette, the API client), except three
    rules of the Terraform plugin framework written out in
    [WireframeSchema.v]: the schema rules, the reflection rule of [Get]
    and defaults at plan time.  That [Create] decodes [req.Config]
    rather than [req.Plan], so that defaults would not reach the API, is
    recorded as a finding but has no theorem: with the struct tags as
    they are, decoding fails first.  The [Register] threads' steps are
    two straight-line steps; their termination is not stated.
*)

From stdpp Require Export base list sorting strings.
From Stdlib Require Export String Ascii ZArith Lia.

Declare Scope provider_scope.
Delimit Scope provider_scope with provider.
Open Scope provider_scope.

Create HintDb provider discriminated.
Create Rewrite HintDb provider.

(** Case analysis on every [Nat.ltb] test of the goal, as the code's
    [if a < b] branches. *)
Ltac case_nat_ltb :=
  repeat match goal with
  | |- context [Nat.ltb ?a ?b] => destruct (Nat.ltb_spec a b)
  end.

(** The same for the [Z.leb] tests of [int32] and duration comparisons. *)
Ltac case_zleb :=
  repeat match goal with
  | |- context [Z.leb ?a ?b] => destruct (Z.leb_spec a b)
  end.

(** ** Go's [(value, error)] returns *)

(** [Ok a] is a call returning [a, nil]; [Err e] one returning a non-nil
    error [e] (the value returned beside it is never used by callers). *)
Inductive result (A E : Type) : Type :=
| Ok (a : A)
| Err (e : E).
Arguments Ok {A E} a.
Arguments Err {A E} e.

Definition res_bind {A B E} (r : result A E) (k : A -> result B E) : result B E :=
  match r with
  | Ok a => k a
  | Err e => Err e
  end.

Definition res_map_err {A E F} (f : E -> F) (r : result A E) : result A F :=
  match r with
  | Ok a => Ok a
  | Err e => Err (f e)
  end.

Definition is_ok {A E} (r : result A E) : bool :=
  match r with Ok _ => true | Err _ => false end.

(** [if err != nil { return ..., err }] *)
Notation "'let?' x := c 'in' k" := (res_bind c (fun x => k))
  (at level 10, x name, c at level 100, k at level 200) : provider_scope.

Lemma res_bind_ok {A B E} (a : A) (k : A -> result B E) :
  res_bind (Ok a) k = k a.
Proof. reflexivity. Qed.

Lemma res_bind_err {A B E} (e : E) (k : A -> result B E) :
  res_bind (Err e) k = Err e.
Proof. reflexivity. Qed.

Lemma res_bind_eq_ok {A B E} (r : result A E) (k : A -> result B E) b :
  res_bind r k = Ok b <-> exists a, r = Ok a /\ k a = Ok b.
Proof. destruct r; simpl; split; [eauto | intros (? & [= ->] & ?); done | done | intros (? & ? & _); done]. Qed.

#[export] Hint Rewrite @res_bind_ok @res_bind_err : provider.

(** ** Comparison functions in the shape [slices.SortFunc] requires *)

(** Go's sort functions take [cmp(a, b) int] and require it to be a
    strict weak ordering; with [comparison] for the sign of the result
    this is a total preorder: [cmp] is antisymmetric up to [CompOpp]
    and "not greater" is transitive. *)
Class GoCmp {A : Type} (cmp : A -> A -> comparison) : Prop := {
  cmp_antisym : forall x y, cmp x y = CompOpp (cmp y x);
  cmp_le_trans : forall x y z, cmp x y <> Gt -> cmp y z <> Gt -> cmp x z <> Gt
}.
Arguments cmp_antisym {A} cmp {_} x y.
Arguments cmp_le_trans {A} cmp {_} x y z.

Section GoCmpFacts.
  Context {A : Type} (cmp : A -> A -> comparison) `{!GoCmp cmp}.

Lemma cmp_refl_eq x : cmp x x = Eq.
  Proof. pose proof (cmp_antisym cmp x x). destruct (cmp x x); simpl in *; congruence. Qed.

Lemma cmp_lt_gt x y : cmp x y = Lt -> cmp y x = Gt.
  Proof. rewrite (cmp_antisym cmp x y). destruct (cmp y x); simpl; congruence. Qed.

Lemma cmp_not_lt x y : cmp x y <> Lt -> cmp y x <> Gt.
  Proof. rewrite (cmp_antisym cmp y x). destruct (cmp x y); simpl; congruence. Qed.

Lemma cmp_eq_sym x y : cmp x y = Eq -> cmp y x = Eq.
  Proof. rewrite (cmp_antisym cmp x y). destruct (cmp y x); simpl; congruence. Qed.

Lemma cmp_lt_le_trans x y z : cmp x y = Lt -> cmp y z <> Gt -> cmp x z = Lt.
  Proof.
    intros Hxy Hyz. destruct (decide (cmp x z = Lt)) as [|Hn]; [done | exfalso].
    apply (cmp_le_trans cmp y z x Hyz (cmp_not_lt x z Hn)), cmp_lt_gt, Hxy.
  Qed.

Lemma cmp_le_lt_trans x y z : cmp x y <> Gt -> cmp y z = Lt -> cmp x z = Lt.
  Proof.
    intros Hxy Hyz. destruct (decide (cmp x z = Lt)) as [|Hn]; [done | exfalso].
    apply (cmp_le_trans cmp z x y (cmp_not_lt x z Hn) Hxy), cmp_lt_gt, Hyz.
  Qed.

Lemma cmp_eq_trans x y z : cmp x y = Eq -> cmp y z = Eq -> cmp x z = Eq.
  Proof.
    intros Hxy Hyz. apply cmp_eq_sym in Hxy as Hyx. apply cmp_eq_sym in Hyz as Hzy.
    pose proof (cmp_le_trans cmp z y x ltac:(congruence) ltac:(congruence)) as Hzx.
    rewrite (cmp_antisym cmp z x) in Hzx.
    pose proof (cmp_le_trans cmp x y z ltac:(congruence) ltac:(congruence)) as Hxz.
    destruct (cmp x z); simpl in *; congruence.
  Qed.
End GoCmpFacts.

(** Lexicographic combination: compare by [c1], break ties by [c2].  This
    is the shape of the comparator of [Registry.All]. *)
Definition lex_cmp {A} (c1 c2 : A -> A -> comparison) (x y : A) : comparison :=
  match c1 x y with
  | Eq => c2 x y
  | c => c
  end.

#[export] Instance lex_cmp_GoCmp {A} (c1 c2 : A -> A -> comparison)
  `{!GoCmp c1, !GoCmp c2} : GoCmp (lex_cmp c1 c2).
Proof.
  split; unfold lex_cmp.
  - intros x y. rewrite (cmp_antisym c1 x y).
    destruct (c1 y x); simpl; [apply (cmp_antisym c2)|done|done].
  - intros x y z Hxy Hyz.
    destruct (c1 x y) eqn:E1, (c1 y z) eqn:E2; try done.
    + rewrite (cmp_eq_trans c1 x y z E1 E2). by apply (cmp_le_trans c2 x y z).
    + by rewrite (cmp_le_lt_trans c1 x y z ltac:(congruence) E2).
    + by rewrite (cmp_lt_le_trans c1 x y z E1 ltac:(congruence)).
    + by rewrite (cmp_lt_le_trans c1 x y z E1 ltac:(congruence)).
Qed.

Lemma lex_cmp_eq_r {A} (c1 c2 : A -> A -> comparison) x y :
  lex_cmp c1 c2 x y = Eq -> c2 x y = Eq.
Proof. unfold lex_cmp. destruct (c1 x y); done. Qed.

(** Comparing by a key. *)
Definition cmp_on {A B} (f : A -> B) (cmp : B -> B -> comparison) (x y : A) : comparison :=
  cmp (f x) (f y).

#[export] Instance cmp_on_GoCmp {A B} (f : A -> B) (cmp : B -> B -> comparison)
  `{!GoCmp cmp} : GoCmp (cmp_on f cmp).
Proof.
  split; unfold cmp_on; intros *; [apply (cmp_antisym cmp) | apply (cmp_le_trans cmp)].
Qed.

(** Absent values first, as Go code ordering a failed parse below a
    successful one. *)
Definition option_cmp {A} (cmp : A -> A -> comparison) (x y : option A) : comparison :=
  match x, y with
  | None, None => Eq
  | None, Some _ => Lt
  | Some _, None => Gt
  | Some a, Some b => cmp a b
  end.

#[export] Instance option_cmp_GoCmp {A} (cmp : A -> A -> comparison)
  `{!GoCmp cmp} : GoCmp (option_cmp cmp).
Proof.
  split.
  - intros [a|] [b|]; simpl; [apply (cmp_antisym cmp)|done|done|done].
  - intros [a|] [b|] [c|]; simpl; try done. apply (cmp_le_trans cmp).
Qed.

(** Lexicographic order on lists, a proper prefix first. *)
Fixpoint list_lex {A} (cmp : A -> A -> comparison) (l1 l2 : list A) : comparison :=
  match l1, l2 with
  | [], [] => Eq
  | [], _ :: _ => Lt
  | _ :: _, [] => Gt
  | x :: l1', y :: l2' =>
      match cmp x y with
      | Eq => list_lex cmp l1' l2'
      | c => c
      end
  end.

#[export] Instance list_lex_GoCmp {A} (cmp : A -> A -> comparison)
  `{!GoCmp cmp} : GoCmp (list_lex cmp).
Proof.
  split.
  - induction x as [|a l1 IH]; intros [|b l2]; simpl; try done.
    rewrite (cmp_antisym cmp a b). destruct (cmp b a); simpl; auto.
  - induction x as [|a l1 IH]; intros [|b l2] [|c l3]; simpl; try done.
    intros Hab Hbc.
    destruct (cmp a b) eqn:E1, (cmp b c) eqn:E2; try done.
    + rewrite (cmp_eq_trans cmp a b c E1 E2). eauto.
    + by rewrite (cmp_le_lt_trans cmp a b c ltac:(congruence) E2).
    + by rewrite (cmp_lt_le_trans cmp a b c E1 ltac:(congruence)).
    + by rewrite (cmp_lt_le_trans cmp a b c E1 ltac:(congruence)).
Qed.

Lemma list_lex_eq {A} (cmp : A -> A -> comparison) l1 l2 :
  (forall x y, cmp x y = Eq -> x = y) -> list_lex cmp l1 l2 = Eq -> l1 = l2.
Proof.
  intros Hcmp. revert l2. induction l1 as [|a l1 IH]; intros [|b l2]; simpl; try done.
  destruct (cmp a b) eqn:E; try done. intros H. f_equal; auto.
Qed.

(** ** Go's [strings.Compare] and [<] on strings: byte-wise lexicographic *)

Definition go_string_compare (s t : string) : comparison := String.compare s t.

Lemma ascii_compare_N (a b : ascii) :
  Ascii.compare a b = N.compare (N_of_ascii a) (N_of_ascii b).
Proof. reflexivity. Qed.

Lemma go_string_compare_le_trans s t u :
  go_string_compare s t <> Gt -> go_string_compare t u <> Gt ->
  go_string_compare s u <> Gt.
Proof.
  unfold go_string_compare. revert t u.
  induction s as [|a s IH]; intros [|b t] [|c u]; simpl; try done.
  rewrite !ascii_compare_N.
  destruct (N.compare_spec (N_of_ascii a) (N_of_ascii b)) as [Hab|Hab|Hab];
  destruct (N.compare_spec (N_of_ascii b) (N_of_ascii c)) as [Hbc|Hbc|Hbc];
  try done; intros H1 H2.
  - rewrite Hab, Hbc, N.compare_refl. eauto.
  - rewrite Hab. by rewrite (proj2 (N.compare_lt_iff _ _) Hbc).
  - rewrite <- Hbc. by rewrite (proj2 (N.compare_lt_iff _ _) Hab).
  - by rewrite (proj2 (N.compare_lt_iff (N_of_ascii a) (N_of_ascii c)) ltac:(lia)).
Qed.

#[export] Instance go_string_compare_GoCmp : GoCmp go_string_compare.
Proof.
  split; [apply String.compare_antisym | apply go_string_compare_le_trans].
Qed.

Lemma go_string_compare_eq s t : go_string_compare s t = Eq <-> s = t.
Proof.
  split; [apply String.compare_eq_iff | intros ->; apply (cmp_refl_eq _)].
Qed.

#[export] Instance nat_compare_GoCmp : GoCmp Nat.compare.
Proof.
  split; [intros; apply Nat.compare_antisym |].
  intros x y z. rewrite !Nat.compare_gt_iff. lia.
Qed.

(** ** [slices.SortFunc] *)

(** Go sorts with pattern-defeating quicksort, which is not stable; we
    model the call by stdpp's merge sort on the "not greater" relation of
    the comparator.  [sort_func_unique] below shows that the choice does
    not matter for the inputs the provider sorts: when the comparator
    only ties equal elements, every sorting algorithm returns the same
    list. *)
Definition cmp_le {A} (cmp : A -> A -> comparison) (x y : A) : Prop := cmp x y <> Gt.

#[export] Instance cmp_le_dec {A} (cmp : A -> A -> comparison) : RelDecision (cmp_le cmp).
Proof. intros x y. unfold cmp_le. apply _. Defined.

Definition sort_func {A} (cmp : A -> A -> comparison) (l : list A) : list A :=
  merge_sort (cmp_le cmp) l.

Section SortFunc.
  Context {A : Type} (cmp : A -> A -> comparison) `{!GoCmp cmp}.

#[export] Instance cmp_le_Transitive : Transitive (cmp_le cmp).
  Proof. intros x y z. apply (cmp_le_trans cmp). Qed.

#[export] Instance cmp_le_Total : Total (cmp_le cmp).
  Proof.
    intros x y. unfold cmp_le. rewrite (cmp_antisym cmp y x).
    destruct (cmp x y); simpl; [left|left|right]; done.
  Qed.

Lemma sort_func_Permutation l : sort_func cmp l ≡ₚ l.
  Proof. apply merge_sort_Permutation. Qed.

Lemma sort_func_sorted l : StronglySorted (cmp_le cmp) (sort_func cmp l).
  Proof. apply StronglySorted_merge_sort; apply _. Qed.

Lemma cmp_le_antisym_eq x y : cmp_le cmp x y -> cmp_le cmp y x -> cmp x y = Eq.
  Proof.
    unfold cmp_le. rewrite (cmp_antisym cmp y x). destruct (cmp x y); simpl; done.
  Qed.

  (** Two sorted permutations of a list on which the comparator ties
      only equal elements are equal. *)
Lemma sorted_perm_unique (l1 l2 : list A) :
    (forall x y, x ∈ l1 -> y ∈ l1 -> cmp x y = Eq -> x = y) ->
    StronglySorted (cmp_le cmp) l1 -> StronglySorted (cmp_le cmp) l2 ->
    l1 ≡ₚ l2 -> l1 = l2.
  Proof.
    revert l2. induction l1 as [|x xs IH]; intros l2 Hstrict H1 H2 Hp.
    { symmetry. by apply Permutation_nil. }
    destruct l2 as [|y ys]; [by symmetry in Hp; apply Permutation_nil_cons in Hp|].
    inversion H1 as [|? ? Hs1 Hf1]; inversion H2 as [|? ? Hs2 Hf2]; subst.
    assert (x = y) as <-.
    { assert (x ∈ y :: ys) as Hx%elem_of_cons by (rewrite <- Hp; left).
      assert (y ∈ x :: xs) as Hy%elem_of_cons by (rewrite Hp; left).
      destruct Hx as [|Hx]; [done|]. destruct Hy as [<-|Hy]; [done|].
      apply Hstrict; [left | right; done |].
      apply cmp_le_antisym_eq.
      - by apply (proj1 (Forall_forall _ _) Hf1).
      - by apply (proj1 (Forall_forall _ _) Hf2). }
    f_equal. apply IH; [| done | done | by apply Permutation_cons_inv in Hp].
    intros a b Ha Hb. apply Hstrict; by right.
  Qed.

Theorem sort_func_unique (l l' : list A) :
    (forall x y, x ∈ l -> y ∈ l -> cmp x y = Eq -> x = y) ->
    StronglySorted (cmp_le cmp) l' -> l' ≡ₚ l -> sort_func cmp l = l'.
  Proof.
    intros Hstrict Hs Hp. apply sorted_perm_unique; [| apply sort_func_sorted | done |].
    - intros x y Hx Hy. rewrite sort_func_Permutation in Hx, Hy. by apply Hstrict.
    - by rewrite sort_func_Permutation.
  Qed.
End SortFunc.
