(* ===== verification/Semver.v ===== *)
(** * Semantic versions: [golang.org/x/mod/semver]

    The feature registry validates versions with [semver.IsValid]
    ([preview_option.go], [WithPreviewAddInVersion]) and orders previews
    with [semver.Compare] ([registry.go], [All]).  The library is a
    dependency, not part of [src/]; its functions are modelled here after
    the library's own code, loop by loop: [parse] and its helpers
    [parseInt], [parsePrerelease], [parseBuild], [isIdentChar],
    [isBadNum], [isNum]; [compareInt], [comparePrerelease] with
    [nextIdent]; [IsValid] and [Compare].

    The loop of [comparePrerelease] consumes at least one byte of [x] per
    iteration and is modelled with fuel [S (length x)], enough for every
    input ([prerelease_loop_fuel]).  The theorems show that [Compare] is
    a chain of lexicographic comparisons on the parsed components
    ([Compare_ref]) and hence a total preorder, the property
    [slices.SortFunc] needs from a comparator. *)

From S2P Require Import Prelude.

Module Semver.

Local Open Scope char_scope.

(** [type parsed struct { major, minor, patch, short, prerelease, build string }] *)
Record parsed := mk_parsed {
  major : string;
  minor : string;
  patch : string;
  short : string;
  prerelease : string;
  build : string
}.

Definition is_digit (c : ascii) : bool := Ascii.leb "0" c && Ascii.leb c "9".

Definition isIdentChar (c : ascii) : bool :=
  (Ascii.leb "A" c && Ascii.leb c "Z") || (Ascii.leb "a" c && Ascii.leb c "z") ||
  is_digit c || Ascii.eqb c "-".

(** [for i < len(v) && '0' <= v[i] && v[i] <= '9' { i++ }]: the split
    [v[:i], v[i:]] at the first non-digit. *)
Fixpoint span_digits (v : string) : string * string :=
  match v with
  | EmptyString => (EmptyString, EmptyString)
  | String c v' =>
      if is_digit c then let '(d, r) := span_digits v' in (String c d, r)
      else (EmptyString, v)
  end.

Definition parseInt (v : string) : option (string * string) :=
  match v with
  | EmptyString => None
  | String c _ =>
      if negb (is_digit c) then None
      else
        let '(t, rest) := span_digits v in
        if Ascii.eqb c "0" && negb (String.length t =? 1)%nat then None
        else Some (t, rest)
  end.

Definition starts_with (c : ascii) (v : string) : bool :=
  match v with
  | String c' _ => Ascii.eqb c' c
  | EmptyString => false
  end.

(** [i == len(v) && i > 1 && v[0] == '0'] for [i] the digit prefix. *)
Definition isBadNum (v : string) : bool :=
  let i := String.length (fst (span_digits v)) in
  (i =? String.length v)%nat && (1 <? i)%nat && starts_with "0" v.

Definition isNum (v : string) : bool :=
  (String.length (fst (span_digits v)) =? String.length v)%nat.

(** The check [start == i || isBadNum(v[start:i])] on the identifier
    [cur = v[start:i]], negated. *)
Definition ident_ok (cur : string) : bool :=
  negb (String.eqb cur EmptyString) && negb (isBadNum cur).

(** The loop [for i < len(v) && v[i] != '+'] of [parsePrerelease], from
    the byte after the leading ['-'] on; [cur] is [v[start:i]].  It
    returns the consumed bytes and the rest. *)
Fixpoint prerelease_scan (cur v : string) : option (string * string) :=
  match v with
  | EmptyString => if ident_ok cur then Some (EmptyString, EmptyString) else None
  | String c v' =>
      if Ascii.eqb c "+" then
        if ident_ok cur then Some (EmptyString, v) else None
      else if negb (isIdentChar c) && negb (Ascii.eqb c ".") then None
      else if Ascii.eqb c "." then
        if ident_ok cur then
          option_map (fun '(t, r) => (String c t, r)) (prerelease_scan EmptyString v')
        else None
      else
        option_map (fun '(t, r) => (String c t, r))
          (prerelease_scan (String.append cur (String c EmptyString)) v')
  end.

Definition parsePrerelease (v : string) : option (string * string) :=
  match v with
  | String c v' =>
      if Ascii.eqb c "-" then
        option_map (fun '(t, r) => (String c t, r)) (prerelease_scan EmptyString v')
      else None
  | EmptyString => None
  end.

(** The loop of [parseBuild]: every byte an identifier byte or ['.'], no
    empty identifier.  [empty] is [start == i]. *)
Fixpoint build_scan (empty : bool) (v : string) : bool :=
  match v with
  | EmptyString => negb empty
  | String c v' =>
      if negb (isIdentChar c) && negb (Ascii.eqb c ".") then false
      else if Ascii.eqb c "." then (if empty then false else build_scan true v')
      else build_scan false v'
  end.

(** [parseBuild] consumes all of [v]. *)
Definition parseBuild (v : string) : option (string * string) :=
  match v with
  | String c v' =>
      if Ascii.eqb c "+" && build_scan true v' then Some (v, EmptyString) else None
  | EmptyString => None
  end.

(** The tail of [parse] after the patch number: the optional
    [-prerelease] and [+build], then nothing. *)
Definition parse_tail (major minor patch v : string) : option parsed :=
  '(pre, v) ← (if starts_with "-" v then parsePrerelease v else Some (EmptyString, v));
  '(bld, v) ← (if starts_with "+" v then parseBuild v else Some (EmptyString, v));
  if String.eqb v EmptyString then
    Some (mk_parsed major minor patch EmptyString pre bld)
  else None.

Definition parse (v : string) : option parsed :=
  match v with
  | String c v1 =>
      if negb (Ascii.eqb c "v") then None else
      '(major, v2) ← parseInt v1;
      match v2 with
      | EmptyString => Some (mk_parsed major "0" "0" ".0.0" EmptyString EmptyString)
      | String c2 v3 =>
          if negb (Ascii.eqb c2 ".") then None else
          '(minor, v4) ← parseInt v3;
          match v4 with
          | EmptyString => Some (mk_parsed major minor "0" ".0" EmptyString EmptyString)
          | String c4 v5 =>
              if negb (Ascii.eqb c4 ".") then None else
              '(patch, v6) ← parseInt v5;
              parse_tail major minor patch v6
          end
      end
  | EmptyString => None
  end.

Definition IsValid (v : string) : bool := bool_decide (is_Some (parse v)).

Definition compareInt (x y : string) : comparison :=
  if String.eqb x y then Eq
  else if (String.length x <? String.length y)%nat then Lt
  else if (String.length y <? String.length x)%nat then Gt
  else if go_string_compare x y is Lt then Lt else Gt.

Fixpoint nextIdent (x : string) : string * string :=
  match x with
  | EmptyString => (EmptyString, EmptyString)
  | String c x' =>
      if Ascii.eqb c "." then (EmptyString, x)
      else let '(d, r) := nextIdent x' in (String c d, r)
  end.

(** The body of [if dx != dy { ... }] in [comparePrerelease]. *)
Definition compare_idents (dx dy : string) : comparison :=
  let ix := isNum dx in
  let iy := isNum dy in
  if negb (Bool.eqb ix iy) then (if ix then Lt else Gt)
  else if ix && (String.length dx <? String.length dy)%nat then Lt
  else if ix && (String.length dy <? String.length dx)%nat then Gt
  else if go_string_compare dx dy is Lt then Lt else Gt.

(** [for x != "" && y != "" { x = x[1:]; y = y[1:]; ... }], then
    [if x == "" { return -1 } else { return +1 }]. *)
Fixpoint prerelease_loop (fuel : nat) (x y : string) : comparison :=
  match fuel with
  | O => Eq
  | S fuel' =>
      match x, y with
      | String _ x', String _ y' =>
          let '(dx, x'') := nextIdent x' in
          let '(dy, y'') := nextIdent y' in
          if String.eqb dx dy then prerelease_loop fuel' x'' y''
          else compare_idents dx dy
      | EmptyString, _ => Lt
      | _, EmptyString => Gt
      end
  end.

Definition comparePrerelease (x y : string) : comparison :=
  if String.eqb x y then Eq
  else if String.eqb x EmptyString then Gt
  else if String.eqb y EmptyString then Lt
  else prerelease_loop (S (String.length x)) x y.

Definition Compare (v w : string) : comparison :=
  match parse v, parse w with
  | None, None => Eq
  | None, Some _ => Lt
  | Some _, None => Gt
  | Some pv, Some pw =>
      match compareInt (major pv) (major pw) with
      | Eq =>
          match compareInt (minor pv) (minor pw) with
          | Eq =>
              match compareInt (patch pv) (patch pw) with
              | Eq => comparePrerelease (prerelease pv) (prerelease pw)
              | c => c
              end
          | c => c
          end
      | c => c
      end
  end.

(** ** Reference: [Compare] as a chain of lexicographic comparisons *)

(** The dot-separated identifiers of a string. *)
Fixpoint split_dots (s : string) : list string :=
  match s with
  | EmptyString => [EmptyString]
  | String c s' =>
      let l := split_dots s' in
      if Ascii.eqb c "." then EmptyString :: l
      else String c (default EmptyString (head l)) :: tail l
  end.

(** The identifiers of a prerelease ["-a.b.c"]: skip the separator. *)
Definition idents (x : string) : list string :=
  match x with
  | EmptyString => []
  | String _ s => split_dots s
  end.

(** Numeric identifiers first, numerically; then the others, lexically. *)
Definition ident_cmp : string -> string -> comparison :=
  lex_cmp (cmp_on (fun d => if isNum d then 0%nat else 1%nat) Nat.compare)
    (lex_cmp (cmp_on (fun d => if isNum d then String.length d else 0%nat) Nat.compare)
       go_string_compare).

(** No prerelease is greatest; otherwise the identifier lists in order. *)
Definition prerelease_ref : string -> string -> comparison :=
  lex_cmp (cmp_on (fun x => if String.eqb x EmptyString then 1%nat else 0%nat) Nat.compare)
    (cmp_on idents (list_lex ident_cmp)).

Definition compareInt_ref : string -> string -> comparison :=
  lex_cmp (cmp_on String.length Nat.compare) go_string_compare.

Definition parsed_cmp : parsed -> parsed -> comparison :=
  lex_cmp (cmp_on major compareInt_ref)
    (lex_cmp (cmp_on minor compareInt_ref)
       (lex_cmp (cmp_on patch compareInt_ref) (cmp_on prerelease prerelease_ref))).

Definition Compare_ref (v w : string) : comparison :=
  option_cmp parsed_cmp (parse v) (parse w).

(** The domain of [comparePrerelease]: what [parse] stores. *)
Definition pre_dom (x : string) : bool :=
  String.eqb x EmptyString || starts_with "-" x.

(** ** Proofs *)

Lemma compareInt_eq_ref x y : compareInt x y = compareInt_ref x y.
Proof.
  unfold compareInt, compareInt_ref, lex_cmp, cmp_on.
  destruct (String.eqb_spec x y) as [->|Hne].
  { by rewrite Nat.compare_refl, (cmp_refl_eq go_string_compare). }
  destruct (Nat.compare_spec (String.length x) (String.length y)) as [Hl|Hl|Hl];
    case_nat_ltb; try lia; try done.
  destruct (go_string_compare x y) eqn:E; [|done|done].
  by apply go_string_compare_eq in E.
Qed.

Lemma ident_cmp_eq x y : ident_cmp x y = Eq -> x = y.
Proof.
  unfold ident_cmp. intros H%lex_cmp_eq_r%lex_cmp_eq_r. by apply go_string_compare_eq.
Qed.

Lemma compare_idents_ref dx dy : dx <> dy -> compare_idents dx dy = ident_cmp dx dy.
Proof.
  intros Hne. unfold compare_idents, ident_cmp, lex_cmp, cmp_on.
  assert (go_string_compare dx dy <> Eq) as Hs by (by rewrite go_string_compare_eq).
  destruct (isNum dx), (isNum dy); simpl;
    [| done | done | destruct (go_string_compare dx dy); done].
  destruct (Nat.compare_spec (String.length dx) (String.length dy)) as [Hl|Hl|Hl];
    case_nat_ltb; try lia; try done.
  destruct (go_string_compare dx dy); done.
Qed.

Lemma split_dots_nonempty s : split_dots s <> [].
Proof. destruct s as [|c s]; simpl; [done|]. by destruct (Ascii.eqb c "."). Qed.

(** [nextIdent] takes the first identifier; the rest is empty or starts
    with the separator ['.'], and is no longer than the input. *)
Lemma nextIdent_split s :
  let '(d, r) := nextIdent s in
  split_dots s = d :: idents r /\
  (r = EmptyString \/ exists r', r = String "." r') /\
  String.length r <= String.length s.
Proof.
  induction s as [|c s IH]; simpl; [auto|].
  destruct (Ascii.eqb_spec c ".") as [->|Hc].
  - simpl. split; [done|]. split; [eauto|lia].
  - destruct (nextIdent s) as [d r]. destruct IH as (-> & Hr & Hl). simpl.
    split; [done|]. split; [done|lia].
Qed.

Lemma split_dots_inj s t : split_dots s = split_dots t -> s = t.
Proof.
  revert t. induction s as [|c s IH]; intros [|d t]; simpl; try done.
  - destruct (Ascii.eqb d "."); [|by destruct (split_dots t)].
    pose proof (split_dots_nonempty t). destruct (split_dots t); done.
  - destruct (Ascii.eqb c "."); [|by destruct (split_dots s)].
    pose proof (split_dots_nonempty s). destruct (split_dots s); done.
  - destruct (Ascii.eqb_spec c "."), (Ascii.eqb_spec d "."); subst; intros H.
    + injection H as H. f_equal. auto.
    + by destruct (split_dots t).
    + by destruct (split_dots s).
    + pose proof (split_dots_nonempty s). pose proof (split_dots_nonempty t).
      destruct (split_dots s) eqn:Es, (split_dots t) eqn:Et; try done.
      simpl in H. injection H as Hc Hd Hl. subst. f_equal. apply IH. congruence.
Qed.

#[local] Instance ident_cmp_GoCmp : GoCmp ident_cmp.
Proof. unfold ident_cmp. apply _. Qed.

Lemma compare_idents_not_eq dx dy : compare_idents dx dy <> Eq.
Proof.
  unfold compare_idents.
  destruct (isNum dx), (isNum dy), (go_string_compare dx dy); simpl;
    repeat case_match; done.
Qed.

(** The loop of [comparePrerelease] compares the identifier lists
    lexicographically, ending in [-1] when they agree up to the end of
    [x].  It needs no more fuel than one step per byte of [x], plus the
    final check: with fuel above [length x], the result does not depend
    on the fuel. *)
Lemma prerelease_loop_spec fuel x y :
  String.length x < fuel -> x <> EmptyString -> y <> EmptyString ->
  prerelease_loop fuel x y =
  match list_lex ident_cmp (idents x) (idents y) with Eq => Lt | c => c end.
Proof.
  revert x y. induction fuel as [|f IH]; intros [|a s] [|b t] Hl Hx Hy;
    simpl in *; try lia; try done.
  pose proof (nextIdent_split s) as Hs. pose proof (nextIdent_split t) as Ht.
  destruct (nextIdent s) as [dx rx], (nextIdent t) as [dy ry].
  destruct Hs as (-> & Hrx & Hlx), Ht as (-> & Hry & Hly). simpl.
  destruct (String.eqb_spec dx dy) as [<-|Hne].
  - rewrite (cmp_refl_eq ident_cmp).
    destruct Hrx as [->|[rx' ->]].
    + destruct f; [lia|]. simpl. by destruct (idents ry).
    + destruct Hry as [->|[ry' ->]].
      * destruct f; [lia|]. simpl.
        pose proof (split_dots_nonempty rx'). by destruct (split_dots rx').
      * apply IH; simpl in *; [lia|done|done].
  - rewrite <- (compare_idents_ref dx dy Hne).
    pose proof (compare_idents_not_eq dx dy). by destruct (compare_idents dx dy).
Qed.

(** On what [parse] stores, [comparePrerelease] is the reference order. *)
Lemma comparePrerelease_ref x y :
  pre_dom x = true -> pre_dom y = true -> comparePrerelease x y = prerelease_ref x y.
Proof.
  unfold comparePrerelease, prerelease_ref, lex_cmp, cmp_on.
  destruct (String.eqb_spec x y) as [->|Hne].
  { intros _ _. by rewrite Nat.compare_refl, (cmp_refl_eq (list_lex ident_cmp)). }
  destruct x as [|a s], y as [|b t]; [done | by simpl | by simpl |].
  rewrite prerelease_loop_spec by (simpl; lia || done).
  simpl. intros Ha Hb. apply Ascii.eqb_eq in Ha as ->. apply Ascii.eqb_eq in Hb as ->.
  destruct (list_lex ident_cmp (split_dots s) (split_dots t)) eqn:E; try done.
  apply list_lex_eq in E; [|apply ident_cmp_eq]. apply split_dots_inj in E. congruence.
Qed.

Lemma parsePrerelease_dom v t r : parsePrerelease v = Some (t, r) -> pre_dom t = true.
Proof.
  destruct v as [|c v']; simpl; [done|].
  destruct (Ascii.eqb_spec c "-") as [->|]; [|done].
  destruct (prerelease_scan EmptyString v') as [[t' r']|]; simpl; [|done].
  by intros [= <- _].
Qed.

Lemma parse_tail_dom a b c v p :
  parse_tail a b c v = Some p -> pre_dom (prerelease p) = true.
Proof.
  unfold parse_tail.
  destruct (if starts_with "-" v then parsePrerelease v else Some (EmptyString, v))
    as [[pre v']|] eqn:E; simpl; [|done].
  destruct (if starts_with "+" v' then parseBuild v' else Some (EmptyString, v'))
    as [[bld v'']|]; simpl; [|done].
  destruct (String.eqb v'' EmptyString); [|done]. intros [= <-]. simpl.
  destruct (starts_with "-" v); [by eapply parsePrerelease_dom | by injection E as <-].
Qed.

Lemma parse_pre_dom v p : parse v = Some p -> pre_dom (prerelease p) = true.
Proof.
  unfold parse. destruct v as [|c v1]; [done|]. destruct (negb _); [done|].
  destruct (parseInt v1) as [[maj v2]|]; simpl; [|done].
  destruct v2 as [|c2 v3]; [by intros [= <-]|]. destruct (negb _); [done|].
  destruct (parseInt v3) as [[mi v4]|]; simpl; [|done].
  destruct v4 as [|c4 v5]; [by intros [= <-]|]. destruct (negb _); [done|].
  destruct (parseInt v5) as [[pa v6]|]; simpl; [|done].
  apply parse_tail_dom.
Qed.

Lemma Compare_eq_ref v w : Compare v w = Compare_ref v w.
Proof.
  unfold Compare, Compare_ref.
  destruct (parse v) as [pv|] eqn:Ev, (parse w) as [pw|] eqn:Ew; simpl; try done.
  unfold parsed_cmp, lex_cmp, cmp_on.
  rewrite !compareInt_eq_ref, comparePrerelease_ref by eauto using parse_pre_dom.
  reflexivity.
Qed.

#[local] Instance Compare_ref_GoCmp : GoCmp Compare_ref.
Proof.
  change Compare_ref with (cmp_on parse (option_cmp parsed_cmp)).
  unfold parsed_cmp, prerelease_ref, compareInt_ref. apply _.
Qed.

#[export] Instance Compare_GoCmp : GoCmp Compare.
Proof.
  split; intros *; rewrite !Compare_eq_ref;
    [apply (cmp_antisym Compare_ref) | apply (cmp_le_trans Compare_ref)].
Qed.

(** ** Termination of the prerelease loop *)

(** The loop of [comparePrerelease] terminates within one iteration
    per byte of [x] plus the final check: any larger fuel gives the
    result the model computes with [S (length x)]. *)
Theorem prerelease_loop_terminates fuel x y :
  S (String.length x) <= fuel ->
  prerelease_loop fuel x y = prerelease_loop (S (String.length x)) x y.
Proof.
  intros Hf. destruct fuel as [|f]; [lia|].
  destruct x as [|a s], y as [|b t]; [done|done|done|].
  rewrite !prerelease_loop_spec by (simpl in *; lia || done). reflexivity.
Qed.

Lemma prerelease_loop_terminates_witness :
  S (String.length "-alpha.1") <= 20 /\
  prerelease_loop 20 "-alpha.1" "-alpha.beta" = Lt.
Proof.
  split; [simpl; lia|].
  rewrite (prerelease_loop_terminates 20 "-alpha.1" "-alpha.beta") by (simpl; lia).
  reflexivity.
Defined.

End Semver.
