(* ===== verification/Preview.v ===== *)
(** * Feature previews and their options

    [src/internal/feature/preview_option.go]: the option type
    [PreviewOption] ([func(g *Preview) error], possibly nil), its [apply]
    method and the three options [WithPreviewGlobalAvailable],
    [WithPreviewAddInVersion] and [WithPreviewDescription].

    The [Preview] struct, its accessors, [SetEnabled] and [NewPreview]
    live in [preview.go], which is not under [src/]; they are modelled
    from the spec (section 4.1): a preview has a name, an introduced
    version, a description, a global-availability flag and an atomically
    updated enabled flag; [NewPreview] applies the options in order and
    stops at the first error.  An option mutates the preview through its
    pointer; none of the three writes before it validates, so the model
    passes the preview by value and returns the updated copy. *)

From S2P Require Import Prelude Semver.

Module Preview.

(** The errors of package [feature] ([errors.New] and [fmt.Errorf]
    values), by the call that returns them. *)
Inductive feature_error :=
| ErrNilFunction                       (* "function is nil" *)
| ErrVersionFormat (version : string)  (* "version string %q needs to be in semver format" *)
| ErrEmptyDescription                  (* "adding empty description" *)
| ErrNameFormat (feature : string)     (* "feature %q does not match expected naming format" *)
| ErrAlreadyExists (feature : string)  (* "feature %q already exists" *)
| ErrNotFound (feature : string).      (* "no preview with id %q found" *)

#[export] Instance feature_error_eq_dec : EqDecision feature_error.
Proof. solve_decision. Defined.

(** [type Preview struct]; [enabled] is an [atomic.Bool]. *)
Record Preview := mk_preview {
  name : string;
  introduced : string;
  description : string;
  available : bool;
  enabled : bool
}.

#[export] Instance Preview_eq_dec : EqDecision Preview.
Proof. solve_decision. Defined.

Definition Name (g : Preview) : string := name g.
Definition Introduced (g : Preview) : string := introduced g.
Definition Description (g : Preview) : string := description g.
Definition GlobalAvailable (g : Preview) : bool := available g.
Definition Enabled (g : Preview) : bool := enabled g.

(** [p.enabled.Store(b)] *)
Definition SetEnabled (b : bool) (g : Preview) : Preview :=
  mk_preview (name g) (introduced g) (description g) (available g) b.

(** [type PreviewOption func(g *Preview) error]; [None] is a nil func. *)
Definition PreviewOption := option (Preview -> result Preview feature_error).

Definition apply (fn : PreviewOption) (g : Preview) : result Preview feature_error :=
  match fn with
  | None => Err ErrNilFunction
  | Some f => f g
  end.

Definition WithPreviewGlobalAvailable : PreviewOption :=
  Some (fun g => Ok (mk_preview (name g) (introduced g) (description g) true true)).

Definition WithPreviewAddInVersion (version : string) : PreviewOption :=
  Some (fun g =>
    if negb (Semver.IsValid version) then Err (ErrVersionFormat version)
    else Ok (mk_preview (name g) version (description g) (available g) (enabled g))).

Definition WithPreviewDescription (desc : string) : PreviewOption :=
  Some (fun g =>
    if String.eqb desc EmptyString then Err ErrEmptyDescription
    else Ok (mk_preview (name g) (introduced g) desc (available g) (enabled g))).

(** [for _, opt := range opts { if err := opt.apply(g); err != nil { return nil, err } }] *)
Fixpoint apply_options (opts : list PreviewOption) (g : Preview) : result Preview feature_error :=
  match opts with
  | [] => Ok g
  | o :: os => let? g' := apply o g in apply_options os g'
  end.

(** [NewPreview(name, opts...)]: a zero preview with the name, then the
    options in order. *)
Definition NewPreview (feature : string) (opts : list PreviewOption) : result Preview feature_error :=
  apply_options opts (mk_preview feature EmptyString EmptyString false false).

(** ** Specification: options as a configuration struct

    The spec's design notes describe the options as an explicit
    configuration struct ([introduced_version], [description],
    [global_available]) validated by named rules.  [OptionSpec] names the
    options the package defines (and a nil func); [denote] is the Go
    value each stands for. *)
Inductive OptionSpec :=
| SpecNil
| SpecGlobalAvailable
| SpecAddInVersion (version : string)
| SpecDescription (desc : string).

Definition denote (s : OptionSpec) : PreviewOption :=
  match s with
  | SpecNil => None
  | SpecGlobalAvailable => WithPreviewGlobalAvailable
  | SpecAddInVersion v => WithPreviewAddInVersion v
  | SpecDescription d => WithPreviewDescription d
  end.

Definition spec_check (s : OptionSpec) : option feature_error :=
  match s with
  | SpecNil => Some ErrNilFunction
  | SpecGlobalAvailable => None
  | SpecAddInVersion v => if Semver.IsValid v then None else Some (ErrVersionFormat v)
  | SpecDescription d => if String.eqb d EmptyString then Some ErrEmptyDescription else None
  end.

Fixpoint first_error (l : list OptionSpec) : option feature_error :=
  match l with
  | [] => None
  | s :: l' => match spec_check s with Some e => Some e | None => first_error l' end
  end.

Record PreviewConfig := mk_config {
  introduced_version : string;
  description_text : string;
  global_available : bool
}.

Definition config_step (c : PreviewConfig) (s : OptionSpec) : PreviewConfig :=
  match s with
  | SpecNil => c
  | SpecGlobalAvailable => mk_config (introduced_version c) (description_text c) true
  | SpecAddInVersion v => mk_config v (description_text c) (global_available c)
  | SpecDescription d => mk_config (introduced_version c) d (global_available c)
  end.

Definition config_of (l : list OptionSpec) : PreviewConfig :=
  fold_left config_step l (mk_config EmptyString EmptyString false).

(** A globally available preview starts enabled. *)
Definition preview_of_config (feature : string) (c : PreviewConfig) : Preview :=
  mk_preview feature (introduced_version c) (description_text c)
    (global_available c) (global_available c).

(** ** Lemmas *)

Lemma apply_options_app l1 l2 g :
  apply_options (l1 ++ l2) g = res_bind (apply_options l1 g) (apply_options l2).
Proof.
  revert g. induction l1 as [|o l1 IH]; intros g; simpl; [done|].
  destruct (apply o g); simpl; [apply IH | done].
Qed.

Lemma apply_options_denote l c feature :
  apply_options (map denote l) (preview_of_config feature c) =
  match first_error l with
  | Some e => Err e
  | None => Ok (preview_of_config feature (fold_left config_step l c))
  end.
Proof.
  revert c. induction l as [|s l IH]; intros c; simpl; [done|].
  destruct s as [| |v|d]; simpl.
  - done.
  - apply (IH (config_step c SpecGlobalAvailable)).
  - destruct (Semver.IsValid v); simpl; [apply (IH (config_step c (SpecAddInVersion v)))|done].
  - destruct (String.eqb d EmptyString); simpl; [done|apply (IH (config_step c (SpecDescription d)))].
Qed.

(** ** Properties *)

(** C4: constructing a preview from the package's options refines the
    configuration-struct specification: it fails with the error of the
    first invalid option (nil func, invalid semantic version, empty
    description), and otherwise yields the preview built from the
    configuration, where the last version and description win and
    global availability also sets [enabled]. *)
Theorem NewPreview_refines_config feature l :
  NewPreview feature (map denote l) =
  match first_error l with
  | Some e => Err e
  | None => Ok (preview_of_config feature (config_of l))
  end.
Proof. apply (apply_options_denote l (mk_config EmptyString EmptyString false)). Qed.

(** C5: for any options at all, a failed construction returns the error
    of the first option that fails, after the options before it
    succeeded: the later options are never applied. *)
Theorem NewPreview_first_error feature opts e :
  NewPreview feature opts = Err e ->
  exists pre o post g,
    opts = pre ++ o :: post /\
    apply_options pre (mk_preview feature EmptyString EmptyString false false) = Ok g /\
    apply o g = Err e.
Proof.
  unfold NewPreview. generalize (mk_preview feature EmptyString EmptyString false false).
  induction opts as [|o os IH]; intros g; simpl; [done|].
  destruct (apply o g) as [g'|e'] eqn:Ho; simpl.
  - intros (pre & o' & post & g'' & -> & Hpre & Ho')%IH.
    exists (o :: pre), o', post, g''. simpl. by rewrite Ho.
  - intros [= ->]. by exists [], o, os, g.
Qed.

Lemma NewPreview_first_error_witness :
  NewPreview "storage.cache"
    [WithPreviewDescription "enables caching"; WithPreviewAddInVersion "not-a-version";
     None] = Err (ErrVersionFormat "not-a-version") /\
  exists pre o post g,
    [WithPreviewDescription "enables caching"; WithPreviewAddInVersion "not-a-version"; None]
      = pre ++ o :: post /\
    apply_options pre (mk_preview "storage.cache" EmptyString EmptyString false false) = Ok g /\
    apply o g = Err (ErrVersionFormat "not-a-version").
Proof.
  split; [vm_compute; reflexivity|].
  apply (NewPreview_first_error "storage.cache"). vm_compute. reflexivity.
Defined.

(** The spec's examples of the options: an invalid version string
    and an empty description make construction fail, ["v9.9.0"] is
    recorded as the introduced version, and global availability sets
    both [GlobalAvailable] and [Enabled]. *)
Example preview_option_examples :
  NewPreview "a.b" [WithPreviewAddInVersion "not-a-version"] = Err (ErrVersionFormat "not-a-version") /\
  NewPreview "a.b" [WithPreviewDescription EmptyString] = Err ErrEmptyDescription /\
  NewPreview "a.b" [None] = Err ErrNilFunction /\
  (exists g, NewPreview "a.b" [WithPreviewAddInVersion "v9.9.0"] = Ok g /\ Introduced g = "v9.9.0") /\
  (exists g, NewPreview "a.b" [WithPreviewGlobalAvailable] = Ok g /\
             GlobalAvailable g = true /\ Enabled g = true).
Proof. vm_compute. repeat split; eauto. Qed.

End Preview.
