(* ===== verification/Registry.v ===== *)
(** * The feature-preview registry

    [src/internal/feature/registry.go]: [type Registry struct { features
    sync.Map }] with [NewRegistry], [All], [Configure], [Get],
    [Register] and [MustRegister].

    State: the [sync.Map] from names to [*Preview] is a [gmap string
    Preview].  Entries are never deleted and names are unique, so within
    one registry a [*Preview] is identified by its name: the pointer
    returned by [Register] or [Get] is the map entry, and a write through
    it ([SetEnabled] in [Configure]) is an update of that entry.  Each
    operation takes the registry and returns its result with the new
    registry; log records emitted through [tflog] are returned as a list.

    [regexp.MatchString] is called on a constant, valid pattern, so its
    error branch is dead and not modelled; the pattern
    [^[a-z0-9\._\-]+$] is [MatchName] (Go's [$] matches only at the end
    of the text).  [panic] in [MustRegister] is the [Panic] outcome.
    [All] collects the entries in the map's iteration order (unspecified)
    and sorts them with [slices.SortFunc], modelled by [sort_func]; the
    iterator it returns is [All] as a list, consumed by [run_seq]. *)

From stdpp Require Import gmap.
From S2P Require Import Prelude Semver Preview.
Import Preview.
Import (hints) Semver.

Module Registry.

Local Open Scope char_scope.

Record Registry := mk_registry { features : gmap string Preview }.

Definition NewRegistry : Registry := mk_registry ∅.

(** The character class [[a-z0-9\._\-]]. *)
Definition name_char (c : ascii) : bool :=
  (Ascii.leb "a" c && Ascii.leb c "z") || (Ascii.leb "0" c && Ascii.leb c "9") ||
  Ascii.eqb c "." || Ascii.eqb c "_" || Ascii.eqb c "-".

Fixpoint all_name_chars (s : string) : bool :=
  match s with
  | EmptyString => true
  | String c s' => name_char c && all_name_chars s'
  end.

(** [regexp.MatchString(`^[a-z0-9\._\-]+$`, feature)] *)
Definition MatchName (feature : string) : bool :=
  negb (String.eqb feature EmptyString) && all_name_chars feature.

(** [reg.features.Load(id)] *)
Definition Get (id : string) (reg : Registry) : option Preview :=
  features reg !! id.

(** [reg.features.Store(feature, g)] *)
Definition Store (feature : string) (g : Preview) (reg : Registry) : Registry :=
  mk_registry (<[feature := g]> (features reg)).

Definition Register (feature : string) (opts : list PreviewOption) (reg : Registry)
  : result Preview feature_error * Registry :=
  if negb (MatchName feature) then (Err (ErrNameFormat feature), reg) else
  match NewPreview feature opts with
  | Err e => (Err e, reg)
  | Ok g =>
      match Get feature reg with
      | Some _ => (Err (ErrAlreadyExists feature), reg)
      | None => (Ok g, Store feature g reg)
      end
  end.

(** A call that returns normally or panics. *)
Inductive outcome (A : Type) :=
| Normal (a : A)
| Panic (e : feature_error).
Arguments Normal {A} a.
Arguments Panic {A} e.

Definition MustRegister (feature : string) (opts : list PreviewOption) (reg : Registry)
  : outcome Preview * Registry :=
  match Register feature opts reg with
  | (Err e, reg') => (Panic e, reg')
  | (Ok g, reg') => (Normal g, reg')
  end.

(** The structured records [Configure] emits through [tflog]. *)
Inductive log_entry :=
| LogWarnGlobalAvailable (feature : string) (enabled : bool)
| LogDebugConfigured (feature : string) (enabled : bool) (added_in : string) (desc : string).

Definition Configure (feature : string) (enabled : bool) (reg : Registry)
  : result unit feature_error * Registry * list log_entry :=
  match Get feature reg with
  | None => (Err (ErrNotFound feature), reg, [])
  | Some p =>
      let warn := if GlobalAvailable p then [LogWarnGlobalAvailable feature (Enabled p)] else [] in
      let p' := SetEnabled enabled p in
      (Ok tt, Store feature p' reg,
       warn ++ [LogDebugConfigured feature (Enabled p') (Introduced p') (Description p')])
  end.

(** The comparator passed to [slices.SortFunc] in [All]. *)
Definition all_cmp : Preview -> Preview -> comparison :=
  lex_cmp (cmp_on Introduced Semver.Compare) (cmp_on Name go_string_compare).

(** [r.features.Range] appends the values in the map's order. *)
Definition range_values (reg : Registry) : list Preview :=
  (map_to_list (features reg)).*2.

Definition All (reg : Registry) : list (string * Preview) :=
  map (fun p => (Name p, p)) (sort_func all_cmp (range_values reg)).

(** Consuming the [iter.Seq2]: [for _, p := range previews { if
    !yield(p.Name(), p) { return } }]; the pairs passed to [yield]. *)
Fixpoint run_seq (l : list (string * Preview)) (yield : string -> Preview -> bool)
  : list (string * Preview) :=
  match l with
  | [] => []
  | (n, p) :: l' => (n, p) :: (if yield n p then run_seq l' yield else [])
  end.

(** ** Reachable registries *)

(** The operations that change a registry, as a step relation.  The
    options are those the package defines ([denote]); a [PreviewOption]
    is a [func] of package [feature], and no other exists. *)
Inductive step : Registry -> Registry -> Prop :=
| step_register feature (specs : list OptionSpec) reg :
    step reg (snd (Register feature (map denote specs) reg))
| step_configure feature b reg :
    step reg (snd (fst (Configure feature b reg))).

Inductive reachable : Registry -> Prop :=
| reachable_new : reachable NewRegistry
| reachable_step reg reg' : reachable reg -> step reg reg' -> reachable reg'.

(** Well-formedness: every entry is stored under its own name, which
    matches the naming pattern. *)
Definition reg_wf (reg : Registry) : Prop :=
  map_Forall (fun k p => Name p = k /\ MatchName k = true) (features reg).

(** ** Lemmas *)

Lemma Get_Store_eq feature g reg : Get feature (Store feature g reg) = Some g.
Proof. unfold Get, Store. simpl. apply lookup_insert_eq. Qed.

Lemma Get_Store_ne feature id g reg :
  id <> feature -> Get id (Store feature g reg) = Get id reg.
Proof. intros Hne. unfold Get, Store. simpl. by apply lookup_insert_ne. Qed.

#[export] Hint Rewrite Get_Store_eq : provider.
#[export] Hint Rewrite Get_Store_ne using congruence : provider.

Lemma SetEnabled_Enabled p : SetEnabled (Enabled p) p = p.
Proof. by destruct p. Qed.

Lemma SetEnabled_SetEnabled a b p : SetEnabled a (SetEnabled b p) = SetEnabled a p.
Proof. reflexivity. Qed.

(** Every failing [Register] leaves the registry as it was. *)
Lemma Register_err_state feature opts reg e reg' :
  Register feature opts reg = (Err e, reg') -> reg' = reg.
Proof.
  unfold Register. destruct (MatchName feature); simpl; [|congruence].
  destruct (NewPreview feature opts); [|congruence].
  destruct (Get feature reg); congruence.
Qed.

Lemma Register_ok_inv feature opts reg g reg' :
  Register feature opts reg = (Ok g, reg') ->
  MatchName feature = true /\ NewPreview feature opts = Ok g /\
  Get feature reg = None /\ reg' = Store feature g reg.
Proof.
  unfold Register. destruct (MatchName feature); simpl; [|congruence].
  destruct (NewPreview feature opts); [|congruence].
  destruct (Get feature reg); [congruence|]. intros [= -> ->]. auto.
Qed.

Lemma NewPreview_denote_name feature l g :
  NewPreview feature (map denote l) = Ok g -> Name g = feature.
Proof.
  unfold NewPreview.
  change (mk_preview feature EmptyString EmptyString false false)
    with (preview_of_config feature (mk_config EmptyString EmptyString false)).
  rewrite apply_options_denote.
  destruct (first_error l); [done|]. by intros [= <-].
Qed.

(** The registry after [Register]: the new entry, or nothing changed. *)
Lemma Register_state feature opts reg :
  snd (Register feature opts reg) = reg \/
  exists g, NewPreview feature opts = Ok g /\ MatchName feature = true /\
            Get feature reg = None /\ snd (Register feature opts reg) = Store feature g reg.
Proof.
  destruct (Register feature opts reg) as [[g|e] reg'] eqn:E; simpl.
  - right. apply Register_ok_inv in E as (? & ? & ? & ->). eauto.
  - left. by apply Register_err_state in E.
Qed.

(** The registry after [Configure]: unchanged, or the entry's enabled
    flag set. *)
Lemma Configure_state feature b reg :
  snd (fst (Configure feature b reg)) = reg \/
  exists p, Get feature reg = Some p /\
            snd (fst (Configure feature b reg)) = Store feature (SetEnabled b p) reg.
Proof.
  unfold Configure. destruct (Get feature reg) as [p|] eqn:E; simpl; [|auto].
  right. eauto.
Qed.

Lemma reg_wf_new : reg_wf NewRegistry.
Proof. apply map_Forall_empty. Qed.

Lemma reg_wf_Store reg feature g :
  reg_wf reg -> Name g = feature -> MatchName feature = true ->
  reg_wf (Store feature g reg).
Proof. intros Hwf Hn Hm. by apply map_Forall_insert_2. Qed.

Lemma reg_wf_Get reg id p : reg_wf reg -> Get id reg = Some p -> Name p = id /\ MatchName id = true.
Proof. intros Hwf Hp. exact (Hwf id p Hp). Qed.

Lemma step_wf reg reg' : step reg reg' -> reg_wf reg -> reg_wf reg'.
Proof.
  intros [feature specs reg0 | feature b reg0] Hwf.
  - destruct (Register_state feature (map denote specs) reg0) as [->|(g & Hg & Hm & _ & ->)];
      [done|].
    apply reg_wf_Store; [done | by eapply NewPreview_denote_name | done].
  - destruct (Configure_state feature b reg0) as [->|(p & Hp & ->)]; [done|].
    apply reg_wf_Store; [done | | ]; apply (reg_wf_Get reg0 feature p Hwf Hp).
Qed.

(** A step keeps every entry, changing at most its enabled flag. *)
Lemma step_keeps reg reg' id p :
  step reg reg' -> Get id reg = Some p -> exists b, Get id reg' = Some (SetEnabled b p).
Proof.
  intros [feature specs reg0 | feature b reg0] Hp.
  - exists (Enabled p). rewrite SetEnabled_Enabled.
    destruct (Register_state feature (map denote specs) reg0) as [->|(g & _ & _ & Hn & ->)];
      [done|].
    destruct (decide (id = feature)) as [->|Hne]; [congruence|]. by autorewrite with provider.
  - destruct (Configure_state feature b reg0) as [->|(p' & Hp' & ->)].
    + exists (Enabled p). by rewrite SetEnabled_Enabled.
    + destruct (decide (id = feature)) as [->|Hne].
      * exists b. rewrite Hp in Hp'. injection Hp' as ->. by autorewrite with provider.
      * exists (Enabled p). rewrite SetEnabled_Enabled. by autorewrite with provider.
Qed.

Lemma elem_of_range_values reg x :
  x ∈ range_values reg -> exists k, Get k reg = Some x.
Proof.
  unfold range_values. intros ([k x'] & -> & Hin)%list_elem_of_fmap.
  exists k. by apply elem_of_map_to_list.
Qed.

#[local] Instance all_cmp_GoCmp : GoCmp all_cmp.
Proof. unfold all_cmp. apply _. Qed.

(** In a well-formed registry the comparator of [All] ties no two
    distinct entries: names are keys. *)
Lemma all_cmp_strict reg x y :
  reg_wf reg -> x ∈ range_values reg -> y ∈ range_values reg ->
  all_cmp x y = Eq -> x = y.
Proof.
  intros Hwf (kx & Hx)%elem_of_range_values (ky & Hy)%elem_of_range_values Heq.
  apply lex_cmp_eq_r in Heq. unfold cmp_on in Heq. apply go_string_compare_eq in Heq.
  pose proof (reg_wf_Get reg kx x Hwf Hx) as [Hnx _].
  pose proof (reg_wf_Get reg ky y Hwf Hy) as [Hny _].
  congruence.
Qed.

(** ** Properties *)

(** C1: registering a name that matches [[a-z0-9._-]+] and is not yet
    registered, with options that all succeed, returns the constructed
    preview; afterwards [Get] finds exactly that preview under the name,
    and every other name is unaffected. *)
Theorem Register_success feature opts reg g :
  MatchName feature = true -> NewPreview feature opts = Ok g -> Get feature reg = None ->
  let '(r, reg') := Register feature opts reg in
  r = Ok g /\ Get feature reg' = Some g /\
  (forall id, id <> feature -> Get id reg' = Get id reg).
Proof.
  intros Hm Hg Hn. unfold Register. rewrite Hm, Hg, Hn. simpl.
  split; [done|]. split; [apply Get_Store_eq|]. intros id Hne. by apply Get_Store_ne.
Qed.

Lemma Register_success_witness :
  MatchName "storage.cache" = true /\
  NewPreview "storage.cache" [WithPreviewAddInVersion "v2.1.0"; WithPreviewDescription "enables caching"]
    = Ok (mk_preview "storage.cache" "v2.1.0" "enables caching" false false) /\
  Get "storage.cache" NewRegistry = None /\
  Get "storage.cache"
    (snd (Register "storage.cache"
            [WithPreviewAddInVersion "v2.1.0"; WithPreviewDescription "enables caching"] NewRegistry))
  = Some (mk_preview "storage.cache" "v2.1.0" "enables caching" false false).
Proof.
  assert (H := Register_success "storage.cache"
    [WithPreviewAddInVersion "v2.1.0"; WithPreviewDescription "enables caching"] NewRegistry
    (mk_preview "storage.cache" "v2.1.0" "enables caching" false false)
    ltac:(vm_compute; reflexivity) ltac:(vm_compute; reflexivity) ltac:(vm_compute; reflexivity)).
  destruct (Register _ _ _) as [r reg'] eqn:E. destruct H as (_ & Hget & _).
  split; [vm_compute; reflexivity|]. split; [vm_compute; reflexivity|].
  split; [vm_compute; reflexivity|]. exact Hget.
Defined.

(** C2: the comparator [All] passes to [slices.SortFunc] is a total
    preorder on all previews, valid versions or not: swapping its
    arguments flips the sign, and "not greater" is transitive, as Go's
    sort requires. *)
Theorem all_cmp_total_preorder :
  (forall a b, all_cmp a b = CompOpp (all_cmp b a)) /\
  (forall a b c, all_cmp a b <> Gt -> all_cmp b c <> Gt -> all_cmp a c <> Gt).
Proof. split; [apply (cmp_antisym all_cmp) | apply (cmp_le_trans all_cmp)]. Qed.

(** C3: [All] orders previews by their parsed introduced version, then
    by name: invalid versions first and tied with each other; then major,
    minor and patch numerically; then the prerelease, where none is
    greatest and identifiers compare numerically before lexically; build
    metadata and the short forms [v1], [v1.2] play no part. *)
Theorem all_cmp_matches_reference a b :
  all_cmp a b =
  match option_cmp Semver.parsed_cmp (Semver.parse (Introduced a)) (Semver.parse (Introduced b)) with
  | Eq => go_string_compare (Name a) (Name b)
  | c => c
  end.
Proof. unfold all_cmp, lex_cmp, cmp_on. by rewrite Semver.Compare_eq_ref. Qed.

(** C6: a failed registration leaves the registry unchanged, and its
    error says which check failed, in the code's order: the name does not
    match the pattern; else an option failed (with that option's error);
    else the name is already registered. *)
Theorem Register_failure feature opts reg e reg' :
  Register feature opts reg = (Err e, reg') ->
  reg' = reg /\
  ((MatchName feature = false /\ e = ErrNameFormat feature) \/
   (MatchName feature = true /\ NewPreview feature opts = Err e) \/
   (MatchName feature = true /\ is_ok (NewPreview feature opts) = true /\
    e = ErrAlreadyExists feature /\ is_Some (Get feature reg))).
Proof.
  intros H. split; [by eapply Register_err_state|]. revert H.
  unfold Register. destruct (MatchName feature); simpl; [|intros [= <- _]; auto].
  destruct (NewPreview feature opts) as [g|e'] eqn:Eg; [|intros [= <- _]; auto].
  destruct (Get feature reg) eqn:Eget; [|done]. intros [= <- _]. right; right.
  split; [done|]. split; [done|]. split; [done|]. eauto.
Qed.

Lemma Register_failure_witness :
  let reg := snd (Register "storage.cache" [] NewRegistry) in
  Register "storage.cache" [WithPreviewDescription "again"] reg
    = (Err (ErrAlreadyExists "storage.cache"), reg) /\
  Get "storage.cache" reg = Some (mk_preview "storage.cache" EmptyString EmptyString false false) /\
  (MatchName "storage.cache" = true /\ is_ok (NewPreview "storage.cache" [WithPreviewDescription "again"]) = true /\
   ErrAlreadyExists "storage.cache" = ErrAlreadyExists "storage.cache" /\ is_Some (Get "storage.cache" reg)).
Proof.
  intros reg. assert (Hr : Register "storage.cache" [WithPreviewDescription "again"] reg
    = (Err (ErrAlreadyExists "storage.cache"), reg)) by (vm_compute; reflexivity).
  split; [exact Hr|]. split; [vm_compute; reflexivity|].
  destruct (Register_failure _ _ _ _ _ Hr) as [_ [[Hm _]|[[_ Hn]|H]]];
    [vm_compute in Hm; discriminate | vm_compute in Hn; discriminate | exact H].
Defined.

(** C7: every registry reachable from [NewRegistry] by [Register] and
    [Configure] is well formed: each preview is stored under its own
    name, and every stored name matches the naming pattern. *)
Theorem reachable_wf reg : reachable reg -> reg_wf reg.
Proof.
  induction 1 as [|reg reg' _ IH Hs]; [apply reg_wf_new | by eapply step_wf].
Qed.

Lemma reachable_wf_witness :
  let reg := snd (Register "storage.cache" (map denote [SpecAddInVersion "v2.1.0"]) NewRegistry) in
  reachable reg /\ reg_wf reg.
Proof.
  intros reg.
  assert (Hr : reachable reg)
    by (apply (reachable_step NewRegistry); [apply reachable_new | apply step_register]).
  split; [exact Hr | exact (reachable_wf reg Hr)].
Defined.

(** C8: entries are never removed, and only their enabled flag ever
    changes: along any sequence of [Register] and [Configure] calls, a
    preview found under a name is found again under it, equal up to
    [SetEnabled]. *)
Theorem registered_persists reg reg' id p :
  rtc step reg reg' -> Get id reg = Some p ->
  exists b, Get id reg' = Some (SetEnabled b p).
Proof.
  intros Hrtc. revert p. induction Hrtc as [reg|reg reg1 reg' Hs _ IH]; intros p Hp.
  - exists (Enabled p). by rewrite SetEnabled_Enabled.
  - destruct (step_keeps reg reg1 id p Hs Hp) as [b Hb].
    destruct (IH _ Hb) as [b' Hb']. exists b'. by rewrite SetEnabled_SetEnabled in Hb'.
Qed.

Lemma registered_persists_witness :
  let reg := snd (Register "a.b" [] NewRegistry) in
  let reg' := snd (fst (Configure "a.b" true reg)) in
  rtc step reg reg' /\
  Get "a.b" reg = Some (mk_preview "a.b" EmptyString EmptyString false false) /\
  exists b, Get "a.b" reg' = Some (SetEnabled b (mk_preview "a.b" EmptyString EmptyString false false)).
Proof.
  intros reg reg'.
  assert (Hs : rtc step reg reg') by (apply rtc_once, step_configure).
  assert (Hg : Get "a.b" reg = Some (mk_preview "a.b" EmptyString EmptyString false false))
    by (vm_compute; reflexivity).
  split; [exact Hs|]. split; [exact Hg|].
  exact (registered_persists reg reg' "a.b" _ Hs Hg).
Defined.

(** C9: [Configure] on a registered name succeeds, stores the preview
    with [enabled] set to the requested value and nothing else changed,
    leaves the other names alone, emits a warning carrying the previous
    enabled value exactly when the preview is globally available, and
    always emits the debug record with the new state. *)
Theorem Configure_registered feature b reg p :
  Get feature reg = Some p ->
  let '(r, reg', logs) := Configure feature b reg in
  r = Ok tt /\ Get feature reg' = Some (SetEnabled b p) /\
  (forall id, id <> feature -> Get id reg' = Get id reg) /\
  logs = (if GlobalAvailable p then [LogWarnGlobalAvailable feature (Enabled p)] else []) ++
         [LogDebugConfigured feature b (Introduced p) (Description p)].
Proof.
  intros Hp. unfold Configure. rewrite Hp.
  split; [done|]. split; [apply Get_Store_eq|]. split; [|done].
  intros id Hne. by apply Get_Store_ne.
Qed.

Lemma Configure_registered_witness :
  let reg := snd (Register "storage.cache"
                    [WithPreviewAddInVersion "v2.1.0"; WithPreviewDescription "enables caching"] NewRegistry) in
  Get "storage.cache" reg = Some (mk_preview "storage.cache" "v2.1.0" "enables caching" false false) /\
  fst (fst (Configure "storage.cache" true reg)) = Ok tt /\
  option_map Enabled (Get "storage.cache" (snd (fst (Configure "storage.cache" true reg)))) = Some true.
Proof.
  intros reg.
  assert (Hg : Get "storage.cache" reg = Some (mk_preview "storage.cache" "v2.1.0" "enables caching" false false))
    by (vm_compute; reflexivity).
  pose proof (Configure_registered "storage.cache" true reg _ Hg) as H.
  destruct (Configure "storage.cache" true reg) as [[r reg'] logs].
  destruct H as (-> & Hget & _). simpl. rewrite Hget. auto.
Defined.

(** [Configure] on an unknown name returns the not-found error,
    leaves the registry unchanged and logs nothing. *)
Theorem Configure_unknown feature b reg :
  Get feature reg = None -> Configure feature b reg = (Err (ErrNotFound feature), reg, []).
Proof. intros Hn. unfold Configure. by rewrite Hn. Qed.

Lemma Configure_unknown_witness :
  Get "unknown.feature" NewRegistry = None /\
  Configure "unknown.feature" true NewRegistry = (Err (ErrNotFound "unknown.feature"), NewRegistry, []).
Proof. split; [reflexivity | apply Configure_unknown; reflexivity]. Defined.

(** The pairs [All] yields are the registry's own entries when each
    entry is keyed by its preview's name. *)
Lemma name_pairs_values (l : list (string * Preview)) :
  Forall (fun kp => Name kp.2 = kp.1) l -> map (fun p => (Name p, p)) l.*2 = l.
Proof. induction 1 as [|[k p] l Hk _ IH]; simpl in *; [done|]. f_equal; [congruence|exact IH]. Qed.

Lemma reg_wf_range_values reg :
  reg_wf reg -> map (fun p => (Name p, p)) (range_values reg) = map_to_list (features reg).
Proof.
  intros Hwf. apply name_pairs_values.
  assert (H : Forall (uncurry (fun k p => Name p = k)) (map_to_list (features reg))).
  { apply map_Forall_to_list. eapply map_Forall_impl; [exact Hwf|]. naive_solver. }
  eapply Forall_impl; [exact H|]. by intros [k p].
Qed.

(** C10: in a well-formed registry [All] yields exactly the registry's
    entries, each [(name, preview)] pair once, sorted by semantic version
    of [Introduced] and then by name. *)
Theorem All_sorted reg :
  reg_wf reg ->
  All reg ≡ₚ map_to_list (features reg) /\
  StronglySorted (fun a b => all_cmp a b <> Gt) (map snd (All reg)).
Proof.
  intros Hwf. rewrite <-(reg_wf_range_values reg Hwf). unfold All. split.
  - apply Permutation_map, sort_func_Permutation.
  - rewrite map_map. simpl. rewrite map_id. apply (sort_func_sorted all_cmp).
Qed.

Lemma All_sorted_witness :
  let reg := snd (Register "b.feature" [WithPreviewAddInVersion "v1.0.0"]
                   (snd (Register "a.feature" [WithPreviewAddInVersion "v2.0.0"] NewRegistry))) in
  reg_wf reg /\
  All reg ≡ₚ map_to_list (features reg) /\
  StronglySorted (fun a b => all_cmp a b <> Gt) (map snd (All reg)).
Proof.
  intros reg.
  assert (Hwf : reg_wf reg) by (apply (bool_decide_eq_true_1 _); vm_compute; reflexivity).
  split; [exact Hwf|]. exact (All_sorted reg Hwf).
Defined.

(** C11: in a well-formed registry the order of [All] is determined: it
    is the only sorted arrangement of the entries, whatever order the
    [sync.Map] iterates in and whichever sorting algorithm
    [slices.SortFunc] uses. *)
Theorem All_deterministic reg l :
  reg_wf reg -> l ≡ₚ range_values reg ->
  StronglySorted (fun a b => all_cmp a b <> Gt) l -> map snd (All reg) = l.
Proof.
  intros Hwf Hp Hs. unfold All. rewrite map_map. simpl. rewrite map_id.
  apply (sort_func_unique all_cmp); [| done | done].
  intros x y Hx Hy. by apply (all_cmp_strict reg).
Qed.

Lemma All_deterministic_witness :
  let reg := snd (Register "a.feature" [WithPreviewAddInVersion "v1.0.0"]
                   (snd (Register "b.feature" [WithPreviewAddInVersion "v1.0.0"] NewRegistry))) in
  let l := [mk_preview "a.feature" "v1.0.0" EmptyString false false;
            mk_preview "b.feature" "v1.0.0" EmptyString false false] in
  reg_wf reg /\ l ≡ₚ range_values reg /\
  StronglySorted (fun a b => all_cmp a b <> Gt) l /\
  map fst (All reg) = ["a.feature"; "b.feature"]%string /\ map snd (All reg) = l.
Proof.
  intros reg l.
  assert (Hwf : reg_wf reg) by (apply (bool_decide_eq_true_1 _); vm_compute; reflexivity).
  assert (Hp : l ≡ₚ range_values reg) by (apply (bool_decide_eq_true_1 _); vm_compute; reflexivity).
  assert (Hs : StronglySorted (fun a b => all_cmp a b <> Gt) l)
    by (apply (bool_decide_eq_true_1 _); vm_compute; reflexivity).
  split; [exact Hwf|]. split; [exact Hp|]. split; [exact Hs|].
  split; [vm_compute; reflexivity|]. exact (All_deterministic reg l Hwf Hp Hs).
Defined.

End Registry.
