(* ===== verification/RegistryConcurrency.v ===== *)
(** * Concurrent registration: pointers and interleavings

    [Registry.Register] in [src/internal/feature/registry.go] checks for
    the name with [reg.Get] and then calls [reg.features.Store]: two
    atomic [sync.Map] operations, with the regular expression and
    [NewPreview] before them.  The registry stores [*Preview] pointers;
    [Register] hands the pointer to its caller and [Configure] mutates
    the pointed-to preview with [SetEnabled].

    This file makes both visible.  [Heap] holds the map from names to
    addresses and the previews at those addresses.  A [Register] call is
    a thread with two steps: [register_check] runs everything up to and
    including the [Get] check (allocating the new preview), and
    [register_store] is the [Store].  A schedule is a list of thread
    indices ([run]); [cstep] is the step relation of any number of such
    threads together with [Configure] calls.

    Results: a thread run without interruption refines the sequential
    [Registry.Register] through [project]; two interleaved registrations
    of one name both succeed and the first caller's pointer is lost; in
    every reachable state no two names share a preview, so [Configure]
    of one name never changes another. *)

From stdpp Require Import gmap.
From S2P Require Import Prelude Preview Registry.
Import Preview Registry.

Module RegistryConcurrency.

(** ** State *)

(** The address of a [Preview] allocated by [NewPreview]. *)
Abbreviation loc := nat (only parsing).

(** The [sync.Map] of pointers and the previews they point to;
    [h_next] is the next free address. *)
Record Heap := mk_heap {
  h_features : gmap string loc;
  h_heap : gmap loc Preview;
  h_next : loc
}.

Definition heap_empty : Heap := mk_heap ∅ ∅ 0.

(** The registry of values the heap represents. *)
Definition project (h : Heap) : Registry :=
  mk_registry (omap (fun l => h_heap h !! l) (h_features h)).

(** ** A [Register] call as a thread *)

Inductive reg_pc :=
| RStart (feature : string) (opts : list PreviewOption)
| RChecked (feature : string) (l : loc)    (* the [Get] check passed; [g] is at [l] *)
| RDone (r : result loc feature_error).

(** [NewPreview] allocates [g]; [reg.Get(feature)] is checked on the
    current map.  Everything up to the check happens in one step: only
    the [Get] reads shared state. *)
Definition register_check (feature : string) (opts : list PreviewOption) (h : Heap)
  : reg_pc * Heap :=
  if negb (MatchName feature) then (RDone (Err (ErrNameFormat feature)), h) else
  match NewPreview feature opts with
  | Err e => (RDone (Err e), h)
  | Ok g =>
      let l := h_next h in
      let h' := mk_heap (h_features h) (<[l := g]> (h_heap h)) (S l) in
      match h_features h !! feature with
      | Some _ => (RDone (Err (ErrAlreadyExists feature)), h')
      | None => (RChecked feature l, h')
      end
  end.

(** [reg.features.Store(feature, g)] *)
Definition register_store (feature : string) (l : loc) (h : Heap) : Heap :=
  mk_heap (<[feature := l]> (h_features h)) (h_heap h) (h_next h).

Definition thread_step (pc : reg_pc) (h : Heap) : option (reg_pc * Heap) :=
  match pc with
  | RStart f opts => Some (register_check f opts h)
  | RChecked f l => Some (RDone (Ok l), register_store f l h)
  | RDone _ => None
  end.

(** [Configure]: [reg.Get(name)] then [p.SetEnabled(enabled)] on the
    shared preview. *)
Definition configure_heap (feature : string) (enabled : bool) (h : Heap)
  : result unit feature_error * Heap :=
  match h_features h !! feature with
  | None => (Err (ErrNotFound feature), h)
  | Some l =>
      match h_heap h !! l with
      | Some p => (Ok tt, mk_heap (h_features h) (<[l := SetEnabled enabled p]> (h_heap h)) (h_next h))
      | None => (Err (ErrNotFound feature), h)
      end
  end.

(** A schedule: the thread that takes the next step; a finished or
    absent thread lets its turn pass. *)
Fixpoint run (sched : list nat) (ts : list reg_pc) (h : Heap) : list reg_pc * Heap :=
  match sched with
  | [] => (ts, h)
  | i :: rest =>
      match ts !! i ≫= fun pc => thread_step pc h with
      | Some (pc', h') => run rest (<[i := pc']> ts) h'
      | None => run rest ts h
      end
  end.

(** What a finished thread's caller holds: the preview its pointer
    points to, or the error. *)
Definition deref (h : Heap) (pc : reg_pc) : option (result Preview feature_error) :=
  match pc with
  | RDone (Ok l) => Ok <$> h_heap h !! l
  | RDone (Err e) => Some (Err e)
  | _ => None
  end.

(** ** Any number of threads and [Configure] calls *)

Definition cstate : Type := list reg_pc * Heap.

Inductive cstep : cstate -> cstate -> Prop :=
| cstep_thread i pc pc' ts h h' :
    ts !! i = Some pc -> thread_step pc h = Some (pc', h') ->
    cstep (ts, h) (<[i := pc']> ts, h')
| cstep_spawn f opts ts h :
    cstep (ts, h) (ts ++ [RStart f opts], h)
| cstep_configure f e ts h :
    cstep (ts, h) (ts, snd (configure_heap f e h)).

Definition creachable (s : cstate) : Prop := rtc cstep ([], heap_empty) s.

(** The invariant: names point to allocated previews below [h_next], no
    two names share a pointer, and a thread between its check and its
    store holds an allocated pointer no name and no other thread has. *)
Definition heap_ok (h : Heap) : Prop :=
  map_Forall (fun _ l => l < h_next h /\ is_Some (h_heap h !! l)) (h_features h).

Definition no_alias (h : Heap) : Prop :=
  forall f1 f2 l, h_features h !! f1 = Some l -> h_features h !! f2 = Some l -> f1 = f2.

Definition pending_ok (ts : list reg_pc) (h : Heap) : Prop :=
  (forall i f l, ts !! i = Some (RChecked f l) ->
     l < h_next h /\ is_Some (h_heap h !! l) /\ forall f', h_features h !! f' <> Some l) /\
  (forall i j f1 f2 l, ts !! i = Some (RChecked f1 l) -> ts !! j = Some (RChecked f2 l) -> i = j).

Definition cwf (s : cstate) : Prop :=
  heap_ok s.2 /\ no_alias s.2 /\ pending_ok s.1 s.2.

(** ** Lemmas: the represented registry *)

Lemma Get_project h f : Get f (project h) = h_features h !! f ≫= (h_heap h !!.).
Proof. apply lookup_omap. Qed.

Lemma Get_project_None h f :
  heap_ok h -> Get f (project h) = None <-> h_features h !! f = None.
Proof.
  intros Hok. rewrite Get_project. destruct (h_features h !! f) as [l|] eqn:E; simpl; [|done].
  apply Hok in E as [_ [p ->]]. done.
Qed.

(** Allocating at the next free address leaves the represented registry
    unchanged. *)
Lemma project_alloc h g :
  heap_ok h ->
  project (mk_heap (h_features h) (<[h_next h := g]> (h_heap h)) (S (h_next h))) = project h.
Proof.
  intros Hok. unfold project; simpl. f_equal. apply map_eq; intros f.
  rewrite !lookup_omap. destruct (h_features h !! f) as [l|] eqn:E; simpl; [|done].
  apply Hok in E as [Hlt _]. rewrite lookup_insert_ne by lia. done.
Qed.

Lemma project_store h f l g :
  h_heap h !! l = Some g -> project (register_store f l h) = Store f g (project h).
Proof.
  intros Hg. unfold project, register_store, Store; simpl. f_equal.
  by apply omap_insert_Some.
Qed.

(** Writing the preview at a name's address, when no other name shares
    it, is a [Store] at that name. *)
Lemma project_write h f l p :
  no_alias h -> h_features h !! f = Some l ->
  project (mk_heap (h_features h) (<[l := p]> (h_heap h)) (h_next h)) = Store f p (project h).
Proof.
  intros Hna Hf. unfold project, Store; simpl. f_equal. apply map_eq; intros f'.
  rewrite !lookup_omap. destruct (decide (f = f')) as [<-|Hne].
  - rewrite lookup_insert_eq, Hf. simpl. by rewrite lookup_insert_eq.
  - rewrite lookup_insert_ne, lookup_omap by done.
    destruct (h_features h !! f') as [l'|] eqn:E; simpl; [|done].
    rewrite lookup_insert_ne; [done|]. intros Heq. apply Hne, (Hna f f' l); [done|by rewrite Heq].
Qed.

(** ** Lemmas: the invariant *)

Lemma heap_ok_mono h h' :
  h_features h' = h_features h -> h_next h <= h_next h' ->
  (forall l, is_Some (h_heap h !! l) -> is_Some (h_heap h' !! l)) ->
  heap_ok h -> heap_ok h'.
Proof.
  unfold heap_ok. intros Hf Hn Hh Hok. rewrite Hf. intros f l E.
  apply Hok in E as [? ?]. split; [lia|auto].
Qed.

Lemma pending_ok_mono ts h h' :
  h_features h' = h_features h -> h_next h <= h_next h' ->
  (forall l, is_Some (h_heap h !! l) -> is_Some (h_heap h' !! l)) ->
  pending_ok ts h -> pending_ok ts h'.
Proof.
  intros Hf Hn Hh [Hp Hu]. split; [|done].
  intros i f l Hi. destruct (Hp i f l Hi) as (? & ? & Hno). rewrite Hf.
  split_and!; [lia|auto|done].
Qed.

(** Replacing a thread's state by one that is not between check and
    store keeps the pending part of the invariant. *)
Lemma pending_ok_settle ts h i pc :
  (forall f l, pc <> RChecked f l) -> pending_ok ts h -> pending_ok (<[i := pc]> ts) h.
Proof.
  intros Hpc [Hp Hu]. split.
  - intros j f l [(_ & Heq & _)|(_ & Hj)]%list_lookup_insert_Some;
      [by destruct (Hpc f l)|eauto].
  - intros j k f1 f2 l [(_ & Heq1 & _)|(_ & Hj)]%list_lookup_insert_Some
           [(_ & Heq2 & _)|(_ & Hk)]%list_lookup_insert_Some;
      first [by destruct (Hpc _ _ Heq1) | by destruct (Hpc _ _ Heq2) | eauto].
Qed.

Lemma is_Some_insert_mono (m : gmap loc Preview) k p l :
  is_Some (m !! l) -> is_Some (<[k := p]> m !! l).
Proof. intros. rewrite lookup_insert. case_decide; auto. Qed.

Lemma register_check_cwf ts h i f opts :
  ts !! i = Some (RStart f opts) -> cwf (ts, h) ->
  cwf (<[i := (register_check f opts h).1]> ts, (register_check f opts h).2).
Proof.
  intros Hi (Hok & Hna & Hpend).
  cbn in Hok, Hna, Hpend |- *. unfold register_check.
  destruct (MatchName f); simpl;
    [|split_and!; [done|done|apply pending_ok_settle; [congruence|done]]].
  destruct (NewPreview f opts) as [g|e]; simpl;
    [|split_and!; [done|done|apply pending_ok_settle; [congruence|done]]].
  set (h' := mk_heap (h_features h) (<[h_next h := g]> (h_heap h)) (S (h_next h))).
  assert (Hmono : forall l, is_Some (h_heap h !! l) -> is_Some (h_heap h' !! l))
    by (intros; by apply is_Some_insert_mono).
  assert (Hok' : heap_ok h') by (apply (heap_ok_mono h h'); [done|simpl; lia|done|done]).
  assert (Hpend' : pending_ok ts h') by (apply (pending_ok_mono ts h h'); [done|simpl; lia|done|done]).
  destruct (h_features h !! f) eqn:E; simpl.
  - split_and!; [done|exact Hna|apply pending_ok_settle; [congruence|done]].
  - split_and!; [done|exact Hna|]. destruct Hpend as [Hp Hu]. split.
    + intros j f' l [(<- & Heq & _)|(_ & Hj)]%list_lookup_insert_Some; [|by apply Hpend' in Hj].
      injection Heq as <- <-. unfold h'; simpl. split_and!; [lia|rewrite lookup_insert_eq; eauto|].
      intros f'' Hf''. apply Hok in Hf'' as [? _]. lia.
    + intros j k f1 f2 l [(<- & Heq1 & _)|(_ & Hj)]%list_lookup_insert_Some
             [(<- & Heq2 & _)|(_ & Hk)]%list_lookup_insert_Some; try done.
      * injection Heq1 as <- <-. apply Hp in Hk as [? _]. lia.
      * injection Heq2 as <- <-. apply Hp in Hj as [? _]. lia.
      * eauto.
Qed.

Lemma register_store_cwf ts h i f l :
  ts !! i = Some (RChecked f l) -> cwf (ts, h) ->
  cwf (<[i := RDone (Ok l)]> ts, register_store f l h).
Proof.
  intros Hi (Hok & Hna & [Hp Hu]). destruct (Hp i f l Hi) as (Hlt & Halloc & Hfree).
  destruct (pending_ok_settle ts h i (RDone (Ok l)) ltac:(discriminate) (conj Hp Hu)) as [_ Hu'].
  split_and!; [| |split; [|exact Hu']].
  - intros f' l'. simpl. rewrite lookup_insert_Some.
    intros [[<- <-]|[_ E]]; [done|by apply Hok in E].
  - intros f1 f2 l'. simpl. rewrite !lookup_insert_Some.
    intros [[<- <-]|[Hne1 E1]] [[<- Heq]|[Hne2 E2]]; try done.
    + by destruct (Hfree f2).
    + subst. by destruct (Hfree f1).
    + eauto.
  - intros j f' l' [(_ & Heq & _)|(Hij & Hj)]%list_lookup_insert_Some; [discriminate|].
    destruct (Hp j f' l' Hj) as (? & ? & Hfree'). simpl. split_and!; [done|done|].
    intros f''. rewrite lookup_insert_Some. intros [[_ Heq]|[_ E]]; [|by apply (Hfree' f'')].
    subst l'. apply Hij. eauto.
Qed.

Lemma spawn_cwf ts h f opts : cwf (ts, h) -> cwf (ts ++ [RStart f opts], h).
Proof.
  intros (Hok & Hna & [Hp Hu]). cbn in Hok, Hna, Hp, Hu |- *.
  assert (Hnew : forall j f' l, (ts ++ [RStart f opts]) !! j = Some (RChecked f' l) -> ts !! j = Some (RChecked f' l)).
  { intros j f' l [Hj|(_ & Hj)]%lookup_app_Some; [done|].
    destruct (j - List.length ts) as [|[]]; discriminate. }
  split_and!; [done|done|split]; eauto.
Qed.

Lemma configure_cwf ts h f e : cwf (ts, h) -> cwf (ts, (configure_heap f e h).2).
Proof.
  intros (Hok & Hna & Hpend).
  cbn in Hok, Hna, Hpend |- *. unfold configure_heap.
  destruct (h_features h !! f) as [l|]; simpl; [|by split_and!].
  destruct (h_heap h !! l) as [p|]; simpl; [|by split_and!].
  split_and!; [apply (heap_ok_mono h)|exact Hna|apply (pending_ok_mono ts h)]; try done; simpl; try lia;
    intros; by apply is_Some_insert_mono.
Qed.

Lemma cstep_cwf s s' : cstep s s' -> cwf s -> cwf s'.
Proof.
  intros [i pc pc' ts h h' Hi Hstep|f opts ts h|f e ts h] Hc;
    [|by apply spawn_cwf|by apply configure_cwf].
  destruct pc as [f opts|f l|r]; simpl in Hstep;
    [|injection Hstep as <- <-; by apply register_store_cwf|discriminate].
  pose proof (register_check_cwf ts h i f opts Hi Hc) as Hc'.
  injection Hstep as Hrc. by rewrite Hrc in Hc'.
Qed.

Lemma creachable_inv s : creachable s -> cwf s.
Proof.
  apply (rtc_ind_r cwf); [|intros y z _ Hstep; by apply cstep_cwf].
  cbn. split_and!; [by apply map_Forall_empty|intros ? ? ? H1; vm_compute in H1; discriminate|].
  split; [intros i f l H1|intros i j f1 f2 l H1]; discriminate.
Qed.

(** ** Properties *)

(** C27: a [Register] thread that runs its two steps without
    interruption refines the sequential model: on a well-formed heap
    the caller gets what [Registry.Register] returns (the preview behind
    the pointer, or the same error) and the represented registry is the
    one [Registry.Register] produces. *)
Theorem register_thread_refines f opts h :
  heap_ok h ->
  match run [0; 0] [RStart f opts] h with
  | ([pc], h') => deref h' pc = Some (Register f opts (project h)).1 /\
                  project h' = (Register f opts (project h)).2
  | _ => False
  end.
Proof.
  intros Hok. simpl. unfold register_check, Register.
  destruct (MatchName f); simpl; [|done].
  destruct (NewPreview f opts) as [g|e]; simpl; [|done].
  destruct (h_features h !! f) as [l|] eqn:E; simpl.
  - destruct (Hok f l E) as [_ [p Hp]].
    rewrite Get_project, E. simpl. rewrite Hp. simpl.
    split; [done|by apply project_alloc].
  - rewrite (proj2 (Get_project_None h f Hok) E). simpl.
    rewrite lookup_insert_eq. split; [done|].
    rewrite (project_store _ f (h_next h) g); [|simpl; by rewrite lookup_insert_eq].
    by rewrite project_alloc.
Qed.

(** C28: two [Register] calls for the same new name, interleaved check,
    check, store, store, both succeed: neither gets the duplicate error,
    the second store wins, and the first caller's preview is no longer
    reachable by name, so a later [Configure] of the name leaves it
    unchanged. *)
Theorem register_race f opts h g :
  MatchName f = true -> NewPreview f opts = Ok g -> h_features h !! f = None ->
  match run [0; 1; 0; 1] [RStart f opts; RStart f opts] h with
  | (ts, h') =>
      ts = [RDone (Ok (h_next h)); RDone (Ok (S (h_next h)))] /\
      h_features h' !! f = Some (S (h_next h)) /\
      map (deref h') ts = [Some (Ok g); Some (Ok g)] /\
      h_heap (configure_heap f (negb (Enabled g)) h').2 !! h_next h = Some g /\
      Get f (project (configure_heap f (negb (Enabled g)) h').2) =
        Some (SetEnabled (negb (Enabled g)) g)
  end.
Proof.
  intros Hm Hg Hf. simpl. unfold register_check. rewrite Hm, Hg. simpl. rewrite Hf. simpl.
  rewrite Hf. unfold register_store, configure_heap, deref; simpl.
  repeat (first [rewrite lookup_insert_eq|rewrite lookup_insert_ne by lia]; simpl).
  rewrite Get_project. simpl.
  repeat (first [rewrite lookup_insert_eq|rewrite lookup_insert_ne by lia]; simpl).
  done.
Qed.

(** In every state reachable by any number of interleaved [Register]
    threads and [Configure] calls, no two names share a preview and every
    registered name resolves to one: each [Register] allocates its own
    preview, whether or not its store wins. *)
Lemma creachable_no_alias ts h :
  creachable (ts, h) ->
  (forall f1 f2 l, h_features h !! f1 = Some l -> h_features h !! f2 = Some l -> f1 = f2) /\
  (forall f, is_Some (h_features h !! f) -> is_Some (Get f (project h))).
Proof.
  intros (Hok & Hna & _)%creachable_inv. split; [exact Hna|].
  intros f [l E]. rewrite Get_project, E. simpl. by destruct (Hok f l E).
Qed.

(** C29: in every reachable state, [Configure] through the shared
    pointer refines the sequential [Registry.Configure]: the same result,
    and the represented registry changes as [Registry.Configure] says
    (only the configured name). *)
Theorem configure_heap_refines ts h f e :
  creachable (ts, h) ->
  (configure_heap f e h).1 = (Configure f e (project h)).1.1 /\
  project (configure_heap f e h).2 = (Configure f e (project h)).1.2.
Proof.
  intros (Hok & Hna & _)%creachable_inv. cbn in Hok, Hna.
  unfold configure_heap, Configure. rewrite Get_project.
  destruct (h_features h !! f) as [l|] eqn:E; simpl; [|done].
  destruct (Hok f l E) as [_ [p Hp]]. rewrite Hp. simpl.
  split; [done|by apply project_write].
Qed.

(** ** Witnesses *)

Lemma register_thread_refines_witness :
  heap_ok heap_empty /\
  match run [0; 0] [RStart "provider.tags" []] heap_empty with
  | ([pc], h') => deref h' pc = Some (Register "provider.tags" [] (project heap_empty)).1 /\
                  project h' = (Register "provider.tags" [] (project heap_empty)).2
  | _ => False
  end.
Proof.
  assert (Hok : heap_ok heap_empty) by apply map_Forall_empty.
  split; [exact Hok|exact (register_thread_refines "provider.tags" [] heap_empty Hok)].
Defined.

Lemma register_race_witness :
  exists g, NewPreview "provider.tags" [] = Ok g /\
  match run [0; 1; 0; 1] [RStart "provider.tags" []; RStart "provider.tags" []] heap_empty with
  | (ts, h') =>
      ts = [RDone (Ok 0); RDone (Ok 1)] /\
      h_features h' !! "provider.tags" = Some 1 /\
      map (deref h') ts = [Some (Ok g); Some (Ok g)] /\
      h_heap (configure_heap "provider.tags" (negb (Enabled g)) h').2 !! 0 = Some g /\
      Get "provider.tags" (project (configure_heap "provider.tags" (negb (Enabled g)) h').2) =
        Some (SetEnabled (negb (Enabled g)) g)
  end.
Proof.
  eexists. split; [vm_compute; reflexivity|].
  exact (register_race "provider.tags" [] heap_empty _ ltac:(vm_compute; reflexivity)
           ltac:(vm_compute; reflexivity) ltac:(vm_compute; reflexivity)).
Defined.

(** A reachable state: one thread registered ["provider.tags"]. *)
Lemma one_registration_reachable :
  creachable ([RDone (Ok 0)], snd (run [0; 0] [RStart "provider.tags" []] heap_empty)).
Proof.
  eapply rtc_l; [apply (cstep_spawn "provider.tags" [])|]. simpl.
  eapply rtc_l; [apply (cstep_thread 0 (RStart "provider.tags" [])); [done|reflexivity]|].
  simpl. eapply rtc_l; [apply (cstep_thread 0 (RChecked "provider.tags" 0)); [done|reflexivity]|].
  apply rtc_refl.
Qed.

Lemma configure_heap_refines_witness :
  creachable ([RDone (Ok 0)], snd (run [0; 0] [RStart "provider.tags" []] heap_empty)) /\
  let h := snd (run [0; 0] [RStart "provider.tags" []] heap_empty) in
  (configure_heap "provider.tags" true h).1 = (Configure "provider.tags" true (project h)).1.1 /\
  project (configure_heap "provider.tags" true h).2 = (Configure "provider.tags" true (project h)).1.2.
Proof.
  split; [exact one_registration_reachable|].
  exact (configure_heap_refines _ _ "provider.tags" true one_registration_reachable).
Defined.

End RegistryConcurrency.
