(* ===== verification/Definitions.v ===== *)
(** * Startup definitions and the global registry

    [src/internal/feature/definitions.go] registers the provider's
    feature previews at package initialization, through [MustRegister] on
    the process-wide registry returned by [GetGlobalRegistry].  The
    accessor lives in a file that is not under [src/]; following the
    spec (section 4.3) it is a single registry, created empty before any
    definition runs.  Package initialization is modelled as the sequence
    of [MustRegister] calls of the [var] block, starting from
    [NewRegistry]; a [Panic] outcome aborts the process. *)

From S2P Require Import Prelude Semver Preview Registry.
Import Preview Registry.

Module Definitions.

Definition PreviewNameProviderTags : string := "provider.tags".

Definition provider_tags_description : string :=
  "When enabled, allows for tags to be set a provider that will apply to all applicable resources.".

(** The options passed in [definitions.go], in order. *)
Definition provider_tags_options : list PreviewOption :=
  [WithPreviewDescription provider_tags_description; WithPreviewAddInVersion "v9.9.0"].

(** [GetGlobalRegistry()] before any definition has run. *)
Definition GetGlobalRegistry_initial : Registry := NewRegistry.

(** [_ = GetGlobalRegistry().MustRegister(PreviewNameProviderTags, ...)] *)
Definition package_init : outcome Preview * Registry :=
  MustRegister PreviewNameProviderTags provider_tags_options GetGlobalRegistry_initial.

(** The global registry once the package is initialized. *)
Definition GlobalRegistry : Registry := snd package_init.

(** ** Properties *)

(** Package initialization does not panic: the name matches the
    pattern, the version ["v9.9.0"] is valid and the description is not
    empty.  Afterwards the global registry is reachable (hence well
    formed) and holds [provider.tags], disabled, introduced in
    ["v9.9.0"], with its description; [All] lists exactly it. *)
Example package_init_ok :
  exists p,
    package_init = (Normal p, GlobalRegistry) /\
    Get PreviewNameProviderTags GlobalRegistry = Some p /\
    Enabled p = false /\ GlobalAvailable p = false /\
    Introduced p = "v9.9.0" /\ Description p = provider_tags_description /\
    reachable GlobalRegistry /\
    All GlobalRegistry = [(PreviewNameProviderTags, p)].
Proof.
  eexists. split; [reflexivity|].
  split; [vm_compute; reflexivity|].
  do 4 (split; [reflexivity|]). split; [|vm_compute; reflexivity].
  apply (reachable_step NewRegistry); [apply reachable_new|].
  exact (step_register PreviewNameProviderTags
           [SpecDescription provider_tags_description; SpecAddInVersion "v9.9.0"] NewRegistry).
Qed.

End Definitions.
