(* ===== verification/ChartModel.v ===== *)
(** * Chart model of the dashboard wireframe

    [src/internal/framework/dashboard/wireframe_chart_model.go]: the
    chart struct [ResourceDashboardChartType] and its nested option
    structs, the grid position with [CheckCollision], and the six request
    builders [New*CreateUpdateChartRequest].

    Terraform framework values ([types.String], [types.Bool],
    [types.Int32], [types.List]) are [tf_value]: null, unknown or known;
    [ValueString], [ValueBool] and [ValueInt32] return the zero value
    unless known.  Go's [int32] arithmetic wraps: [wrap32].  A pointer
    field is an [option].  The time-range custom type
    ([fwtypes.TimeRange]) is not under [src/]: its parsed duration in
    milliseconds is the section variable [duration_ms]. *)

From S2P Require Import Prelude.

Module ChartModel.

(** ** Terraform values and int32 *)

Inductive tf_value (A : Type) :=
| TFNull
| TFUnknown
| TFKnown (a : A).
Arguments TFNull {A}.
Arguments TFUnknown {A}.
Arguments TFKnown {A} a.

Definition IsNull {A} (v : tf_value A) : bool :=
  match v with TFNull => true | _ => false end.
Definition IsUnknown {A} (v : tf_value A) : bool :=
  match v with TFUnknown => true | _ => false end.

Definition value_or {A} (d : A) (v : tf_value A) : A :=
  match v with TFKnown a => a | _ => d end.
Definition ValueString (v : tf_value string) : string := value_or EmptyString v.
Definition ValueBool (v : tf_value bool) : bool := value_or false v.
Definition ValueInt32 (v : tf_value Z) : Z := value_or 0%Z v.

(** Two's-complement wrap-around to 32 bits: Go's [int32] [+] and the
    conversion [int32(x)] of a wider integer. *)
Definition wrap32 (z : Z) : Z := ((z + 2^31) mod 2^32 - 2^31)%Z.

Definition in_int32 (z : Z) : Prop := (- 2^31 <= z < 2^31)%Z.

(** ** Positions on the dashboard grid *)

Record Position := mk_position {
  pos_Width : tf_value Z;
  pos_Height : tf_value Z;
  pos_Row : tf_value Z;
  pos_Column : tf_value Z
}.

(** [CheckCollision] with its nil checks; [+] is [int32] addition. *)
Definition CheckCollision (rdcp other : option Position) : bool :=
  match rdcp, other with
  | Some a, Some b =>
      negb ((wrap32 (ValueInt32 (pos_Row a) + ValueInt32 (pos_Width a)) <=? ValueInt32 (pos_Row b))%Z ||
            (wrap32 (ValueInt32 (pos_Row b) + ValueInt32 (pos_Width b)) <=? ValueInt32 (pos_Row a))%Z ||
            (wrap32 (ValueInt32 (pos_Column a) + ValueInt32 (pos_Height a)) <=? ValueInt32 (pos_Column b))%Z ||
            (wrap32 (ValueInt32 (pos_Column b) + ValueInt32 (pos_Height b)) <=? ValueInt32 (pos_Column a))%Z)
  | _, _ => false
  end.

(** The schema's validators on a position (in [wireframe.go]): width in
    [1, 12] (default 3), height in [1, 3] (default 1), row in [0, 99],
    column in [0, 11], all known after defaults are applied. *)
Definition position_valid (p : Position) : Prop :=
  exists w h r c,
    pos_Width p = TFKnown w /\ pos_Height p = TFKnown h /\
    pos_Row p = TFKnown r /\ pos_Column p = TFKnown c /\
    (1 <= w <= 12)%Z /\ (1 <= h <= 3)%Z /\ (0 <= r <= 99)%Z /\ (0 <= c <= 11)%Z.

(** The cells a chart covers on the grid: [height] rows from [row] and
    [width] columns from [column]. *)
Definition covers (p : Position) (r c : Z) : Prop :=
  (ValueInt32 (pos_Row p) <= r < ValueInt32 (pos_Row p) + ValueInt32 (pos_Height p))%Z /\
  (ValueInt32 (pos_Column p) <= c < ValueInt32 (pos_Column p) + ValueInt32 (pos_Width p))%Z.

Definition cells_overlap (a b : Position) : Prop :=
  exists r c, covers a r c /\ covers b r c.

(** The same position with width and height exchanged. *)
Definition transpose (p : Position) : Position :=
  mk_position (pos_Height p) (pos_Width p) (pos_Row p) (pos_Column p).

(** ** The chart struct and its nested option structs *)

Record ProgramOption := mk_program {
  prog_Text : tf_value string;
  prog_MinResolution : tf_value string;   (* fwtypes.TimeRange *)
  prog_MaxDelay : tf_value string;        (* fwtypes.TimeRange *)
  prog_DisableSampling : tf_value bool;
  prog_Timezone : tf_value string
}.

Record DataOption := mk_data_option {
  data_NoData : option (tf_value string * tf_value string * tf_value string);
  data_RefreshInterval : tf_value string; (* fwtypes.TimeRange *)
  data_HideMissingValues : tf_value bool;
  data_MaxPrecision : tf_value Z;
  data_UnitPrefix : tf_value string
}.

Record HeatMapType := mk_heatmap { heatmap_ColorBy : tf_value string; heatmap_GroupBy : tf_value (list string) }.
Record ListType := mk_list { list_HideMissingValues : tf_value bool }.
Record TableType := mk_table { table_GroupBy : tf_value (list string); table_HideMissingValues : tf_value bool }.
Record SingleValueType := mk_single_value { sv_ShowSparkline : tf_value bool }.
Record TextType := mk_text { text_Markdown : tf_value string }.
Record TimeSeriesOptions := mk_ts_options {
  ts_ColorBy : tf_value string;
  ts_IncludeZero : tf_value bool;
  ts_ShowDataMarkers : tf_value bool;
  ts_ShowLegend : tf_value bool;
  ts_ShowEventLints : tf_value bool;
  ts_SortBy : tf_value string;
  ts_Stacked : tf_value bool
}.
Record TimeSeriesType := mk_time_series { ts_Options : option TimeSeriesOptions }.
Record SLOType := mk_slo { slo_ID : tf_value string }.

(** [ResourceDashboardChartType]; the publish options are not read by
    any handler and are left out. *)
Record Chart := mk_chart {
  ch_ID : tf_value string;
  ch_Name : tf_value string;
  ch_Tags : tf_value (list string);
  ch_Description : tf_value string;
  ch_Position : option Position;
  ch_HeatMap : option HeatMapType;
  ch_List : option ListType;
  ch_Table : option TableType;
  ch_SingleValue : option SingleValueType;
  ch_Text : option TextType;
  ch_TimeSeries : option TimeSeriesType;
  ch_SLO : option SLOType;
  ch_Program : option ProgramOption;
  ch_DataOptions : option DataOption
}.

(** ** Requests: [chart.CreateUpdateChartRequest] as far as it is set *)

Record GeneralOptions := mk_general {
  go_DisableSampling : bool;
  go_Timezone : string;
  go_MinimumResolution : option Z;
  go_MaxDelay : option Z
}.

Record ChartOptions := mk_options {
  opt_Type : string;
  opt_UnitPrefix : string;
  opt_ProgramOptions : option GeneralOptions;
  opt_HideMissingValues : bool;
  opt_ColorBy : string;
  opt_GroupBy : list string;
  opt_RefreshInterval : option Z;
  opt_MaximumPrecision : option Z;
  opt_Markdown : string;
  opt_IncludeZero : bool;
  opt_ShowEventLines : bool;
  opt_SortBy : string;
  opt_Stacked : bool;
  opt_ShowSparkLine : bool
}.

Definition empty_options (ty : string) : ChartOptions :=
  mk_options ty EmptyString None false EmptyString [] None None EmptyString false false
    EmptyString false false.

Record ChartRequest := mk_request {
  req_Name : string;
  req_Description : string;
  req_ProgramText : string;
  req_Tags : list string;
  req_Options : ChartOptions
}.

(** Framework diagnostics. *)
Inductive diagnostic :=
| DiagError (summary : string)
| DiagAttrError (chart : string) (summary : string)
| DiagAttrWarning (chart : string) (summary : string)
| DiagCollision (named : string) (chart : string).  (* "Chart Position Collision" *)

Definition is_error (d : diagnostic) : bool :=
  match d with DiagAttrWarning _ _ => false | _ => true end.

Definition HasError (ds : list diagnostic) : bool := existsb is_error ds.

(** [ElementsAs(ctx, &target, false)] for a list of strings: a null list
    leaves the slice nil, an unknown list cannot be stored without
    [allowUnhandled] and is an error. *)
Definition ElementsAs (v : tf_value (list string)) : list string * list diagnostic :=
  match v with
  | TFNull => ([], [])
  | TFUnknown => ([], [DiagError "Value Conversion Error"])
  | TFKnown l => (l, [])
  end.

(** ** The request builders *)

(** The guard [!v.IsNull() || !v.IsUnknown()] the builders put on every
    optional duration and on the precision. *)
Definition set_guard {A} (v : tf_value A) : bool := negb (IsNull v) || negb (IsUnknown v).

Section Builders.
  (** [tr.ValueDuration().Milliseconds()] of a [fwtypes.TimeRange]. *)
  Context (duration_ms : tf_value string -> Z).

  (** [dur := int32(v.ValueDuration().Milliseconds())], under the guard. *)
Definition duration_field (v : tf_value string) : option Z :=
    if set_guard v then Some (wrap32 (duration_ms v)) else None.

  (** [&chart.GeneralOptions{DisableSampling, Timezone}] with the minimum
      resolution and the maximum delay set under their guards. *)
Definition general_options (prog : ProgramOption) : GeneralOptions :=
    mk_general (ValueBool (prog_DisableSampling prog)) (ValueString (prog_Timezone prog))
      (duration_field (prog_MinResolution prog)) (duration_field (prog_MaxDelay prog)).

Definition NewHeatmapCreateUpdateChartRequest (ch : Chart) : option ChartRequest * list diagnostic :=
    match ch_HeatMap ch, ch_DataOptions ch, ch_Program ch with
    | Some hm, Some dopt, Some prog =>
        let '(tags, d1) := ElementsAs (ch_Tags ch) in
        let '(groupby, d2) := ElementsAs (heatmap_GroupBy hm) in
        let opts := mk_options "Heatmap" (ValueString (data_UnitPrefix dopt))
                      (Some (general_options prog)) (ValueBool (data_HideMissingValues dopt))
                      (ValueString (heatmap_ColorBy hm)) groupby
                      (duration_field (data_RefreshInterval dopt)) None EmptyString
                      false false EmptyString false false in
        (Some (mk_request (ValueString (ch_Name ch)) (ValueString (ch_Description ch))
                 (ValueString (prog_Text prog)) tags opts), d1 ++ d2)
    | _, _, _ => (None, [DiagError "Missing Heatmap definition"])
    end.

Definition NewListCreateUpdateChartRequest (ch : Chart) : option ChartRequest * list diagnostic :=
    match ch_List ch, ch_DataOptions ch, ch_Program ch with
    | Some _, Some dopt, Some prog =>
        let opts := mk_options "List" (ValueString (data_UnitPrefix dopt)) None false
                      EmptyString [] None None EmptyString false false EmptyString false false in
        (Some (mk_request (ValueString (ch_Name ch)) (ValueString (ch_Description ch))
                 (ValueString (prog_Text prog)) [] opts), [])
    | _, _, _ => (None, [DiagError "Missing List definition"])
    end.

Definition NewTableCreateUpdateChartRequest (ch : Chart) : option ChartRequest * list diagnostic :=
    match ch_Table ch, ch_DataOptions ch, ch_Program ch with
    | Some tb, Some dopt, Some prog =>
        let '(tags, d1) := ElementsAs (ch_Tags ch) in
        let '(groupby, d2) := ElementsAs (table_GroupBy tb) in
        let opts := mk_options "Table" (ValueString (data_UnitPrefix dopt))
                      (Some (general_options prog)) (ValueBool (data_HideMissingValues dopt))
                      EmptyString groupby (duration_field (data_RefreshInterval dopt)) None
                      EmptyString false false EmptyString false false in
        (Some (mk_request (ValueString (ch_Name ch)) (ValueString (ch_Description ch))
                 (ValueString (prog_Text prog)) tags opts), d1 ++ d2)
    | _, _, _ => (None, [DiagError "Missing Table definition"])
    end.

Definition NewSingleValueCreateUpdateChartRequest (ch : Chart) : option ChartRequest * list diagnostic :=
    match ch_SingleValue ch, ch_DataOptions ch, ch_Program ch with
    | Some sv, Some dopt, Some prog =>
        let '(tags, d1) := ElementsAs (ch_Tags ch) in
        let spark := if ValueBool (sv_ShowSparkline sv) then ValueBool (sv_ShowSparkline sv) else false in
        let opts := mk_options "SingleValue" (ValueString (data_UnitPrefix dopt))
                      (Some (general_options prog)) (ValueBool (data_HideMissingValues dopt))
                      EmptyString [] (duration_field (data_RefreshInterval dopt)) None
                      EmptyString false false EmptyString false spark in
        (Some (mk_request (ValueString (ch_Name ch)) (ValueString (ch_Description ch))
                 (ValueString (prog_Text prog)) tags opts), d1)
    | _, _, _ => (None, [DiagError "Missing Single Value definition"])
    end.

Definition NewTextCreateUpdateChartRequest (ch : Chart) : option ChartRequest * list diagnostic :=
    match ch_Text ch, ch_DataOptions ch with
    | Some tx, Some _ =>
        let '(tags, d1) := ElementsAs (ch_Tags ch) in
        let opts := mk_options "Text" EmptyString None false EmptyString [] None None
                      (ValueString (text_Markdown tx)) false false EmptyString false false in
        (Some (mk_request (ValueString (ch_Name ch)) (ValueString (ch_Description ch))
                 EmptyString tags opts), d1)
    | _, _ => (None, [DiagError "Missing Text definition"])
    end.

Definition NewTimeSeriesCreateUpdateChartRequest (ch : Chart) : option ChartRequest * list diagnostic :=
    match ch_TimeSeries ch, ch_DataOptions ch, ch_Program ch with
    | Some ts, Some dopt, Some prog =>
        match ts_Options ts with
        | None => (None, [DiagError "Missing Time Series definition"])
        | Some o =>
            let '(tags, d1) := ElementsAs (ch_Tags ch) in
            let prec := if set_guard (data_MaxPrecision dopt)
                        then Some (ValueInt32 (data_MaxPrecision dopt)) else None in
            let opts := mk_options "TimeSeries" (ValueString (data_UnitPrefix dopt))
                          (Some (general_options prog)) (ValueBool (data_HideMissingValues dopt))
                          (ValueString (ts_ColorBy o)) [] (duration_field (data_RefreshInterval dopt))
                          prec EmptyString (ValueBool (ts_IncludeZero o))
                          (ValueBool (ts_ShowEventLints o)) (ValueString (ts_SortBy o))
                          (ValueBool (ts_Stacked o)) false in
            (Some (mk_request (ValueString (ch_Name ch)) (ValueString (ch_Description ch))
                     (ValueString (prog_Text prog)) tags opts), d1)
        end
    | _, _, _ => (None, [DiagError "Missing Time Series definition"])
    end.
End Builders.

(** ** Lemmas on positions *)

Lemma wrap32_id z : in_int32 z -> wrap32 z = z.
Proof.
  unfold in_int32, wrap32. intros H.
  rewrite Z.mod_small by lia. lia.
Qed.

Lemma wrap32_in_int32 z : in_int32 (wrap32 z).
Proof.
  unfold in_int32, wrap32.
  pose proof (Z.mod_pos_bound (z + 2^31) (2^32) ltac:(lia)). lia.
Qed.

(** Under the schema bounds no [int32] sum in [CheckCollision]
    overflows: the check is the plain integer comparison. *)
Lemma CheckCollision_valid a b :
  position_valid a -> position_valid b ->
  CheckCollision (Some a) (Some b) =
  negb ((ValueInt32 (pos_Row a) + ValueInt32 (pos_Width a) <=? ValueInt32 (pos_Row b))%Z ||
        (ValueInt32 (pos_Row b) + ValueInt32 (pos_Width b) <=? ValueInt32 (pos_Row a))%Z ||
        (ValueInt32 (pos_Column a) + ValueInt32 (pos_Height a) <=? ValueInt32 (pos_Column b))%Z ||
        (ValueInt32 (pos_Column b) + ValueInt32 (pos_Height b) <=? ValueInt32 (pos_Column a))%Z).
Proof.
  unfold CheckCollision.
  intros (wa & ha & ra & ca & -> & -> & -> & -> & ? & ? & ? & ?)
         (wb & hb & rb & cb & -> & -> & -> & -> & ? & ? & ? & ?).
  unfold ValueInt32, value_or.
  rewrite !wrap32_id by (unfold in_int32; lia). reflexivity.
Qed.


Lemma set_guard_true {A} (v : tf_value A) : set_guard v = true.
Proof. by destruct v. Qed.

Lemma duration_field_set dm v : duration_field dm v = Some (wrap32 (dm v)).
Proof. unfold duration_field. by rewrite set_guard_true. Qed.

(** ** Properties *)

(** C12: for positions that pass the schema's validators,
    [CheckCollision] reports a collision exactly when the two charts
    would overlap if width and height were exchanged: the code pairs the
    row with the width and the column with the height. *)
Theorem CheckCollision_transposed a b :
  position_valid a -> position_valid b ->
  CheckCollision (Some a) (Some b) = true <-> cells_overlap (transpose a) (transpose b).
Proof.
  intros Ha Hb. rewrite CheckCollision_valid by done.
  destruct Ha as (wa & ha & ra & ca & Hwa & Hha & Hra & Hca & ?),
           Hb as (wb & hb & rb & cb & Hwb & Hhb & Hrb & Hcb & ?).
  unfold cells_overlap, covers, transpose; simpl.
  rewrite Hwa, Hha, Hra, Hca, Hwb, Hhb, Hrb, Hcb. unfold ValueInt32, value_or.
  case_zleb; simpl; split; try done; try (intros (r & c & [? ?] & [? ?]); lia).
  intros _. exists (Z.max ra rb), (Z.max ca cb). lia.
Qed.

Lemma CheckCollision_transposed_witness :
  let a := mk_position (TFKnown 12%Z) (TFKnown 1%Z) (TFKnown 0%Z) (TFKnown 0%Z) in
  let b := mk_position (TFKnown 12%Z) (TFKnown 1%Z) (TFKnown 1%Z) (TFKnown 0%Z) in
  position_valid a /\ position_valid b /\ cells_overlap (transpose a) (transpose b).
Proof.
  intros a b.
  assert (Ha : position_valid a) by (eexists _, _, _, _; repeat split; lia).
  assert (Hb : position_valid b) by (eexists _, _, _, _; repeat split; lia).
  split; [exact Ha|]. split; [exact Hb|].
  apply (proj1 (CheckCollision_transposed a b Ha Hb)). reflexivity.
Defined.

(** The collision check is wrong on the grid both ways, for
    positions the schema accepts.  Two full-width charts in rows 0 and 1
    do not overlap, yet a collision is reported; a chart three rows high
    at row 0 and a chart at row 2 in the same column overlap, yet no
    collision is reported. *)
Example CheckCollision_swaps_axes :
  (exists a b, position_valid a /\ position_valid b /\
     CheckCollision (Some a) (Some b) = true /\ ~ cells_overlap a b) /\
  (exists a b, position_valid a /\ position_valid b /\
     CheckCollision (Some a) (Some b) = false /\ cells_overlap a b).
Proof.
  split.
  - exists (mk_position (TFKnown 12%Z) (TFKnown 1%Z) (TFKnown 0%Z) (TFKnown 0%Z)),
           (mk_position (TFKnown 12%Z) (TFKnown 1%Z) (TFKnown 1%Z) (TFKnown 0%Z)).
    split; [eexists _, _, _, _; repeat split; lia|].
    split; [eexists _, _, _, _; repeat split; lia|].
    split; [reflexivity|]. unfold cells_overlap, covers; simpl.
    intros (r & c & [? ?] & [? ?]). unfold ValueInt32, value_or in *. lia.
  - exists (mk_position (TFKnown 1%Z) (TFKnown 3%Z) (TFKnown 0%Z) (TFKnown 0%Z)),
           (mk_position (TFKnown 1%Z) (TFKnown 1%Z) (TFKnown 2%Z) (TFKnown 0%Z)).
    split; [eexists _, _, _, _; repeat split; lia|].
    split; [eexists _, _, _, _; repeat split; lia|].
    split; [reflexivity|]. exists 2%Z, 0%Z. unfold covers, ValueInt32, value_or; simpl. lia.
Qed.

(** [CheckCollision] is symmetric, and false when either position
    is nil. *)
Theorem CheckCollision_sym x y :
  CheckCollision x y = CheckCollision y x /\
  CheckCollision None y = false /\ CheckCollision x None = false.
Proof.
  split; [|by destruct x, y].
  destruct x as [a|], y as [b|]; [|done|done|done]. simpl. f_equal.
  destruct (wrap32 _ <=? _)%Z, (wrap32 _ <=? _)%Z, (wrap32 _ <=? _)%Z, (wrap32 _ <=? _)%Z;
    reflexivity.
Qed.

(** C13: the guard [!v.IsNull() || !v.IsUnknown()] holds for every
    value, so a heatmap request always carries a refresh interval, a
    minimum resolution and a maximum delay, computed from the time range
    even when the attribute is null or unknown (the intended guard is
    [&&]). *)
Theorem heatmap_durations_always_set dm ch req ds :
  NewHeatmapCreateUpdateChartRequest dm ch = (Some req, ds) ->
  exists dopt prog,
    ch_DataOptions ch = Some dopt /\ ch_Program ch = Some prog /\
    opt_RefreshInterval (req_Options req) = Some (wrap32 (dm (data_RefreshInterval dopt))) /\
    option_map go_MinimumResolution (opt_ProgramOptions (req_Options req)) =
      Some (Some (wrap32 (dm (prog_MinResolution prog)))) /\
    option_map go_MaxDelay (opt_ProgramOptions (req_Options req)) =
      Some (Some (wrap32 (dm (prog_MaxDelay prog)))).
Proof.
  unfold NewHeatmapCreateUpdateChartRequest.
  destruct (ch_HeatMap ch) as [hm|], (ch_DataOptions ch) as [dopt|], (ch_Program ch) as [prog|];
    try (intros [=]; fail).
  destruct (ElementsAs (ch_Tags ch)), (ElementsAs (heatmap_GroupBy hm)).
  intros [= <- _]. exists dopt, prog. simpl. rewrite !duration_field_set. auto.
Qed.

Lemma heatmap_durations_always_set_witness :
  let prog := mk_program (TFKnown "data('cpu').publish()") TFNull TFNull TFNull TFNull in
  let dopt := mk_data_option None TFNull TFNull TFNull TFNull in
  let ch := mk_chart TFNull (TFKnown "cpu") TFNull TFNull None
              (Some (mk_heatmap TFNull TFNull)) None None None None None None
              (Some prog) (Some dopt) in
  exists req, NewHeatmapCreateUpdateChartRequest (fun _ => 0%Z) ch = (Some req, []) /\
  opt_RefreshInterval (req_Options req) = Some 0%Z.
Proof.
  intros prog dopt ch. eexists. split; [reflexivity|].
  destruct (heatmap_durations_always_set (fun _ => 0%Z) ch _ [] eq_refl)
    as (dopt' & prog' & Hd & _ & Hr & _). exact Hr.
Defined.

(** C14: durations are sent as [int32] milliseconds: the value sent is
    the duration when it fits in 32 bits, and wraps around otherwise; a
    refresh interval of 2^31 ms (about 24.9 days) is sent as a negative
    number. *)
Theorem duration_field_int32 dm v x :
  duration_field dm v = Some x ->
  in_int32 x /\ (in_int32 (dm v) -> x = dm v) /\
  ((2^31 <= dm v < 2^32)%Z -> x = (dm v - 2^32)%Z).
Proof.
  rewrite duration_field_set. intros [= <-].
  split; [apply wrap32_in_int32|]. split; [apply wrap32_id|].
  intros H. unfold wrap32.
  rewrite <- (Z.mod_unique (dm v + 2^31) (2^32) 1 (dm v + 2^31 - 2^32)) by lia.
  lia.
Qed.

Lemma duration_field_int32_witness :
  duration_field (fun _ => 2147483648%Z) (TFKnown "600h") = Some (-2147483648)%Z /\
  ((2^31 <= 2147483648 < 2^32)%Z -> (-2147483648)%Z = (2147483648 - 2^32)%Z).
Proof.
  assert (H : duration_field (fun _ => 2147483648%Z) (TFKnown "600h") = Some (-2147483648)%Z)
    by reflexivity.
  split; [exact H|]. apply (duration_field_int32 _ _ _ H).
Defined.

(** C15: the fields each builder requires before it builds a request,
    with the single error it returns otherwise.  The text builder
    requires data options it never reads, and the time-series builder
    also requires its options block. *)
Theorem builders_require dm ch :
  (fst (NewHeatmapCreateUpdateChartRequest dm ch) = None <->
     ch_HeatMap ch = None \/ ch_DataOptions ch = None \/ ch_Program ch = None) /\
  (fst (NewListCreateUpdateChartRequest ch) = None <->
     ch_List ch = None \/ ch_DataOptions ch = None \/ ch_Program ch = None) /\
  (fst (NewTableCreateUpdateChartRequest dm ch) = None <->
     ch_Table ch = None \/ ch_DataOptions ch = None \/ ch_Program ch = None) /\
  (fst (NewSingleValueCreateUpdateChartRequest dm ch) = None <->
     ch_SingleValue ch = None \/ ch_DataOptions ch = None \/ ch_Program ch = None) /\
  (fst (NewTextCreateUpdateChartRequest ch) = None <->
     ch_Text ch = None \/ ch_DataOptions ch = None) /\
  (fst (NewTimeSeriesCreateUpdateChartRequest dm ch) = None <->
     ch_TimeSeries ch = None \/ ch_DataOptions ch = None \/ ch_Program ch = None \/
     option_map ts_Options (ch_TimeSeries ch) = Some None).
Proof.
  unfold NewHeatmapCreateUpdateChartRequest, NewListCreateUpdateChartRequest,
    NewTableCreateUpdateChartRequest, NewSingleValueCreateUpdateChartRequest,
    NewTextCreateUpdateChartRequest, NewTimeSeriesCreateUpdateChartRequest.
  destruct ch as [? ? tags ? ? hm li tb sv tx ts ? prog dopt]; simpl.
  destruct (ElementsAs tags). destruct ts as [[[o|]]|].
  all: repeat split;
    repeat match goal with
    | |- context [match ?o with Some _ => _ | None => _ end] => is_var o; destruct o
    | |- context [ElementsAs ?v] => destruct (ElementsAs v)
    end; simpl; intuition congruence.
Qed.

End ChartModel.
