(* ===== verification/Wireframe.v ===== *)
(** * The dashboard-wireframe resource

    [src/internal/framework/dashboard/wireframe.go] and
    [wireframe_model.go]: the resource's handlers [ValidateConfig],
    [Create], [Read], [Update] and [Delete] over the SignalFx API client.

    The client ([rdw.Details().Client], a [signalfx-go] client, not under
    [src/]) is the class [ChartAPI]: a server state [S] and the calls the
    handlers make, each returning its result (an error is [Err]) and the
    new server state.  The handlers' theorems are proved for every
    instance; [MemServer] is an instance backed by finite maps.
    [fwerr.ErrorHandler] and [pmeta.LoadApplicationURL] are not under
    [src/] and are section variables.  Decoding the plan or state
    ([req.Config.Get], [req.State.Get]) is assumed to succeed: the
    handlers receive the decoded [WireframeModel].  Go's map iteration
    ([for named, pos := range safe], [for id, pos := range charts]) is
    in an unspecified order: the model iterates in [map_to_list] order
    and the theorems do not depend on it.  Diagnostics are accumulated
    in [resp.Diagnostics] and [HasError] looks at all of them. *)

From stdpp Require Import gmap pretty.
From S2P Require Import Prelude ChartModel.
Import ChartModel.

Module Wireframe.

(** ** The resource model *)

(** [ResourceDashboardWireframeModel], the attributes the handlers use. *)
Record WireframeModel := mk_model {
  m_ID : tf_value string;
  m_GroupID : tf_value string;
  m_URL : tf_value string;
  m_Name : tf_value string;
  m_Description : tf_value string;
  m_Density : tf_value string;
  m_Charts : list Chart
}.

(** [dashboard.DashboardChart] and [dashboard.CreateUpdateDashboardRequest]. *)
Record DashboardChart := mk_dchart {
  dc_ChartId : string; dc_Width : Z; dc_Height : Z; dc_Row : Z; dc_Column : Z
}.

Record DashboardRequest := mk_dreq {
  dr_Name : string; dr_Description : string; dr_GroupId : string;
  dr_Charts : list DashboardChart
}.

(** What [GetDashboard] and [GetChart] return, as far as read. *)
Record Dashboard := mk_dashboard {
  d_Name : string; d_Description : string; d_GroupId : string;
  d_ChartDensity : option string; d_Charts : list DashboardChart
}.

Record ChartDetails := mk_details { cd_Id : string; cd_Name : string; cd_Description : string }.

Inductive api_error := ApiError (status : Z).

(** ** The client interface *)

Class ChartAPI (S : Type) := {
  CreateChart : ChartRequest -> S -> result string api_error * S;
  CreateSloChart : string -> S -> result string api_error * S;
  ValidateChart : ChartRequest -> S -> option api_error;
  CreateDashboard : DashboardRequest -> S -> result string api_error * S;
  GetDashboard : string -> S -> result Dashboard api_error;
  GetChart : string -> S -> result ChartDetails api_error;
  DeleteChart : string -> S -> option api_error * S;
  DeleteDashboard : string -> S -> option api_error * S
}.

Section Handlers.
  Context {S : Type} `{!ChartAPI S}.
  (** [fwerr.ErrorHandler(ctx, state, err)] for a non-nil [err]. *)
  Context (ErrorHandler : api_error -> list diagnostic).
  (** [pmeta.LoadApplicationURL(ctx, meta, "dashboard", id)] *)
  Context (LoadApplicationURL : string -> string).
  (** [ValueDuration().Milliseconds()] of a time range. *)
  Context (duration_ms : tf_value string -> Z).

  (** The [switch] of [Create] and [ValidateConfig] over the chart
      variants, in the code's order, with the variant's name as the
      messages spell it; [None] for an SLO chart and for a chart with no
      variant. *)
Definition build_request (ch : Chart) : option (string * (option ChartRequest * list diagnostic)) :=
    if bool_decide (is_Some (ch_HeatMap ch)) then Some ("Heatmap", NewHeatmapCreateUpdateChartRequest duration_ms ch)
    else if bool_decide (is_Some (ch_List ch)) then Some ("List", NewListCreateUpdateChartRequest ch)
    else if bool_decide (is_Some (ch_Table ch)) then Some ("Table", NewTableCreateUpdateChartRequest duration_ms ch)
    else if bool_decide (is_Some (ch_SingleValue ch)) then Some ("Single Value", NewSingleValueCreateUpdateChartRequest duration_ms ch)
    else if bool_decide (is_Some (ch_Text ch)) then Some ("Text", NewTextCreateUpdateChartRequest ch)
    else if bool_decide (is_Some (ch_TimeSeries ch)) then Some ("Time Series", NewTimeSeriesCreateUpdateChartRequest duration_ms ch)
    else None.

  (** [for named, pos := range safe { if chart.Position.CheckCollision(pos) { AddError } }] *)
Definition collision_diags (safe : gmap string (option Position)) (ch : Chart) : list diagnostic :=
    omap (fun '(named, pos) =>
            if CheckCollision (ch_Position ch) pos
            then Some (DiagCollision named (ValueString (ch_Name ch))) else None)
         (map_to_list safe).

  (** The loop of [ValidateConfig]; [diags] is [resp.Diagnostics]. *)
Fixpoint validate_loop (s : S) (charts : list Chart) (safe : gmap string (option Position))
      (diags : list diagnostic) : list diagnostic :=
    match charts with
    | [] => diags
    | ch :: rest =>
        let continue (diags : list diagnostic) :=
          validate_loop s rest (<[ValueString (ch_Name ch) := ch_Position ch]> safe)
            (diags ++ collision_diags safe ch) in
        match build_request ch with
        | None => continue diags
        | Some (kind, (req, ds)) =>
            let diags := diags ++ ds in
            if HasError diags then diags   (* return *)
            else match req with
                 | Some r =>
                     match ValidateChart r s with
                     | Some _ =>
                         continue (diags ++ [DiagAttrWarning (ValueString (ch_Name ch))
                                               ("Invalid " ++ kind ++ " Chart")])
                     | None => continue diags
                     end
                 | None => continue diags
                 end
        end
    end.

Definition ValidateConfig (s : S) (model : WireframeModel) : list diagnostic :=
    validate_loop s (m_Charts model) ∅ [].

  (** [Delete]: every chart, then the dashboard unless a chart failed. *)
Fixpoint delete_charts (s : S) (charts : list Chart) (diags : list diagnostic)
      : list diagnostic * S :=
    match charts with
    | [] => (diags, s)
    | ch :: rest =>
        let '(err, s') := DeleteChart (ValueString (ch_ID ch)) s in
        let diags := match err with
                     | Some _ => diags ++ [DiagError "Error Deleting Chart"]
                     | None => diags
                     end in
        delete_charts s' rest diags
    end.

Definition Delete (s : S) (model : WireframeModel) : list diagnostic * S :=
    let '(diags, s') := delete_charts s (m_Charts model) [] in
    if HasError diags then (diags, s')
    else match DeleteDashboard (ValueString (m_ID model)) s' with
         | (Some _, s'') => (diags ++ [DiagError "Error Deleting Dashboard"], s'')
         | (None, s'') => (diags, s'')
         end.

  (** ** [Create] *)

  (** The chart loop of [Create] ends in an early [return], a panic (a
      nil pointer dereference), or runs to the end with the created
      charts' positions by ID and the charts with their IDs set. *)
Inductive create_loop_result :=
  | LoopReturn (diags : list diagnostic) (s : S)
  | LoopPanic (s : S)
  | LoopDone (diags : list diagnostic) (s : S) (created : gmap string (option Position))
             (charts : list Chart).

Definition set_chart_ID (id : string) (ch : Chart) : Chart :=
    mk_chart (TFKnown id) (ch_Name ch) (ch_Tags ch) (ch_Description ch) (ch_Position ch)
      (ch_HeatMap ch) (ch_List ch) (ch_Table ch) (ch_SingleValue ch) (ch_Text ch)
      (ch_TimeSeries ch) (ch_SLO ch) (ch_Program ch) (ch_DataOptions ch).

Fixpoint create_loop (s : S) (charts : list Chart) (created : gmap string (option Position))
      (diags : list diagnostic) : create_loop_result :=
    match charts with
    | [] => LoopDone diags s created []
    | ch :: rest =>
        let continue diags s created ch' :=
          match create_loop s rest created diags with
          | LoopDone diags s created rest' => LoopDone diags s created (ch' :: rest')
          | r => r
          end in
        match build_request ch with
        | Some (kind, (req, ds)) =>
            let diags := diags ++ ds in
            if HasError diags then LoopReturn diags s
            else match req with
                 | None => LoopPanic s   (* CreateChart(ctx, nil) *)
                 | Some r =>
                     match CreateChart r s with
                     | (Err _, s') =>
                         continue (diags ++ [DiagAttrError (ValueString (ch_Name ch)) "Error Creating Chart"])
                                  s' created ch
                     | (Ok id, s') => continue diags s' (<[id := ch_Position ch]> created) (set_chart_ID id ch)
                     end
                 end
        | None =>
            match ch_SLO ch with
            | None => continue diags s created ch
            | Some slo =>
                match CreateSloChart (ValueString (slo_ID slo)) s with
                | (Err e, s') =>
                    let diags := diags ++ ErrorHandler e in
                    if HasError diags then LoopReturn diags s' else LoopPanic s'  (* created.Id, created nil *)
                | (Ok id, s') =>
                    if HasError diags then LoopReturn diags s'
                    else continue diags s' (<[id := ch_Position ch]> created) (set_chart_ID id ch)
                end
            end
        end
    end.

  (** The body of [for id, pos := range charts]: the
      [dashboard.DashboardChart] of a created chart; [pos.Width] on a
      nil position panics. *)
Definition dashboard_chart (entry : string * option Position) : option DashboardChart :=
    let '(id, pos) := entry in
    match pos with
    | Some p => Some (mk_dchart id (ValueInt32 (pos_Width p)) (ValueInt32 (pos_Height p))
                        (ValueInt32 (pos_Row p)) (ValueInt32 (pos_Column p)))
    | None => None
    end.

  (** [for id, pos := range charts { db.Charts = append(db.Charts, ...) }] *)
Definition dashboard_charts (created : gmap string (option Position)) : option (list DashboardChart) :=
    mapM dashboard_chart (map_to_list created).

  (** The result of a handler: its diagnostics, the server state and the
      state it saved with [resp.State.Set], or a panic. *)
Inductive handler_result :=
  | Returned (diags : list diagnostic) (s : S) (saved : option WireframeModel)
  | Panicked (s : S).

Definition Create (s : S) (model : WireframeModel) : handler_result :=
    match create_loop s (m_Charts model) ∅ [] with
    | LoopReturn diags s => Returned diags s None
    | LoopPanic s => Panicked s
    | LoopDone diags s created charts =>
        match dashboard_charts created with
        | None => Panicked s
        | Some dcs =>
            let db := mk_dreq (ValueString (m_Name model)) (ValueString (m_Description model))
                        (ValueString (m_GroupID model)) dcs in
            match CreateDashboard db s with
            | (Err e, s') => Returned (diags ++ ErrorHandler e) s' None
            | (Ok id, s') =>
                Returned diags s'
                  (Some (mk_model (TFKnown id) (m_GroupID model) (TFKnown (LoadApplicationURL id))
                           (m_Name model) (m_Description model) (m_Density model) charts))
            end
        end
    end.

  (** ** [Read] *)

Fixpoint read_charts (s : S) (dcs : list DashboardChart) (charts : list Chart)
      (diags : list diagnostic) : list Chart * list diagnostic :=
    match dcs with
    | [] => (charts, diags)
    | dc :: rest =>
        match GetChart (dc_ChartId dc) s with
        | Err _ => read_charts s rest charts (diags ++ [DiagError "Error Reading Chart"])
        | Ok details =>
            let ch := mk_chart (TFKnown (cd_Id details)) (TFKnown (cd_Name details)) TFNull
                        (TFKnown (cd_Description details))
                        (Some (mk_position (TFKnown (dc_Width dc)) (TFKnown (dc_Height dc))
                                 (TFKnown (dc_Row dc)) (TFKnown (dc_Column dc))))
                        None None None None None None None None None in
            read_charts s rest (charts ++ [ch]) diags
        end
    end.

  (** [Read] starts from the prior state [model] and appends the charts
      it reads to [model.Charts]. *)
Definition Read (s : S) (model : WireframeModel) : list diagnostic * option WireframeModel :=
    match GetDashboard (ValueString (m_ID model)) s with
    | Err e => (ErrorHandler e, None)
    | Ok d =>
        let density := match d_ChartDensity d with
                       | Some dens => TFKnown dens
                       | None => m_Density model
                       end in
        let '(charts, diags) := read_charts s (d_Charts d) (m_Charts model) [] in
        (diags, Some (mk_model (m_ID model) (TFKnown (d_GroupId d)) (m_URL model)
                       (TFKnown (d_Name d)) (TFKnown (d_Description d)) density charts))
    end.

  (** ** [Update]: decodes the plan and returns. *)
Definition Update (s : S) (plan : WireframeModel) : list diagnostic * S := ([], s).
End Handlers.

(** ** An in-memory API server *)

Record Mem := mk_mem {
  mem_next : nat;
  mem_charts : gmap string ChartRequest;
  mem_slo_charts : gmap string string;
  mem_dashboards : gmap string DashboardRequest
}.

Definition fresh_id (m : Mem) : string := pretty (mem_next m).

Definition mem_create_chart (r : ChartRequest) (m : Mem) : result string api_error * Mem :=
  let id := fresh_id m in
  (Ok id, mk_mem (S (mem_next m)) (<[id := r]> (mem_charts m)) (mem_slo_charts m) (mem_dashboards m)).

Definition mem_create_slo_chart (slo : string) (m : Mem) : result string api_error * Mem :=
  let id := fresh_id m in
  (Ok id, mk_mem (S (mem_next m)) (mem_charts m) (<[id := slo]> (mem_slo_charts m)) (mem_dashboards m)).

(** The server rejects a chart without a name. *)
Definition mem_validate_chart (r : ChartRequest) (m : Mem) : option api_error :=
  if String.eqb (req_Name r) EmptyString then Some (ApiError 400%Z) else None.

Definition mem_create_dashboard (d : DashboardRequest) (m : Mem) : result string api_error * Mem :=
  let id := fresh_id m in
  (Ok id, mk_mem (S (mem_next m)) (mem_charts m) (mem_slo_charts m) (<[id := d]> (mem_dashboards m))).

Definition mem_get_dashboard (id : string) (m : Mem) : result Dashboard api_error :=
  match mem_dashboards m !! id with
  | Some d => Ok (mk_dashboard (dr_Name d) (dr_Description d) (dr_GroupId d) None (dr_Charts d))
  | None => Err (ApiError 404%Z)
  end.

Definition mem_get_chart (id : string) (m : Mem) : result ChartDetails api_error :=
  match mem_charts m !! id with
  | Some r => Ok (mk_details id (req_Name r) (req_Description r))
  | None => Err (ApiError 404%Z)
  end.

Definition mem_delete_chart (id : string) (m : Mem) : option api_error * Mem :=
  match mem_charts m !! id with
  | Some _ => (None, mk_mem (mem_next m) (delete id (mem_charts m)) (mem_slo_charts m) (mem_dashboards m))
  | None => (Some (ApiError 404%Z), m)
  end.

Definition mem_delete_dashboard (id : string) (m : Mem) : option api_error * Mem :=
  match mem_dashboards m !! id with
  | Some _ => (None, mk_mem (mem_next m) (mem_charts m) (mem_slo_charts m) (delete id (mem_dashboards m)))
  | None => (Some (ApiError 404%Z), m)
  end.

#[export] Instance MemServer : ChartAPI Mem := {
  CreateChart := mem_create_chart;
  CreateSloChart := mem_create_slo_chart;
  ValidateChart := mem_validate_chart;
  CreateDashboard := mem_create_dashboard;
  GetDashboard := mem_get_dashboard;
  GetChart := mem_get_chart;
  DeleteChart := mem_delete_chart;
  DeleteDashboard := mem_delete_dashboard
}.

Definition empty_mem : Mem := mk_mem 0 ∅ ∅ ∅.

(** ** Lemmas *)

Lemma HasError_app ds1 ds2 : HasError (ds1 ++ ds2) = HasError ds1 || HasError ds2.
Proof. unfold HasError. apply existsb_app. Qed.

Section HandlerLemmas.
  Context {S : Type} `{!ChartAPI S} (ErrorHandler : api_error -> list diagnostic)
    (duration_ms : tf_value string -> Z).

  (** [read_charts] keeps the charts it starts from and appends one
      chart per dashboard chart it can fetch. *)
Lemma read_charts_all_ok (s : S) dcs charts diags :
    Forall (fun dc => is_ok (GetChart (dc_ChartId dc) s) = true) dcs ->
    exists added, read_charts s dcs charts diags = ((charts ++ added)%list, diags) /\
                  List.length added = List.length dcs.
  Proof.
    revert charts. induction dcs as [|dc dcs IH]; intros charts Hok; simpl.
    { exists []. by rewrite app_nil_r. }
    inversion Hok as [|? ? Hdc Hrest]; subst.
    destruct (GetChart (dc_ChartId dc) s) as [details|e]; [|done].
    match goal with
    | |- context [read_charts s dcs (charts ++ [?c])%list diags] =>
        destruct (IH (charts ++ [c])%list Hrest) as (added & -> & Hl)
    end.
    eexists. rewrite <- app_assoc. split; [reflexivity|]. simpl. lia.
  Qed.

  (** Reading back the dashboard charts built from known positions gives
      the same IDs and positions, after the charts it starts from. *)
Lemma read_charts_positions (s : S) l dcs charts diags :
    Forall2 (fun e dc => dashboard_chart e = Some dc) l dcs ->
    Forall (fun e => exists w h r c,
              e.2 = Some (mk_position (TFKnown w) (TFKnown h) (TFKnown r) (TFKnown c))) l ->
    Forall (fun dc => exists det, GetChart (dc_ChartId dc) s = Ok det /\ cd_Id det = dc_ChartId dc) dcs ->
    map (fun ch => (ValueString (ch_ID ch), ch_Position ch)) (read_charts s dcs charts diags).1 =
      (map (fun ch => (ValueString (ch_ID ch), ch_Position ch)) charts ++ l)%list.
  Proof.
    intros H2. revert charts diags. induction H2 as [|[id op] dc l dcs Hdc H2 IH];
      intros charts diags Hk Hg; simpl; [by rewrite app_nil_r|].
    inversion Hk as [|? ? (w & h & r & c & Hop) Hk']; subst. simpl in Hop; subst op.
    inversion Hg as [|? ? (det & Hget & Hid) Hg']; subst.
    injection Hdc as <-. simpl in *. rewrite Hget, IH by done.
    rewrite map_app, <- app_assoc. simpl. by rewrite Hid.
  Qed.
End HandlerLemmas.

(** ** [ValidateConfig] and the first collision *)

(** A chart whose [switch] dispatches to a builder that reports no
    error. *)
Definition dispatched (dm : tf_value string -> Z) (ch : Chart) : Prop :=
  exists kind req ds, build_request dm ch = Some (kind, (req, ds)) /\ HasError ds = false.

(** The errors [ValidateConfig] is meant to find first: the collisions of
    the first chart that collides with one before it, [safe] holding the
    earlier charts' positions by name. *)
Fixpoint first_collisions (charts : list Chart) (safe : gmap string (option Position))
  : list diagnostic :=
  match charts with
  | [] => []
  | ch :: rest =>
      match collision_diags safe ch with
      | [] => first_collisions rest (<[ValueString (ch_Name ch) := ch_Position ch]> safe)
      | ds => ds
      end
  end.

Lemma filter_is_error_nil ds : HasError ds = false -> List.filter is_error ds = [].
Proof.
  unfold HasError. induction ds as [|d ds IH]; simpl; [done|].
  intros [-> ?]%orb_false_iff. by apply IH.
Qed.

Lemma collision_diags_errors safe ch :
  Forall (fun d => is_error d = true) (collision_diags safe ch).
Proof.
  apply Forall_forall. intros d ([named pos] & _ & Hd)%list_elem_of_omap.
  by destruct (CheckCollision _ _); simplify_eq.
Qed.

Lemma filter_is_error_app ds1 ds2 :
  List.filter is_error (ds1 ++ ds2) = List.filter is_error ds1 ++ List.filter is_error ds2.
Proof. induction ds1 as [|d ds1 IH]; simpl; [done|]. by destruct (is_error d); rewrite IH. Qed.

Lemma filter_is_error_all ds : Forall (fun d => is_error d = true) ds -> List.filter is_error ds = ds.
Proof. induction 1 as [|d ds Hd _ IH]; simpl; [done|]. by rewrite Hd, IH. Qed.

(** Once [resp.Diagnostics] holds an error, [ValidateConfig] stops
    at the next chart that has a dispatched variant: it appends that
    chart's builder diagnostics and returns, so no later chart is
    validated or checked for collisions.  A first collision error thus
    hides every later one. *)
Lemma validate_stops_after_error {S} `{!ChartAPI S} dm (s : S) ch rest safe diags kind req ds :
  HasError diags = true -> build_request dm ch = Some (kind, (req, ds)) ->
  validate_loop dm s (ch :: rest) safe diags = diags ++ ds.
Proof.
  intros He Hb. simpl. rewrite Hb, HasError_app, He. reflexivity.
Qed.

Section ValidateLemmas.
  Context {S : Type} `{!ChartAPI S} (dm : tf_value string -> Z).

(** Past an error, [ValidateConfig] adds no error: it returns at the
    next dispatched chart. *)
Lemma validate_after_error (s : S) rest safe diags :
    HasError diags = true -> Forall (dispatched dm) rest ->
    List.filter is_error (validate_loop dm s rest safe diags) = List.filter is_error diags.
  Proof.
    intros He Hall. destruct Hall as [|ch rest (kind & req & ds & Hb & Hds) _]; [done|].
    rewrite (validate_stops_after_error dm s ch rest safe diags kind req ds He Hb).
    by rewrite filter_is_error_app, (filter_is_error_nil ds Hds), app_nil_r.
  Qed.

Lemma validate_loop_first_collision (s : S) charts safe diags :
    HasError diags = false -> Forall (dispatched dm) charts ->
    List.filter is_error (validate_loop dm s charts safe diags) = first_collisions charts safe.
  Proof.
    revert safe diags. induction charts as [|ch rest IH]; intros safe diags Hd Hall; simpl.
    { by apply filter_is_error_nil. }
    inversion Hall as [|? ? (kind & req & ds & Hb & Hds) Hrest]; subst.
    assert (Hc : forall d, HasError d = false ->
      List.filter is_error
        (validate_loop dm s rest (<[ValueString (ch_Name ch) := ch_Position ch]> safe)
           (d ++ collision_diags safe ch)) =
      match collision_diags safe ch with
      | [] => first_collisions rest (<[ValueString (ch_Name ch) := ch_Position ch]> safe)
      | ds => ds
      end).
    { intros d Hd'. pose proof (collision_diags_errors safe ch) as Herr.
      destruct (collision_diags safe ch) as [|c cs]; [rewrite app_nil_r; by apply IH|].
      inversion Herr as [|? ? Hc _]; subst.
      rewrite validate_after_error by (rewrite ?HasError_app; simpl; rewrite ?Hc, ?orb_true_r; done).
      by rewrite filter_is_error_app, filter_is_error_nil, filter_is_error_all. }
    rewrite Hb, HasError_app, Hd, Hds. simpl.
    destruct req as [r|]; [destruct (ValidateChart r s)|]; apply Hc;
      rewrite ?HasError_app, Hd, Hds; done.
  Qed.
End ValidateLemmas.

(** ** [Create]'s loop over a split list of charts *)

Section CreateLemmas.
  Context {S : Type} `{!ChartAPI S} (ErrorHandler : api_error -> list diagnostic)
    (dm : tf_value string -> Z).

(** The chart loop of [Create] over [pre ++ rest] runs over [pre] and,
    when that runs to the end, carries on over [rest] from where [pre]
    left the server, the positions and the diagnostics. *)
Lemma create_loop_app (s : S) pre rest created diags :
    create_loop ErrorHandler dm s (pre ++ rest) created diags =
    match create_loop ErrorHandler dm s pre created diags with
    | LoopDone d1 s1 c1 ch1 =>
        match create_loop ErrorHandler dm s1 rest c1 d1 with
        | LoopDone d2 s2 c2 ch2 => LoopDone d2 s2 c2 (ch1 ++ ch2)
        | r => r
        end
    | r => r
    end.
  Proof.
    revert s created diags. induction pre as [|ch pre IH]; intros s created diags; simpl.
    { by destruct (create_loop ErrorHandler dm s rest created diags). }
    repeat case_match; simplify_eq; rewrite ?IH in *; simplify_eq; try done;
      repeat (case_match; simplify_eq/=); done.
  Qed.
End CreateLemmas.

(** ** Properties *)

(** C18: when every chart has a variant whose request builds without
    error, the errors [ValidateConfig] reports are exactly the collisions
    of the first chart that collides with an earlier one: once that
    error is in [resp.Diagnostics] it returns at the next chart, so the
    collisions of every later chart go unreported. *)
Theorem ValidateConfig_first_collision {S} `{!ChartAPI S} dm (s : S) model :
  Forall (dispatched dm) (m_Charts model) ->
  List.filter is_error (ValidateConfig dm s model) = first_collisions (m_Charts model) ∅.
Proof. intros Hall. by apply validate_loop_first_collision. Qed.

Lemma ValidateConfig_first_collision_witness :
  let dopt := mk_data_option None TFNull TFNull TFNull TFNull in
  let pos r := mk_position (TFKnown 12%Z) (TFKnown 1%Z) (TFKnown r) (TFKnown 0%Z) in
  let text n r := mk_chart TFNull (TFKnown n) TFNull TFNull (Some (pos r)) None None None None
                    (Some (mk_text (TFKnown "notes"))) None None None (Some dopt) in
  let model := mk_model TFNull (TFKnown "group") TFNull (TFKnown "dash") TFNull TFNull
                 [text "a" 0%Z; text "b" 1%Z; text "c" 2%Z] in
  Forall (dispatched (fun _ => 0%Z)) (m_Charts model) /\
  List.filter is_error (ValidateConfig (fun _ => 0%Z) empty_mem model) = [DiagCollision "a" "b"].
Proof.
  intros dopt pos text model.
  assert (H : Forall (dispatched (fun _ => 0%Z)) (m_Charts model))
    by (repeat constructor; do 3 eexists; split; reflexivity).
  split; [exact H|].
  rewrite (ValidateConfig_first_collision (fun _ => 0%Z) empty_mem model H). vm_compute. reflexivity.
Defined.

(** C19: [Create] does not clean up after itself: when the request
    builder of a chart reports an error after the charts before it were
    created, [Create] returns that error, saves no state, and leaves the
    server as those creations left it, so the charts already created stay
    on the server unknown to Terraform. *)
Theorem create_orphans_charts {S} `{!ChartAPI S} EH LU dm (s : S) model pre ch post
    diags s1 created charts kind req ds :
  m_Charts model = pre ++ ch :: post ->
  create_loop EH dm s pre ∅ [] = LoopDone diags s1 created charts ->
  HasError diags = false ->
  build_request dm ch = Some (kind, (req, ds)) -> HasError ds = true ->
  Create EH LU dm s model = Returned (diags ++ ds) s1 None.
Proof.
  intros Hm Hpre Hd Hb Hds. unfold Create.
  rewrite Hm, create_loop_app, Hpre. simpl. by rewrite Hb, HasError_app, Hd, Hds.
Qed.

Lemma create_orphans_charts_witness :
  let dopt := mk_data_option None TFNull TFNull TFNull TFNull in
  let pos r := mk_position (TFKnown 12%Z) (TFKnown 1%Z) (TFKnown r) (TFKnown 0%Z) in
  let text := mk_chart TFNull (TFKnown "a") TFNull TFNull (Some (pos 0%Z)) None None None None
                (Some (mk_text (TFKnown "notes"))) None None None (Some dopt) in
  let heatmap := mk_chart TFNull (TFKnown "b") TFNull TFNull (Some (pos 1%Z))
                   (Some (mk_heatmap TFNull TFNull)) None None None None None None None (Some dopt) in
  let model := mk_model TFNull (TFKnown "group") TFNull (TFKnown "dash") TFNull TFNull [text; heatmap] in
  let EH := fun _ : api_error => [DiagError "API Error"] in
  exists diags s1 created charts req ds,
    create_loop EH (fun _ => 0%Z) empty_mem [text] ∅ [] = LoopDone diags s1 created charts /\
    build_request (fun _ => 0%Z) heatmap = Some ("Heatmap", (req, ds)) /\
    HasError ds = true /\
    Create EH (fun id => id) (fun _ => 0%Z) empty_mem model = Returned (diags ++ ds) s1 None /\
    is_Some (mem_charts s1 !! "0").
Proof.
  intros dopt pos text heatmap model EH.
  do 6 eexists. split; [reflexivity|]. split; [reflexivity|]. split; [reflexivity|].
  split; [|eexists; reflexivity].
  eapply (create_orphans_charts EH (fun id => id) (fun _ => 0%Z) empty_mem model [text] heatmap []
           _ _ _ _ "Heatmap"); reflexivity.
Defined.

(** C20: [Read] keeps the charts of the prior state and appends the
    charts it reads from the dashboard: when every chart can be fetched
    the state it saves has the prior charts followed by one chart per
    dashboard chart, so each [Read] of an unchanged dashboard adds its
    charts again. *)
Theorem Read_appends_charts {S} `{!ChartAPI S} EH (s : S) model d :
  GetDashboard (ValueString (m_ID model)) s = Ok d ->
  Forall (fun dc => is_ok (GetChart (dc_ChartId dc) s) = true) (d_Charts d) ->
  exists added m',
    Read EH s model = ([], Some m') /\
    m_Charts m' = (m_Charts model ++ added)%list /\ List.length added = List.length (d_Charts d).
Proof.
  intros Hd Hok. unfold Read. rewrite Hd.
  destruct (read_charts_all_ok s (d_Charts d) (m_Charts model) [] Hok) as (added & -> & Hl).
  eexists _, _. split; [reflexivity|]. simpl. auto.
Qed.

Lemma Read_appends_charts_witness :
  let dopt := mk_data_option None TFNull TFNull TFNull TFNull in
  let pos c := mk_position (TFKnown 3%Z) (TFKnown 1%Z) (TFKnown 0%Z) (TFKnown c) in
  let text n c := mk_chart TFNull (TFKnown n) TFNull TFNull (Some (pos c)) None None None None
                    (Some (mk_text (TFKnown "notes"))) None None None (Some dopt) in
  let model := mk_model TFNull (TFKnown "group") TFNull (TFKnown "dash") TFNull TFNull
                 [text "a" 0%Z; text "b" 3%Z] in
  exists s st,
    Create (fun _ => [DiagError "API Error"]) (fun id => id) (fun _ => 0%Z) empty_mem model
      = Returned [] s (Some st) /\
    GetDashboard (ValueString (m_ID st)) s =
      Ok (mk_dashboard "dash" EmptyString "group" None
            [mk_dchart "1" 3 1 0 3; mk_dchart "0" 3 1 0 0]) /\
    exists added m', Read (fun _ => [DiagError "API Error"]) s st = ([], Some m') /\
      m_Charts m' = (m_Charts st ++ added)%list /\ List.length added = 2 /\
      List.length (m_Charts m') = 4.
Proof.
  intros dopt pos text model. eexists _, _.
  split; [vm_compute; reflexivity|].
  match goal with
  | |- GetDashboard _ ?s = Ok ?d /\ exists added m', Read ?EH _ ?st = _ /\ _ =>
      assert (Hd : GetDashboard (ValueString (m_ID st)) s = Ok d) by (vm_compute; reflexivity);
      destruct (Read_appends_charts EH s st d Hd ltac:(vm_compute; repeat constructor))
        as (added & m' & HR & Hc & Hl)
  end.
  split; [exact Hd|]. exists added, m'. split; [exact HR|]. split; [exact Hc|].
  split; [exact Hl|]. rewrite Hc, length_app, Hl. reflexivity.
Defined.


(** C21: positions round-trip through the API: the dashboard charts
    [Create] builds from the created charts' known positions, read back
    by [Read]'s chart loop from a server that returns each chart, give
    the same chart IDs with the same positions. *)
Theorem positions_roundtrip {S} `{!ChartAPI S} (s : S) (created : gmap string (option Position)) dcs :
  dashboard_charts created = Some dcs ->
  map_Forall (fun _ op => exists w h r c,
                op = Some (mk_position (TFKnown w) (TFKnown h) (TFKnown r) (TFKnown c))) created ->
  Forall (fun dc => exists det, GetChart (dc_ChartId dc) s = Ok det /\ cd_Id det = dc_ChartId dc) dcs ->
  map (fun ch => (ValueString (ch_ID ch), ch_Position ch)) (read_charts s dcs [] []).1 =
    map_to_list created.
Proof.
  unfold dashboard_charts. intros Hm%mapM_Some Hk Hg.
  rewrite (read_charts_positions s _ dcs [] [] Hm); [done| |done].
  eapply Forall_impl; [apply map_Forall_to_list, Hk|]. by intros [id op].
Qed.

Lemma positions_roundtrip_witness :
  let pos := mk_position (TFKnown 3%Z) (TFKnown 1%Z) (TFKnown 0%Z) (TFKnown 4%Z) in
  let s := mk_mem 1 {[ "0" := mk_request "cpu" "" "" [] (empty_options "TimeSeriesChart") ]} ∅ ∅ in
  (dashboard_charts {[ "0" := Some pos ]} = Some [mk_dchart "0" 3 1 0 4] /\
   map_Forall (fun _ op => exists w h r c,
                 op = Some (mk_position (TFKnown w) (TFKnown h) (TFKnown r) (TFKnown c)))
              ({[ "0" := Some pos ]} : gmap string (option Position)) /\
   Forall (fun dc => exists det, GetChart (dc_ChartId dc) s = Ok det /\ cd_Id det = dc_ChartId dc)
          [mk_dchart "0" 3 1 0 4]) /\
  map (fun ch => (ValueString (ch_ID ch), ch_Position ch)) (read_charts s [mk_dchart "0" 3 1 0 4] [] []).1 =
    map_to_list ({[ "0" := Some pos ]} : gmap string (option Position)).
Proof.
  intros pos s.
  assert (H1 : dashboard_charts {[ "0" := Some pos ]} = Some [mk_dchart "0" 3 1 0 4])
    by (vm_compute; reflexivity).
  assert (H2 : map_Forall (fun _ op => exists w h r c,
                 op = Some (mk_position (TFKnown w) (TFKnown h) (TFKnown r) (TFKnown c)))
              ({[ "0" := Some pos ]} : gmap string (option Position)))
    by (apply map_Forall_singleton; eauto 10).
  assert (H3 : Forall (fun dc => exists det, GetChart (dc_ChartId dc) s = Ok det /\ cd_Id det = dc_ChartId dc)
          [mk_dchart "0" 3 1 0 4])
    by (repeat constructor; eexists; split; reflexivity).
  split; [split_and!; assumption|]. exact (positions_roundtrip s _ _ H1 H2 H3).
Defined.

End Wireframe.
