(* ===== verification/WireframeDelete.v ===== *)
(** * Deleting a dashboard wireframe

    [Delete] of [src/internal/framework/dashboard/wireframe.go] deletes
    every chart of the state with [DeleteChart], recording an error for
    each failure, and deletes the dashboard only when no error was
    recorded.  What it achieves depends on the API: the class
    [ChartAPILaws] states what the theorems assume of the client's delete
    calls (a deleted object is gone, a failed call changes nothing, a
    call touches only its object, deleting a missing chart fails, as the
    SignalFx API answers 404), and [MemServer] satisfies it.

    Results: a [Delete] without error removes every chart and the
    dashboard; a failed chart deletion leaves the dashboard; and once one
    of the state's charts is gone, every later [Delete] of that state
    fails, so a partial failure can never be completed by retrying. *)

From stdpp Require Import gmap.
From S2P Require Import Prelude ChartModel Wireframe.
Import ChartModel Wireframe.

Module WireframeDelete.

(** ** What the theorems assume of the API *)

Class ChartAPILaws (S : Type) `{!ChartAPI S} := {
  delete_chart_gone id s s' :
    DeleteChart id s = (None, s') -> is_ok (GetChart id s') = false;
  delete_chart_err id s e s' :
    DeleteChart id s = (Some e, s') -> s' = s;
  delete_chart_other id id' s err s' :
    DeleteChart id s = (err, s') -> id <> id' -> GetChart id' s' = GetChart id' s;
  delete_chart_dashboards id s err s' d :
    DeleteChart id s = (err, s') -> GetDashboard d s' = GetDashboard d s;
  delete_chart_missing id s :
    is_ok (GetChart id s) = false -> (DeleteChart id s).1 <> None;
  delete_dashboard_gone id s s' :
    DeleteDashboard id s = (None, s') -> is_ok (GetDashboard id s') = false;
  delete_dashboard_charts id s err s' c :
    DeleteDashboard id s = (err, s') -> GetChart c s' = GetChart c s
}.

(** The chart IDs [Delete] passes to [DeleteChart]. *)
Definition chart_id (ch : Chart) : string := ValueString (ch_ID ch).

(** [Delete] retried [n] times on the same prior state, as Terraform
    does while the resource stays in its state. *)
Definition Delete_retries {S} `{!ChartAPI S} (n : nat) (s : S) (model : WireframeModel) : S :=
  Nat.iter n (fun s => (Delete s model).2) s.

(** ** [MemServer] is lawful *)

#[export] Instance MemServer_laws : ChartAPILaws Mem.
Proof.
  split; simpl; unfold mem_delete_chart, mem_delete_dashboard, mem_get_chart, mem_get_dashboard.
  - intros id s s'. destruct (mem_charts s !! id); intros [= <-]. simpl. by rewrite lookup_delete_eq.
  - intros id s e s'. by destruct (mem_charts s !! id); intros [= <-].
  - intros id id' s err s'. destruct (mem_charts s !! id); intros [= _ <-] ?; [|done].
    simpl. by rewrite lookup_delete_ne.
  - intros id s err s' d. by destruct (mem_charts s !! id); intros [= _ <-].
  - intros id s. by destruct (mem_charts s !! id).
  - intros id s s'. destruct (mem_dashboards s !! id); intros [= <-]. simpl. by rewrite lookup_delete_eq.
  - intros id s err s' c. by destruct (mem_dashboards s !! id); intros [= _ <-].
Qed.

(** ** Lemmas on the chart loop *)

Section DeleteLemmas.
Context {S : Type} `{!ChartAPI S} `{!ChartAPILaws S}.

Lemma delete_charts_HasError_mono (s : S) cs diags :
  HasError diags = true -> HasError (delete_charts s cs diags).1 = true.
Proof.
  revert s diags. induction cs as [|ch cs IH]; intros s diags H; simpl; [done|].
  destruct (DeleteChart _ s) as [[e|] s1]; apply IH; [|done].
  by rewrite HasError_app, H.
Qed.

(** One [DeleteChart] keeps a chart that is gone gone. *)
Lemma DeleteChart_keeps_gone id c (s : S) :
  is_ok (GetChart c s) = false -> is_ok (GetChart c (DeleteChart id s).2) = false.
Proof.
  intros Hc. destruct (DeleteChart id s) as [err s1] eqn:E. simpl.
  destruct (decide (id = c)) as [<-|Hne].
  - destruct err as [e|]; [by rewrite (delete_chart_err _ _ _ _ E)|by eapply delete_chart_gone].
  - by rewrite (delete_chart_other _ _ _ _ _ E Hne).
Qed.

Lemma delete_charts_keeps_gone c (s : S) cs diags :
  is_ok (GetChart c s) = false -> is_ok (GetChart c (delete_charts s cs diags).2) = false.
Proof.
  revert s diags. induction cs as [|ch cs IH]; intros s diags Hc; simpl; [done|].
  pose proof (DeleteChart_keeps_gone (ValueString (ch_ID ch)) c s Hc) as H1.
  destruct (DeleteChart _ s) as [err s1]. by apply IH.
Qed.

Lemma delete_charts_dashboards (s : S) cs diags d :
  GetDashboard d (delete_charts s cs diags).2 = GetDashboard d s.
Proof.
  revert s diags. induction cs as [|ch cs IH]; intros s diags; simpl; [done|].
  destruct (DeleteChart _ s) as [err s1] eqn:E. rewrite IH.
  exact (delete_chart_dashboards _ _ _ _ d E).
Qed.

(** A chart loop that records no error leaves every chart gone. *)
Lemma delete_charts_clean (s : S) cs diags :
  HasError (delete_charts s cs diags).1 = false ->
  Forall (fun ch => is_ok (GetChart (chart_id ch) (delete_charts s cs diags).2) = false) cs.
Proof.
  revert s diags. induction cs as [|ch cs IH]; intros s diags Hno; simpl in *; [done|].
  destruct (DeleteChart _ s) as [[e|] s1] eqn:E.
  - rewrite delete_charts_HasError_mono in Hno; [done|]. by rewrite HasError_app, orb_true_r.
  - constructor; [|by apply IH]. apply delete_charts_keeps_gone.
    exact (delete_chart_gone _ _ _ E).
Qed.

(** A chart of the loop that is already gone makes the loop record an
    error. *)
Lemma delete_charts_missing (s : S) cs diags :
  Exists (fun ch => is_ok (GetChart (chart_id ch) s) = false) cs ->
  HasError (delete_charts s cs diags).1 = true.
Proof.
  revert s diags. induction cs as [|ch cs IH]; intros s diags Hex; [by inversion Hex|]. simpl.
  pose proof (delete_chart_missing (chart_id ch) s) as Hmiss.
  destruct (DeleteChart _ s) as [[e|] s1] eqn:E; simpl in Hmiss.
  - apply delete_charts_HasError_mono. by rewrite HasError_app, orb_true_r.
  - apply IH. apply Exists_cons in Hex as [Hch|Hrest]; [by destruct Hmiss|].
    eapply Exists_impl; [exact Hrest|]. intros ch' Hg.
    pose proof (DeleteChart_keeps_gone (chart_id ch) _ s Hg) as Hk. by rewrite E in Hk.
Qed.

(** When one of the state's charts is already gone, [Delete] records an
    error, stops before the dashboard, and the chart stays gone. *)
Lemma Delete_missing (s : S) model :
  Exists (fun ch => is_ok (GetChart (chart_id ch) s) = false) (m_Charts model) ->
  HasError (Delete s model).1 = true /\
  Exists (fun ch => is_ok (GetChart (chart_id ch) (Delete s model).2) = false) (m_Charts model) /\
  forall d, GetDashboard d (Delete s model).2 = GetDashboard d s.
Proof.
  intros Hex. pose proof (delete_charts_missing s (m_Charts model) [] Hex) as Herr.
  pose proof (fun d => delete_charts_dashboards s (m_Charts model) [] d) as Hd.
  assert (Hgone : Exists (fun ch => is_ok (GetChart (chart_id ch) (delete_charts s (m_Charts model) []).2) = false)
                    (m_Charts model))
    by (eapply Exists_impl; [exact Hex|]; intros ch; apply delete_charts_keeps_gone).
  unfold Delete. destruct (delete_charts s (m_Charts model) []) as [diags s1]. simpl in *.
  by rewrite Herr.
Qed.

End DeleteLemmas.

(** ** Properties *)

(** C30: a [Delete] that reports no error has removed every chart of the
    state and the dashboard. *)
Theorem Delete_clean {S} `{!ChartAPI S} `{!ChartAPILaws S} (s : S) model :
  HasError (Delete s model).1 = false ->
  Forall (fun ch => is_ok (GetChart (chart_id ch) (Delete s model).2) = false) (m_Charts model) /\
  is_ok (GetDashboard (ValueString (m_ID model)) (Delete s model).2) = false.
Proof.
  pose proof (delete_charts_clean s (m_Charts model) []) as Hc.
  unfold Delete. destruct (delete_charts s (m_Charts model) []) as [diags s1]. simpl in Hc.
  destruct (HasError diags) eqn:Hd; simpl; [congruence|].
  destruct (DeleteDashboard _ s1) as [[e|] s2] eqn:Ed; simpl.
  - by rewrite HasError_app, Hd.
  - intros _. split; [|exact (delete_dashboard_gone _ _ _ Ed)].
    eapply Forall_impl; [exact (Hc eq_refl)|]. intros ch Hg.
    by rewrite (delete_dashboard_charts _ _ _ _ _ Ed).
Qed.

(** C31: when deleting one of the charts fails, [Delete] reports an error
    and never calls [DeleteDashboard]: every dashboard is as before. *)
Theorem Delete_chart_error_keeps_dashboard {S} `{!ChartAPI S} `{!ChartAPILaws S} (s : S) model :
  HasError (delete_charts s (m_Charts model) []).1 = true ->
  HasError (Delete s model).1 = true /\
  (forall d, GetDashboard d (Delete s model).2 = GetDashboard d s).
Proof.
  pose proof (fun d => delete_charts_dashboards s (m_Charts model) [] d) as Hd.
  unfold Delete. destruct (delete_charts s (m_Charts model) []) as [diags s1]. simpl in *.
  intros Herr. rewrite Herr. by split.
Qed.

(** C32: once one chart of the state is gone (deleted by an earlier,
    partly failed [Delete] or outside Terraform), no number of retried
    [Delete]s succeeds: each reports an error and the dashboard is never
    deleted. *)
Theorem Delete_retry_stuck {S} `{!ChartAPI S} `{!ChartAPILaws S} (s : S) model n :
  Exists (fun ch => is_ok (GetChart (chart_id ch) s) = false) (m_Charts model) ->
  HasError (Delete (Delete_retries n s model) model).1 = true /\
  GetDashboard (ValueString (m_ID model)) (Delete_retries n s model) =
    GetDashboard (ValueString (m_ID model)) s.
Proof.
  intros Hex.
  assert (Hinv : Exists (fun ch => is_ok (GetChart (chart_id ch) (Delete_retries n s model)) = false)
                   (m_Charts model) /\
                 forall d, GetDashboard d (Delete_retries n s model) = GetDashboard d s).
  { induction n as [|n [IHex IHd]]; [done|]. simpl.
    destruct (Delete_missing (Delete_retries n s model) model IHex) as (_ & Hex' & Hd').
    split; [exact Hex'|]. intros d. by rewrite Hd', IHd. }
  destruct Hinv as [Hex' Hd]. split; [by apply Delete_missing|apply Hd].
Qed.

(** ** Witnesses on [MemServer] *)

(** A chart of the state known by its ID only. *)
Definition id_chart (id : string) : Chart :=
  mk_chart (TFKnown id) TFNull TFNull TFNull None None None None None None None None None None.

Definition cpu_request : ChartRequest :=
  mk_request "cpu" "" "" [] (empty_options "TimeSeriesChart").

(** A server holding chart ["0"] and dashboard ["d"]. *)
Definition one_chart_server : Mem :=
  mk_mem 2 {[ "0" := cpu_request ]} ∅ {[ "d" := mk_dreq "dash" "" "" [] ]}.

Definition state_of (charts : list Chart) : WireframeModel :=
  mk_model (TFKnown "d") TFNull TFNull TFNull TFNull TFNull charts.

Lemma Delete_clean_witness :
  HasError (Delete one_chart_server (state_of [id_chart "0"])).1 = false /\
  Forall (fun ch => is_ok (GetChart (chart_id ch) (Delete one_chart_server (state_of [id_chart "0"])).2) = false)
         [id_chart "0"] /\
  is_ok (GetDashboard "d" (Delete one_chart_server (state_of [id_chart "0"])).2) = false.
Proof.
  assert (H : HasError (Delete one_chart_server (state_of [id_chart "0"])).1 = false)
    by (vm_compute; reflexivity).
  split; [exact H|exact (Delete_clean one_chart_server (state_of [id_chart "0"]) H)].
Defined.

Lemma Delete_chart_error_keeps_dashboard_witness :
  HasError (delete_charts one_chart_server [id_chart "0"; id_chart "1"] []).1 = true /\
  HasError (Delete one_chart_server (state_of [id_chart "0"; id_chart "1"])).1 = true /\
  (forall d, GetDashboard d (Delete one_chart_server (state_of [id_chart "0"; id_chart "1"])).2 =
             GetDashboard d one_chart_server).
Proof.
  assert (H : HasError (delete_charts one_chart_server [id_chart "0"; id_chart "1"] []).1 = true)
    by (vm_compute; reflexivity).
  split; [exact H|exact (Delete_chart_error_keeps_dashboard one_chart_server (state_of [id_chart "0"; id_chart "1"]) H)].
Defined.

Lemma Delete_retry_stuck_witness :
  Exists (fun ch => is_ok (GetChart (chart_id ch) one_chart_server) = false) [id_chart "0"; id_chart "1"] /\
  HasError (Delete (Delete_retries 3 one_chart_server (state_of [id_chart "0"; id_chart "1"]))
                   (state_of [id_chart "0"; id_chart "1"])).1 = true /\
  GetDashboard "d" (Delete_retries 3 one_chart_server (state_of [id_chart "0"; id_chart "1"])) =
    GetDashboard "d" one_chart_server.
Proof.
  assert (H : Exists (fun ch => is_ok (GetChart (chart_id ch) one_chart_server) = false)
                [id_chart "0"; id_chart "1"])
    by (apply Exists_cons_tl, Exists_cons_hd; vm_compute; reflexivity).
  split; [exact H|exact (Delete_retry_stuck one_chart_server (state_of [id_chart "0"; id_chart "1"]) 3 H)].
Defined.

End WireframeDelete.
