(* ===== verification/WireframeSchema.v ===== *)
(** * The wireframe's schema and the structs it is decoded into

    [Schema] of [src/internal/framework/dashboard/wireframe.go] declares
    the resource's attributes; [wireframe_model.go] and the struct types
    of [wireframe_chart_model.go] are the Go structs every handler
    decodes the configuration, plan or state into with
    [req.Config.Get(ctx, &model)] / [req.State.Get].

    The schema is data: [attr] is a primitive attribute (string, time
    range, bool, int32, list of strings) or a nested one (single, list or
    set of objects), with its mode (required, optional, computed), its
    default and its validators.  Descriptions and the chart set's
    [UseStateForUnknown] plan modifier are omitted: no rule below reads
    them.  A Go struct is the list of its [tfsdk] tags with the field
    types ([gotype]).

    Three rules of the Terraform plugin framework, a library the code
    calls, are modelled as functions: the schema rules it enforces when
    the provider starts ([attr_wf]: a mode is required, optional,
    computed or optional and computed; a default needs [Computed] and
    has the attribute's type; a validator fits its attribute), the reflection rule of [Get] ([field_errors]: a struct's
    tags must be exactly the object's attribute names, each field of a
    type the attribute converts to) and defaults applied at plan time
    ([plan_int32]). *)

From stdpp Require Import gmap.
From S2P Require Import Prelude ChartModel Wireframe.
Import ChartModel Wireframe.

Module WireframeSchema.

#[local] Set Warnings "-register-all".

(** ** Schema declarations *)

Inductive validator :=
| OneOf (vals : list string)            (* stringvalidator.OneOf *)
| Int32Between (lo hi : Z)              (* int32validator.Between *)
| TimeRangeAbove (min : string)         (* fwvalidator.TimeRangeGreaterThan *)
| ValueStringsAre (v : validator)       (* listvalidator.ValueStringsAre *)
| ExactlyOneOf (names : list string).   (* setvalidator.ExactlyOneOf(path.MatchRelative().AtName(..), ..) *)

Inductive default :=
| DefString (s : string)                (* stringdefault.StaticString *)
| DefBool (b : bool)                    (* booldefault.StaticBool *)
| DefInt32 (z : Z).                     (* int32default.StaticInt32 *)

(** [schema.StringAttribute] (with [CustomType: fwtypes.TimeRangeType{}]
    for [PTimeRange]), [BoolAttribute], [Int32Attribute] and
    [ListAttribute] of [types.StringType]. *)
Inductive prim := PString | PTimeRange | PBool | PInt32 | PStringList.

Inductive nesting := Single | ListNested | SetNested.

Record mode := mk_mode { required : bool; optional : bool; computed : bool }.

Definition Required : mode := mk_mode true false false.
Definition Optional : mode := mk_mode false true false.
Definition Computed : mode := mk_mode false false true.
Definition OptComputed : mode := mk_mode false true true.

Inductive attr :=
| Prim (ty : prim) (m : mode) (def : option default) (vals : list validator)
| Nest (n : nesting) (m : mode) (vals : list validator) (attrs : list (string * attr)).

(** [fwshared.ResourceIDAttribute()] is not under [src/]: the resource
    ID, a computed string. *)
Definition ResourceIDAttribute : attr := Prim PString Computed None [].

(** The chart's [position]. *)
Definition position_attrs : list (string * attr) := [
  ("width", Prim PInt32 OptComputed (Some (DefInt32 3)) [Int32Between 1 12]);
  ("height", Prim PInt32 OptComputed (Some (DefInt32 1)) [Int32Between 1 3]);
  ("row", Prim PInt32 Required None [Int32Between 0 99]);
  ("column", Prim PInt32 Required None [Int32Between 0 11])].

Definition program_options_attrs : list (string * attr) := [
  ("text", Prim PString Required None []);
  ("min_resolution", Prim PTimeRange Optional None [TimeRangeAbove "0s"]);
  ("max_delay", Prim PTimeRange Optional None [TimeRangeAbove "0s"]);
  ("disable_sampling", Prim PBool OptComputed (Some (DefBool false)) []);
  ("timezone", Prim PString OptComputed (Some (DefString "UTC")) [])].

(** The seven chart variants. *)
Definition variant_attrs : list (string * attr) := [
  ("heatmap", Nest Single Optional [] [
     ("color_by", Prim PString OptComputed (Some (DefString "Range")) [OneOf ["Range"; "Scale"]]);
     ("group_by", Prim PStringList Optional None [])]);
  ("list", Nest Single Optional [] [
     ("hide_missing_values", Prim PBool OptComputed (Some (DefBool false)) [])]);
  ("table", Nest Single Optional [] [
     ("group_by", Prim PStringList Optional None []);
     ("hide_missing_values", Prim PBool OptComputed (Some (DefBool false)) [])]);
  ("single_value", Nest Single Optional [] [
     ("show_sparkline", Prim PBool OptComputed (Some (DefBool false)) [])]);
  ("text", Nest Single Optional [] [
     ("markdown", Prim PString Required None [])]);
  ("time_series", Nest Single Optional [] [
     ("color_by", Prim PString OptComputed (Some (DefString "Dimension")) [OneOf ["Metric"; "Dimension"]]);
     ("include_zero", Prim PBool OptComputed (Some (DefBool false)) []);
     ("show_data_markers", Prim PBool OptComputed (Some (DefBool false)) []);
     ("show_legend", Prim PBool OptComputed (Some (DefBool true)) []);
     ("show_event_lines", Prim PBool OptComputed (Some (DefBool true)) []);
     ("sort_by", Prim PString Optional None []);
     ("stacked", Prim PBool OptComputed (Some (DefBool false)) [])]);
  ("slo", Nest Single Optional [] [
     ("slo_id", Prim PString Required None [])])].

Definition publish_options_attr : attr :=
  Nest ListNested Optional [] [
    ("label", Prim PString Required None []);
    ("display_name", Prim PString Optional None []);
    ("value_prefix", Prim PString Optional None []);
    ("value_suffix", Prim PString Optional None []);
    ("value_unit", Prim PString Optional None []);
    ("plot_type", Prim PString Optional None [])].

Definition data_options_attr : attr :=
  Nest Single Optional [] [
    ("no_data", Nest Single Optional [] [
       ("message", Prim PString Required None []);
       ("link_text", Prim PString Optional None []);
       ("link_url", Prim PString Optional None [])]);
    ("refresh_interval", Prim PTimeRange Optional None []);
    ("hide_missing_values", Prim PBool OptComputed (Some (DefBool false)) []);
    ("max_precision", Prim PInt32 OptComputed (Some (DefInt32 2)) [Int32Between 0 10]);
    ("time_range", Prim PTimeRange Optional None []);
    ("unit_prefix", Prim PString OptComputed (Some (DefString "Metric")) [OneOf ["Metric"; "Binary"]])].

(** The [chart] set and its nested object. *)
Definition chart_attr : attr :=
  Nest SetNested Optional
    [ExactlyOneOf ["heatmap"; "list"; "table"; "single_value"; "text"; "time_series"; "slo"]]
    ([("id", Prim PString Computed None []);
      ("name", Prim PString Required None []);
      ("description", Prim PString Optional None []);
      ("tags", Prim PStringList OptComputed None []);
      ("position", Nest Single Required [] position_attrs);
      ("program_options", Nest Single Required [] program_options_attrs)]
     ++ variant_attrs ++
     [("publish_options", publish_options_attr);
      ("data_options", data_options_attr)]).

(** The access control list of [permissions]. *)
Definition permissions_attr : attr :=
  Nest Single Optional [] [
    ("parent", Prim PString Optional None []);
    ("acl", Nest ListNested Optional [] [
       ("actions", Prim PStringList Required None [ValueStringsAre (OneOf ["READ"; "WRITE"])]);
       ("principal_id", Prim PString Required None []);
       ("principal_type", Prim PString Required None [OneOf ["USER"; "TEAM"; "ORG"]])])].

(** [resp.Schema.Attributes]. *)
Definition wireframe_schema : list (string * attr) := [
  ("id", ResourceIDAttribute);
  ("url", Prim PString Computed None []);
  ("group_id", Prim PString Required None []);
  ("name", Prim PString Required None []);
  ("description", Prim PString Optional None []);
  ("max_delay_override", Prim PString OptComputed None []);
  ("density", Prim PString OptComputed (Some (DefString "DEFAULT"))
                [OneOf ["DEFAULT"; "LOW"; "HIGH"; "HIGHEST"]]);
  ("tags", Prim PStringList OptComputed None []);
  ("time_range", Prim PTimeRange OptComputed (Some (DefString "-3h")) []);
  ("authorized_writers", Nest Single Optional [] [
     ("teams", Prim PStringList Optional None []);
     ("users", Prim PStringList Optional None [])]);
  ("permissions", permissions_attr);
  ("chart", chart_attr)].

(** [Metadata]: the resource's type name. *)
Definition Metadata (ProviderTypeName : string) : string :=
  (ProviderTypeName ++ "_dashboard_wireframe")%string.

(** ** The Go structs *)

(** A field's type: [types.String], [types.Bool], [types.Int32],
    [types.List], [fwtypes.TimeRange], a pointer to a struct or a slice
    of pointers to structs. *)
Inductive gotype :=
| GString | GBool | GInt32 | GList | GTimeRange
| GPtr (fields : list (string * gotype))
| GSlice (fields : list (string * gotype)).

Definition ResourceDashboardChartPositionType : list (string * gotype) :=
  [("width", GInt32); ("height", GInt32); ("row", GInt32); ("column", GInt32)].

Definition ResourceDashboardChartProgramOptionType : list (string * gotype) :=
  [("text", GString); ("min_resolution", GTimeRange); ("max_delay", GTimeRange);
   ("disable_sampling", GBool); ("timezone", GString)].

Definition ResourceDashboardChartNoDataOptionType : list (string * gotype) :=
  [("message", GString); ("link_text", GString); ("link_url", GString)].

Definition ResourceDashboardChartDataOptionType : list (string * gotype) :=
  [("no_data", GPtr ResourceDashboardChartNoDataOptionType); ("refresh_interval", GTimeRange);
   ("hide_missing_values", GBool); ("max_precision", GInt32); ("unit_prefix", GString)].

Definition ResourceDashboardChartHeatMapType : list (string * gotype) :=
  [("color_by", GString); ("group_by", GList)].

Definition ResourceDashboardChartListType : list (string * gotype) :=
  [("hide_missing_values", GBool)].

Definition ResourceDashboardChartTableType : list (string * gotype) :=
  [("group_by", GList); ("hide_missing_values", GBool)].

Definition ResourceDashboardChartSingleValueType : list (string * gotype) :=
  [("show_sparkline", GBool)].

Definition ResourceDashboardChartTextType : list (string * gotype) :=
  [("content", GString)].

Definition ResourceDashboardChartTimeSeriesOptionsType : list (string * gotype) :=
  [("color_by", GString); ("include_zero", GBool); ("show_data_markers", GBool);
   ("show_legend", GBool); ("show_event_lines", GBool); ("sort_by", GString); ("stacked", GBool)].

Definition ResourceDashboardChartTimeSeriesType : list (string * gotype) :=
  [("options", GPtr ResourceDashboardChartTimeSeriesOptionsType)].

Definition ResourceDashboardChartSLOType : list (string * gotype) :=
  [("slo_id", GString)].

Definition ResourceDashboardChartPublishOptionsType : list (string * gotype) :=
  [("label", GString); ("display_name", GString); ("value_prefix", GString);
   ("value_suffix", GString); ("value_unit", GString); ("plot_type", GString)].

Definition ResourceDashboardChartType : list (string * gotype) :=
  [("id", GString); ("name", GString); ("tags", GList); ("description", GString);
   ("position", GPtr ResourceDashboardChartPositionType);
   ("heatmap", GPtr ResourceDashboardChartHeatMapType);
   ("list", GPtr ResourceDashboardChartListType);
   ("table", GPtr ResourceDashboardChartTableType);
   ("single_value", GPtr ResourceDashboardChartSingleValueType);
   ("text", GPtr ResourceDashboardChartTextType);
   ("time_series", GPtr ResourceDashboardChartTimeSeriesType);
   ("slo", GPtr ResourceDashboardChartSLOType);
   ("program", GPtr ResourceDashboardChartProgramOptionType);
   ("data_options", GPtr ResourceDashboardChartDataOptionType);
   ("publish_options", GPtr ResourceDashboardChartPublishOptionsType)].

Definition ResourceDashboardAuthorizedWritersType : list (string * gotype) :=
  [("teams", GList); ("users", GList)].

Definition ResourceDashboardAccessControlListPermissionType : list (string * gotype) :=
  [("actions", GList); ("principal_id", GString); ("principal_type", GString)].

Definition ResourceDashboardAccessControlListType : list (string * gotype) :=
  [("parent", GString); ("acl", GSlice ResourceDashboardAccessControlListPermissionType)].

Definition ResourceDashboardWireframeModel : list (string * gotype) :=
  [("id", GString); ("group_id", GString); ("url", GString); ("name", GString);
   ("description", GString); ("max_delay_override", GInt32); ("density", GString);
   ("tags", GList); ("time_range", GTimeRange);
   ("authorized_writers", GPtr ResourceDashboardAuthorizedWritersType);
   ("permissions", GPtr ResourceDashboardAccessControlListType);
   ("charts", GSlice ResourceDashboardChartType)].

(** ** The framework's schema rules *)

Definition mode_wf (m : mode) : bool :=
  (required m && negb (optional m) && negb (computed m)) ||
  (negb (required m) && (optional m || computed m)).

Definition default_fits (ty : prim) (d : default) : bool :=
  match ty, d with
  | PString, DefString _ | PTimeRange, DefString _ => true
  | PBool, DefBool _ | PInt32, DefInt32 _ => true
  | _, _ => false
  end.

Fixpoint validator_fits (ty : prim) (v : validator) : bool :=
  match ty, v with
  | PString, OneOf _ => true
  | PInt32, Int32Between lo hi => (lo <=? hi)%Z
  | PTimeRange, TimeRangeAbove _ => true
  | PStringList, ValueStringsAre v' => validator_fits PString v'
  | _, _ => false
  end.

(** [ExactlyOneOf] on a set of objects, read as naming attributes of the
    set's element. *)
Definition nested_validator_fits (n : nesting) (names : list string) (v : validator) : bool :=
  match n, v with
  | SetNested, ExactlyOneOf xs => forallb (fun x => existsb (String.eqb x) names) xs
  | _, _ => false
  end.

Fixpoint attr_wf (a : attr) : bool :=
  match a with
  | Prim ty m d vals =>
      mode_wf m && forallb (validator_fits ty) vals &&
      match d with
      | None => true
      | Some d => computed m && negb (required m) && default_fits ty d
      end
  | Nest n m vals attrs =>
      mode_wf m && forallb (nested_validator_fits n (map fst attrs)) vals &&
      bool_decide (NoDup (map fst attrs)) &&
      (fix go (l : list (string * attr)) : bool :=
         match l with [] => true | (_, a') :: r => attr_wf a' && go r end) attrs
  end.

Definition schema_wf (attrs : list (string * attr)) : bool :=
  attr_wf (Nest Single Required [] attrs).

(** ** The reflection rule of [Get] *)

Definition lookup_field (n : string) (fs : list (string * gotype)) : option gotype :=
  snd <$> List.find (fun '(m, _) => String.eqb n m) fs.

Definition converts (a : attr) (t : gotype) : bool :=
  match a, t with
  | Prim PString _ _ _, GString | Prim PTimeRange _ _ _, GTimeRange
  | Prim PBool _ _ _, GBool | Prim PInt32 _ _ _, GInt32 | Prim PStringList _ _ _, GList => true
  | Nest Single _ _ _, GPtr _ => true
  | Nest ListNested _ _ _, GSlice _ | Nest SetNested _ _ _, GSlice _ => true
  | _, _ => false
  end.

Definition join (path n : string) : string :=
  if String.eqb path "" then n else (path ++ "." ++ n)%string.

(** One struct against one object: the attributes without a field, the
    fields without an attribute, and the fields of a type the attribute
    does not convert to. *)
Definition field_errors (path : string) (fs : list (string * gotype)) (attrs : list (string * attr))
  : list string :=
  map (fun '(n, _) => join path n) (filter (fun '(n, _) => negb (existsb (String.eqb n) (map fst fs))) attrs) ++
  map (fun '(n, _) => join path n) (filter (fun '(n, _) => negb (existsb (String.eqb n) (map fst attrs))) fs) ++
  flat_map (fun '(n, a) =>
              match lookup_field n fs with
              | Some t => if converts a t then [] else [join path n]
              | None => []
              end) attrs.

(** The same, through every nested object whose field converts. *)
Fixpoint attr_errors (path : string) (a : attr) (t : gotype) : list string :=
  match a, t with
  | Nest _ _ _ attrs, (GPtr fs | GSlice fs) =>
      if converts a t then
        field_errors path fs attrs ++
        (fix go (l : list (string * attr)) : list string :=
           match l with
           | [] => []
           | (n, a') :: r =>
               match lookup_field n fs with
               | Some t' => if converts a' t' then attr_errors (join path n) a' t' else []
               | None => []
               end ++ go r
           end) attrs
      else []
  | _, _ => []
  end.

(** The decoded root is always an object: its tags are checked on every
    [Get]. *)
Definition root_errors : list string :=
  field_errors "" ResourceDashboardWireframeModel wireframe_schema.

(** [req.Config.Get(ctx, &model)], [req.Plan.Get], [req.State.Get]: the
    framework decodes the value into the struct, or fails with a
    conversion error. *)
Definition Get (v : WireframeModel) : result WireframeModel diagnostic :=
  match root_errors with
  | [] => Ok v
  | _ => Err (DiagError "Value Conversion Error")
  end.

(** ** Positions: validation and plan *)

Definition position_attr (n : string) : attr :=
  match List.find (fun '(m, _) => String.eqb n m) position_attrs with
  | Some (_, a) => a
  | None => Prim PInt32 Optional None []
  end.

(** The framework's validation of an [Int32Attribute]'s configured
    value: a required attribute must be set, and the validators skip a
    null or unknown value. *)
Definition int32_config_ok (a : attr) (v : tf_value Z) : bool :=
  match a with
  | Prim _ m _ vals =>
      (negb (required m) || negb (IsNull v)) &&
      forallb (fun val => match val, v with
                          | Int32Between lo hi, TFKnown z => (lo <=? z)%Z && (z <=? hi)%Z
                          | _, _ => true
                          end) vals
  | _ => true
  end.

(** The plan's value: a null configuration takes the default. *)
Definition plan_int32 (a : attr) (v : tf_value Z) : tf_value Z :=
  match v, a with
  | TFNull, Prim _ _ (Some (DefInt32 z)) _ => TFKnown z
  | _, _ => v
  end.

Definition position_config_ok (p : Position) : bool :=
  int32_config_ok (position_attr "width") (pos_Width p) &&
  int32_config_ok (position_attr "height") (pos_Height p) &&
  int32_config_ok (position_attr "row") (pos_Row p) &&
  int32_config_ok (position_attr "column") (pos_Column p).

Definition plan_position (p : Position) : Position :=
  mk_position (plan_int32 (position_attr "width") (pos_Width p))
              (plan_int32 (position_attr "height") (pos_Height p))
              (plan_int32 (position_attr "row") (pos_Row p))
              (plan_int32 (position_attr "column") (pos_Column p)).


Section Decoded.
Context {S : Type} `{!ChartAPI S}.
Context (ErrorHandler : api_error -> list diagnostic) (LoadApplicationURL : string -> string)
        (duration_ms : tf_value string -> Z).

(** [if resp.Diagnostics.Append(req.X.Get(ctx, &model)...); resp.Diagnostics.HasError() { return }] *)
Definition CreateResource (s : S) (config : WireframeModel) : handler_result :=
  match Get config with
  | Err d => Returned [d] s None
  | Ok model => Create ErrorHandler LoadApplicationURL duration_ms s model
  end.

Definition ReadResource (s : S) (state : WireframeModel) : list diagnostic * option WireframeModel :=
  match Get state with
  | Err d => ([d], None)
  | Ok model => Read ErrorHandler s model
  end.

Definition UpdateResource (s : S) (config : WireframeModel) : list diagnostic * S :=
  match Get config with
  | Err d => ([d], s)
  | Ok model => Update s model
  end.

Definition DeleteResource (s : S) (state : WireframeModel) : list diagnostic * S :=
  match Get state with
  | Err d => ([d], s)
  | Ok model => Delete s model
  end.

Definition ValidateConfigResource (s : S) (config : WireframeModel) : list diagnostic :=
  match Get config with
  | Err d => [d]
  | Ok model => ValidateConfig duration_ms s model
  end.

End Decoded.

(** ** Lemmas *)

Lemma Get_fails v : Get v = Err (DiagError "Value Conversion Error").
Proof. unfold Get. vm_compute. reflexivity. Qed.

(** An attribute with a default in range, or a required one, accepts a
    configured value exactly when its planned value is known and in
    range. *)
Lemma int32_attr_plan lo hi m d v :
  v <> TFUnknown ->
  (m = OptComputed /\ exists z0, d = Some (DefInt32 z0) /\ (lo <= z0 <= hi)%Z) \/
  (m = Required /\ d = None) ->
  int32_config_ok (Prim PInt32 m d [Int32Between lo hi]) v = true <->
  exists z, plan_int32 (Prim PInt32 m d [Int32Between lo hi]) v = TFKnown z /\ (lo <= z <= hi)%Z.
Proof.
  intros Hv [[-> (z0 & -> & Hz0)]|[-> ->]];
    destruct v as [| |z]; try done; simpl; case_zleb; simpl;
    split; intros; try naive_solver lia; destruct_and?; destruct_or?; naive_solver lia.
Qed.

(** ** Properties *)

(** The schema satisfies the framework's rules: every mode is valid,
    every default is [Computed] and of its attribute's type, every
    validator fits its attribute and [ExactlyOneOf] names the chart's
    seven variants. *)
Example schema_wellformed : schema_wf wireframe_schema = true.
Proof. vm_compute. reflexivity. Qed.

(** The Go structs do not match the schema: the root model's
    [charts] field has no attribute (the schema's is [chart]) and its
    [max_delay_override] is an [int32] field for a string attribute; the
    chart struct differs from the [chart] object in fourteen places
    ([program] for [program_options], [content] for [markdown], the time
    series' nested [options], a single [publish_options] for a list, no
    [data_options.time_range]). *)
Example struct_schema_mismatches :
  root_errors = ["chart"; "charts"; "max_delay_override"] /\
  attr_errors "chart" chart_attr (GSlice ResourceDashboardChartType) =
    ["chart.program_options"; "chart.program"; "chart.publish_options";
     "chart.text.markdown"; "chart.text.content";
     "chart.time_series.color_by"; "chart.time_series.include_zero";
     "chart.time_series.show_data_markers"; "chart.time_series.show_legend";
     "chart.time_series.show_event_lines"; "chart.time_series.sort_by";
     "chart.time_series.stacked"; "chart.time_series.options";
     "chart.data_options.time_range"].
Proof. split; vm_compute; reflexivity. Qed.

(** C16: since decoding into [ResourceDashboardWireframeModel] always
    fails, every handler returns the conversion error before any API
    call: [Create] saves no state, [Read] sets none, [Update] and
    [Delete] leave the server as it was, [ValidateConfig] reports only
    that error. *)
Theorem handlers_fail_decoding {S} `{!ChartAPI S} EH LoadURL dm (s : S) (v : WireframeModel) :
  CreateResource EH LoadURL dm s v = Returned [DiagError "Value Conversion Error"] s None /\
  ReadResource EH s v = ([DiagError "Value Conversion Error"], None) /\
  UpdateResource s v = ([DiagError "Value Conversion Error"], s) /\
  DeleteResource s v = ([DiagError "Value Conversion Error"], s) /\
  ValidateConfigResource dm s v = [DiagError "Value Conversion Error"].
Proof.
  unfold CreateResource, ReadResource, UpdateResource, DeleteResource, ValidateConfigResource.
  rewrite Get_fails. done.
Qed.

(** C17: the schema's position validators and defaults refine the
    position the collision theorems assume: a configured position whose
    values are known or null passes the schema exactly when its planned
    position (defaults applied) is [position_valid]. *)
Theorem position_schema_refines (p : Position) :
  pos_Width p <> TFUnknown -> pos_Height p <> TFUnknown ->
  pos_Row p <> TFUnknown -> pos_Column p <> TFUnknown ->
  position_config_ok p = true <-> position_valid (plan_position p).
Proof.
  intros Hw Hh Hr Hc. unfold position_config_ok, plan_position, position_valid.
  change (position_attr "width") with (Prim PInt32 OptComputed (Some (DefInt32 3)) [Int32Between 1 12]).
  change (position_attr "height") with (Prim PInt32 OptComputed (Some (DefInt32 1)) [Int32Between 1 3]).
  change (position_attr "row") with (Prim PInt32 Required None [Int32Between 0 99]).
  change (position_attr "column") with (Prim PInt32 Required None [Int32Between 0 11]).
  rewrite !andb_true_iff.
  rewrite (int32_attr_plan 1 12 _ _ _ Hw), (int32_attr_plan 1 3 _ _ _ Hh),
          (int32_attr_plan 0 99 _ _ _ Hr), (int32_attr_plan 0 11 _ _ _ Hc);
    [simpl|naive_solver lia..].
  split; [intros ((((w & -> & ?) & (h & -> & ?)) & (r & -> & ?)) & (c & -> & ?)); eauto 20|].
  intros (w & h & r & c & -> & -> & -> & -> & ?). naive_solver.
Qed.

Lemma position_schema_refines_witness :
  let p := mk_position TFNull TFNull (TFKnown 2%Z) (TFKnown 5%Z) in
  (pos_Width p <> TFUnknown /\ pos_Height p <> TFUnknown /\
   pos_Row p <> TFUnknown /\ pos_Column p <> TFUnknown) /\
  (position_config_ok p = true <-> position_valid (plan_position p)).
Proof.
  intros p. split; [split_and!; discriminate|].
  apply position_schema_refines; discriminate.
Defined.

End WireframeSchema.
