(* ===== verification/TimeRange.v ===== *)
(** * The time-range string validator

    [src/internal/framework/validator/time_range.go]: the bounds record
    [timeRangeBounds], its three constructors, [MarkdownDescription] and
    [ValidateString].  The custom type [fwtypes.TimeRange] the validator
    calls is not under [src/]: its two operations are the class
    [TimeRangeType] ([ParseDuration] and [ValueDuration], with the law
    that both agree on a string that parses).  [go_time_range] is an
    instance over Go's integer duration syntax, used by the examples.

    [ValidateString] returns the diagnostics it appends to
    [resp.Diagnostics]: none, or one error with its summary and detail. *)

From S2P Require Import Prelude ChartModel.
Import ChartModel.

Module TimeRange.

(** ** The parser interface *)

(** [tr.ParseDuration()] returns the duration or the parser's error
    message; [TimeRange{StringValue: types.StringValue(s)}.ValueDuration()]
    the duration of a string; on a string that parses they agree. *)
Class TimeRangeType := {
  ParseDuration : string -> result Z string;
  ValueDuration : string -> Z;
  ValueDuration_parse s d : ParseDuration s = Ok d -> ValueDuration s = d
}.

(** ** The validator *)

Record timeRangeBounds := { min : string; max : string }.

Definition TimeRangeGreaterThan (val : string) : timeRangeBounds :=
  {| min := val; max := "" |}.

Definition TimeRangeLessThan (val : string) : timeRangeBounds :=
  {| min := ""; max := val |}.

Definition TimeRangeBetween (mn mx : string) : timeRangeBounds :=
  {| min := mn; max := mx |}.

(** [v.min != ""] *)
Definition is_set (s : string) : bool := negb (String.eqb s "").

Definition MarkdownDescription (v : timeRangeBounds) : string :=
  if is_set (min v) && is_set (max v) then
    "The value must be between " ++ min v ++ " and " ++ max v ++ "."
  else if is_set (min v) then "The value must be greater than " ++ min v ++ "."
  else if is_set (max v) then "The value must be less than " ++ max v ++ "."
  else "".

Definition Description (v : timeRangeBounds) : string := MarkdownDescription v.

(** [resp.Diagnostics.AddError(summary, detail)] *)
Record diag := { summary : string; detail : string }.

Section Validate.
Context `{!TimeRangeType}.

Definition ValidateString (v : timeRangeBounds) (cfg : tf_value string) : list diag :=
  match cfg with
  | TFNull | TFUnknown => []
  | TFKnown s =>
      match ParseDuration s with
      | Err e =>
          [{| summary := "Invalid Time Range";
              detail := "Could not parse the time range value: " ++ e |}]
      | Ok dur =>
          let mn := ValueDuration (min v) in
          let mx := ValueDuration (max v) in
          if is_set (min v) && is_set (max v) then
            if (mn <=? dur)%Z && (dur <=? mx)%Z then []
            else [{| summary := "Time Range Out of Bounds";
                     detail := "The time range value must be between " ++ min v
                               ++ " and " ++ max v ++ "." |}]
          else if is_set (min v) then
            if (mn <=? dur)%Z then []
            else [{| summary := "Time Range Too Small";
                     detail := "The time range value must be greater than " ++ min v ++ "." |}]
          else if is_set (max v) then
            if (dur <=? mx)%Z then []
            else [{| summary := "Time Range Too Large";
                     detail := "The time range value must be less than " ++ max v ++ "." |}]
          else []
      end
  end.

(** What the validator promises: a duration within the bounds that are
    set (inclusive), or no value to check. *)
Definition within (v : timeRangeBounds) (dur : Z) : Prop :=
  (is_set (min v) = true -> (ValueDuration (min v) <= dur)%Z) /\
  (is_set (max v) = true -> (dur <= ValueDuration (max v))%Z).

Definition accepted (v : timeRangeBounds) (cfg : tf_value string) : Prop :=
  match cfg with
  | TFKnown s => exists dur, ParseDuration s = Ok dur /\ within v dur
  | _ => True
  end.

End Validate.

(** ** An instance: Go's integer duration syntax

    A signed sequence of [<digits><unit>] terms with the units of Go's
    [time.ParseDuration] ([ns], [us], [ms], [s], [m], [h]), or ["0"], in
    nanoseconds; the value of a string that does not parse is 0. *)

Definition digit_val (c : ascii) : option Z :=
  let n := nat_of_ascii c in
  if (48 <=? n)%nat && (n <=? 57)%nat then Some (Z.of_nat (n - 48)) else None.

(** The leading digits of [s]: their value, their count and the rest. *)
Fixpoint span_num (s : string) (acc : Z) (k : nat) : Z * nat * string :=
  match s with
  | String c r =>
      match digit_val c with
      | Some d => span_num r (acc * 10 + d)%Z (S k)
      | None => (acc, k, s)
      end
  | EmptyString => (acc, k, s)
  end.

(** The unit: the characters up to the next digit. *)
Fixpoint span_unit (s : string) : string * string :=
  match s with
  | String c r =>
      if bool_decide (is_Some (digit_val c)) then ("", s)
      else let '(u, t) := span_unit r in (String c u, t)
  | EmptyString => ("", "")
  end.

Definition unit_ns (u : string) : option Z :=
  if String.eqb u "ns" then Some 1%Z
  else if String.eqb u "us" then Some 1000%Z
  else if String.eqb u "ms" then Some 1000000%Z
  else if String.eqb u "s" then Some 1000000000%Z
  else if String.eqb u "m" then Some 60000000000%Z
  else if String.eqb u "h" then Some 3600000000000%Z
  else None.

Fixpoint parse_terms (fuel : nat) (s : string) (acc : Z) : option Z :=
  match fuel with
  | O => None
  | S f =>
      let '(n, k, rest) := span_num s 0 0 in
      if (k =? 0)%nat then None else
      let '(u, rest') := span_unit rest in
      match unit_ns u with
      | None => None
      | Some m =>
          match rest' with
          | EmptyString => Some (acc + n * m)%Z
          | _ => parse_terms f rest' (acc + n * m)%Z
          end
      end
  end.

Definition go_parse_duration (s : string) : result Z string :=
  let unsigned t := parse_terms (String.length t) t 0 in
  let r := if String.eqb s "0" then Some 0%Z else
    match s with
    | String "-" t => option_map Z.opp (unsigned t)
    | String "+" t => unsigned t
    | _ => unsigned s
    end in
  match r with
  | Some d => Ok d
  | None => Err ("time: invalid duration " ++ s)%string
  end.

Definition go_value_duration (s : string) : Z :=
  match go_parse_duration s with Ok d => d | Err _ => 0%Z end.

#[export] Program Instance go_time_range : TimeRangeType := {|
  ParseDuration := go_parse_duration;
  ValueDuration := go_value_duration
|}.
Next Obligation. intros s d H. unfold go_value_duration. now rewrite H. Qed.

(** ** Lemmas *)

Section ValidateFacts.
Context `{!TimeRangeType}.

Lemma is_set_empty : is_set "" = false.
Proof. reflexivity. Qed.

Lemma is_set_true s : s <> "" -> is_set s = true.
Proof. intros Hne. unfold is_set. destruct (String.eqb_spec s ""); done. Qed.

(** On a value that parses, the validator reports nothing exactly when
    the duration is within the bounds, and never more than one error. *)
Lemma ValidateString_parsed v s dur :
  ParseDuration s = Ok dur ->
  (ValidateString v (TFKnown s) = [] <-> within v dur) /\
  (List.length (ValidateString v (TFKnown s)) <= 1)%nat.
Proof.
  intros Hp. unfold ValidateString, within. rewrite Hp.
  destruct (is_set (min v)), (is_set (max v)); simpl; case_zleb; simpl;
    (split; [|lia]); naive_solver lia.
Qed.

Lemma ValidateString_parse_error v s e :
  ParseDuration s = Err e ->
  ValidateString v (TFKnown s) =
    [{| summary := "Invalid Time Range";
        detail := "Could not parse the time range value: " ++ e |}].
Proof. intros Hp. unfold ValidateString. now rewrite Hp. Qed.

Lemma accepted_known v s dur :
  ParseDuration s = Ok dur -> accepted v (TFKnown s) <-> within v dur.
Proof.
  intros Hp. simpl. split; [intros (d & Hd & W); congruence|eauto].
Qed.

End ValidateFacts.

(** ** Properties *)

Section ValidateProperties.
Context `{!TimeRangeType}.

(** C22: [ValidateString] reports no diagnostic exactly when the value
    is null, unknown, or parses to a duration within every bound that is
    set, bounds included; it never reports more than one diagnostic. *)
Theorem ValidateString_accepts v cfg :
  (ValidateString v cfg = [] <-> accepted v cfg) /\
  (List.length (ValidateString v cfg) <= 1)%nat.
Proof.
  destruct cfg as [| |s]; [simpl; split; [tauto|lia]..|].
  destruct (ParseDuration s) as [dur|e] eqn:Hp.
  - rewrite (accepted_known v s dur Hp). exact (ValidateString_parsed v s dur Hp).
  - rewrite (ValidateString_parse_error v s e Hp). simpl.
    split; [split; [discriminate|intros (d & Hd & _); congruence]|lia].
Qed.

(** [TimeRangeBetween min max], with both bounds set, accepts a
    value exactly when [TimeRangeGreaterThan min] and
    [TimeRangeLessThan max] both accept it. *)
Theorem TimeRangeBetween_conj mn mx cfg :
  mn <> "" -> mx <> "" ->
  ValidateString (TimeRangeBetween mn mx) cfg = [] <->
  ValidateString (TimeRangeGreaterThan mn) cfg = [] /\
  ValidateString (TimeRangeLessThan mx) cfg = [].
Proof.
  intros Hmn Hmx. destruct cfg as [| |s]; [simpl; tauto|simpl; tauto|].
  destruct (ParseDuration s) as [dur|e] eqn:Hp.
  - rewrite !(proj1 (ValidateString_parsed _ s dur Hp)).
    unfold within; simpl. rewrite !is_set_true by done. naive_solver.
  - rewrite !(ValidateString_parse_error _ s e Hp). naive_solver.
Qed.

(** C23: the bounds are inclusive: a bound's own string is accepted by
    [TimeRangeGreaterThan] and by [TimeRangeLessThan], whose
    descriptions nevertheless say "greater than" and "less than". *)
Theorem bounds_inclusive m d :
  m <> "" -> ParseDuration m = Ok d ->
  ValidateString (TimeRangeGreaterThan m) (TFKnown m) = [] /\
  ValidateString (TimeRangeLessThan m) (TFKnown m) = [] /\
  MarkdownDescription (TimeRangeGreaterThan m) = ("The value must be greater than " ++ m ++ ".")%string /\
  MarkdownDescription (TimeRangeLessThan m) = ("The value must be less than " ++ m ++ ".")%string.
Proof.
  intros Hm Hp. pose proof (ValueDuration_parse m d Hp) as Hv.
  split_and!; try (apply (ValidateString_parsed _ m d Hp); unfold within; simpl;
    split; intros; first [lia|discriminate]);
    unfold MarkdownDescription; simpl; rewrite is_set_true by done; reflexivity.
Qed.

(** C24: [TimeRangeBetween] does not check that its minimum is below its
    maximum: with the minimum's duration above the maximum's, every
    value that parses is rejected. *)
Theorem TimeRangeBetween_inverted mn mx s d :
  mn <> "" -> mx <> "" ->
  (ValueDuration mx < ValueDuration mn)%Z -> ParseDuration s = Ok d ->
  ValidateString (TimeRangeBetween mn mx) (TFKnown s) <> [].
Proof.
  intros Hmn Hmx Hlt Hp Hnil.
  apply (ValidateString_parsed _ s d Hp) in Hnil as [W1 W2]; simpl in *.
  rewrite is_set_true in W1, W2 by done.
  specialize (W1 eq_refl). specialize (W2 eq_refl). lia.
Qed.

End ValidateProperties.

(** The summaries of the reported diagnostics, as the tests read them. *)
Definition summaries (ds : list diag) : list string := map summary ds.

Lemma TimeRangeBetween_inverted_witness :
  ("3h" <> "" /\ "1h" <> "" /\
  (ValueDuration "1h" < ValueDuration "3h")%Z /\ ParseDuration "2h" = Ok 7200000000000%Z) /\
  ValidateString (TimeRangeBetween "3h" "1h") (TFKnown "2h") <> [].
Proof.
  split; [split_and!; [done|done|vm_compute; reflexivity|vm_compute; reflexivity]|].
  apply (TimeRangeBetween_inverted "3h" "1h" "2h" 7200000000000%Z); [done|done|vm_compute; reflexivity|vm_compute; reflexivity].
Defined.

Lemma bounds_inclusive_witness :
  ParseDuration "1h" = Ok 3600000000000%Z /\
  ValidateString (TimeRangeGreaterThan "1h") (TFKnown "1h") = [] /\
  ValidateString (TimeRangeLessThan "1h") (TFKnown "1h") = [] /\
  MarkdownDescription (TimeRangeGreaterThan "1h") = ("The value must be greater than " ++ "1h" ++ ".")%string /\
  MarkdownDescription (TimeRangeLessThan "1h") = ("The value must be less than " ++ "1h" ++ ".")%string.
Proof.
  split; [vm_compute; reflexivity|].
  apply (bounds_inclusive "1h" 3600000000000%Z); [done|vm_compute; reflexivity].
Defined.

Lemma TimeRangeBetween_conj_witness :
  ("1h" <> "" /\ "3h" <> "") /\
  (ValidateString (TimeRangeBetween "1h" "3h") (TFKnown "4h") = [] <->
   ValidateString (TimeRangeGreaterThan "1h") (TFKnown "4h") = [] /\
  ValidateString (TimeRangeLessThan "3h") (TFKnown "4h") = []).
Proof.
  split; [split; done|]. apply (TimeRangeBetween_conj "1h" "3h"); done.
Defined.

(** The assertions of [time_range_test.go], with Go's duration
    syntax: summaries of the reported errors (the tests check the first)
    and the descriptions. *)
Example time_range_tests :
  summaries (ValidateString (TimeRangeGreaterThan "1h") (TFKnown "2h")) = [] /\
  summaries (ValidateString (TimeRangeGreaterThan "1h") (TFKnown "1h")) = [] /\
  summaries (ValidateString (TimeRangeGreaterThan "1h") (TFKnown "30m")) = ["Time Range Too Small"] /\
  summaries (ValidateString (TimeRangeLessThan "2h") (TFKnown "1h")) = [] /\
  summaries (ValidateString (TimeRangeLessThan "2h") (TFKnown "2h")) = [] /\
  summaries (ValidateString (TimeRangeLessThan "2h") (TFKnown "3h")) = ["Time Range Too Large"] /\
  summaries (ValidateString (TimeRangeBetween "1h" "3h") (TFKnown "2h")) = [] /\
  summaries (ValidateString (TimeRangeBetween "1h" "3h") (TFKnown "1h")) = [] /\
  summaries (ValidateString (TimeRangeBetween "1h" "3h") (TFKnown "3h")) = [] /\
  summaries (ValidateString (TimeRangeBetween "1h" "3h") (TFKnown "30m")) = ["Time Range Out of Bounds"] /\
  summaries (ValidateString (TimeRangeBetween "1h" "3h") (TFKnown "4h")) = ["Time Range Out of Bounds"] /\
  summaries (ValidateString (TimeRangeGreaterThan "1h") TFNull) = [] /\
  summaries (ValidateString (TimeRangeGreaterThan "1h") TFUnknown) = [] /\
  summaries (ValidateString (TimeRangeGreaterThan "1h") (TFKnown "notaduration")) = ["Invalid Time Range"] /\
  MarkdownDescription {| min := "1h"; max := "2h" |} = "The value must be between 1h and 2h." /\
  MarkdownDescription {| min := "1h"; max := "" |} = "The value must be greater than 1h." /\
  MarkdownDescription {| min := ""; max := "2h" |} = "The value must be less than 2h." /\
  MarkdownDescription {| min := ""; max := "" |} = "" /\
  Description {| min := "1h"; max := "2h" |} = MarkdownDescription {| min := "1h"; max := "2h" |}.
Proof. vm_compute. split_and!; reflexivity. Qed.

End TimeRange.
