(* ===== verification/Convert.v ===== *)
(** * The publish-label converter

    [src/internal/convert/convert_visual_options.go]:
    [ToDetectorPublishLabelOptions] turns the Terraform representation of
    a detector's publish label (a [map[string]any]) into the API's
    [detector.PublishLabelOptions].  Go's dynamic values are [any]: a
    [map[string]any] is an association list (Go map lookup of a missing
    key gives [nil]); the type assertion [x.(string)] without its [ok]
    result panics on anything but a string, a panic being the error value
    [TypeAssertionPanic].  The colour palette ([visual.NewColorPalette],
    not under [src/]) is the section variable [ColorIndex]. *)

From S2P Require Import Prelude.

Module Convert.

#[local] Set Warnings "-register-all".

Inductive any :=
| AnyNil
| AnyString (s : string)
| AnyOther                              (* a value of any other dynamic type *)
| AnyMap (kvs : list (string * any)).   (* a [map[string]any] *)

(** [m[k]]: the value of the key, [nil] when it is absent. *)
Fixpoint map_index (kvs : list (string * any)) (k : string) : any :=
  match kvs with
  | [] => AnyNil
  | (k', v) :: r => if String.eqb k k' then v else map_index r k
  end.

(** A run-time panic: [interface conversion: interface {} is ..., not string]. *)
Inductive go_panic := TypeAssertionPanic.

(** [x.(string)] *)
Definition assert_string (x : any) : result string go_panic :=
  match x with
  | AnyString s => Ok s
  | _ => Err TypeAssertionPanic
  end.

(** [detector.PublishLabelOptions]; [PaletteIndex] is a [*int32]. *)
Record PublishLabelOptions := {
  Label : string;
  DisplayName : string;
  ValueUnit : string;
  ValuePrefix : string;
  ValueSuffix : string;
  PaletteIndex : option Z
}.

(** The keys the converter reads, in the order it reads them. *)
Definition publish_keys : list string :=
  ["label"; "display_name"; "value_unit"; "value_prefix"; "value_suffix"; "color"].

Section Converter.
(** [palette.ColorIndex(name)]: the index of a named colour, if any. *)
Context (ColorIndex : string -> option Z).

Definition ToDetectorPublishLabelOptions (x : any) : result (option PublishLabelOptions) go_panic :=
  match x with
  | AnyMap viz =>
      let? l := assert_string (map_index viz "label") in
      let? dn := assert_string (map_index viz "display_name") in
      let? vu := assert_string (map_index viz "value_unit") in
      let? vp := assert_string (map_index viz "value_prefix") in
      let? vs := assert_string (map_index viz "value_suffix") in
      let opt := {| Label := l; DisplayName := dn; ValueUnit := vu;
                    ValuePrefix := vp; ValueSuffix := vs; PaletteIndex := None |} in
      let? c := assert_string (map_index viz "color") in
      match ColorIndex c with
      | Some idx => Ok (Some {| Label := l; DisplayName := dn; ValueUnit := vu;
                                ValuePrefix := vp; ValueSuffix := vs; PaletteIndex := Some idx |})
      | None => Ok (Some opt)
      end
  | _ => Ok None
  end.

End Converter.

(** ** Lemmas *)

Definition is_string (x : any) : bool :=
  match x with AnyString _ => true | _ => false end.

Lemma assert_string_ok x s : assert_string x = Ok s <-> x = AnyString s.
Proof. destruct x; simpl; split; congruence. Qed.

Lemma assert_string_err x : is_string x = false -> assert_string x = Err TypeAssertionPanic.
Proof. destruct x; simpl; congruence. Qed.

#[export] Hint Rewrite assert_string_err using reflexivity : provider.

Lemma Exists_Forall_contra {A} (P Q : A -> Prop) l :
  (forall a, P a -> Q a -> False) -> Exists P l -> Forall Q l -> False.
Proof.
  intros Hpq (a & Ha & Hp)%Exists_exists Hall.
  rewrite Forall_forall in Hall. eauto.
Qed.

(** On a map, the converter either panics, and some key it reads is not
    a string, or returns a value, and every key it reads is a string. *)
Lemma ToDetector_map ColorIndex viz :
  (ToDetectorPublishLabelOptions ColorIndex (AnyMap viz) = Err TypeAssertionPanic /\
   Exists (fun k => is_string (map_index viz k) = false) publish_keys) \/
  ((exists o, ToDetectorPublishLabelOptions ColorIndex (AnyMap viz) = Ok (Some o)) /\
   Forall (fun k => is_string (map_index viz k) = true) publish_keys).
Proof.
  unfold publish_keys. rewrite !Exists_cons, Exists_nil, !Forall_cons, Forall_nil. simpl.
  repeat (match goal with
          | |- context [assert_string (map_index viz ?k)] => destruct (map_index viz k)
          end; simpl);
    try destruct (ColorIndex _); naive_solver.
Qed.

(** ** Properties *)

(** C25: on a map whose six keys hold strings, the converter copies the
    five text fields and sets [PaletteIndex] to the palette's index of
    the colour, left unset when the palette has no such colour. *)
Theorem ToDetectorPublishLabelOptions_fields ColorIndex viz l dn vu vp vs c :
  map_index viz "label" = AnyString l ->
  map_index viz "display_name" = AnyString dn ->
  map_index viz "value_unit" = AnyString vu ->
  map_index viz "value_prefix" = AnyString vp ->
  map_index viz "value_suffix" = AnyString vs ->
  map_index viz "color" = AnyString c ->
  ToDetectorPublishLabelOptions ColorIndex (AnyMap viz) =
    Ok (Some {| Label := l; DisplayName := dn; ValueUnit := vu;
                ValuePrefix := vp; ValueSuffix := vs; PaletteIndex := ColorIndex c |}).
Proof.
  intros H1 H2 H3 H4 H5 H6. simpl. rewrite H1, H2, H3, H4, H5, H6. simpl.
  destruct (ColorIndex c); reflexivity.
Qed.

(** C26: the converter returns nil exactly on a value that is not a
    [map[string]any] (nil included); on a map it never returns nil, and
    it panics exactly when one of the six keys it reads is absent or not
    a string. *)
Theorem ToDetectorPublishLabelOptions_outcomes ColorIndex x :
  (ToDetectorPublishLabelOptions ColorIndex x = Ok None <-> forall viz, x <> AnyMap viz) /\
  (forall viz, ToDetectorPublishLabelOptions ColorIndex (AnyMap viz) = Err TypeAssertionPanic <->
               Exists (fun k => is_string (map_index viz k) = false) publish_keys).
Proof.
  split.
  - destruct x as [| | |viz]; try (split; [intros _ viz; discriminate|reflexivity]).
    split; [|intros Hn; now destruct (Hn viz)].
    destruct (ToDetector_map ColorIndex viz) as [[-> _]|[[o ->] _]]; discriminate.
  - intros viz. destruct (ToDetector_map ColorIndex viz) as [[-> Hex]|[[o ->] Hall]].
    + tauto.
    + split; [discriminate|].
      intros Hex. exfalso. eapply Exists_Forall_contra; [|exact Hex|exact Hall]. simpl. congruence.
Qed.

Lemma ToDetectorPublishLabelOptions_fields_witness :
  let viz := [("label", AnyString "pub-01"); ("display_name", AnyString "");
              ("value_unit", AnyString "s"); ("value_prefix", AnyString "");
              ("value_suffix", AnyString ""); ("color", AnyString "")] in
  ToDetectorPublishLabelOptions (fun _ => None) (AnyMap viz) =
    Ok (Some {| Label := "pub-01"; DisplayName := ""; ValueUnit := "s";
                ValuePrefix := ""; ValueSuffix := ""; PaletteIndex := None |}).
Proof.
  intros viz. apply (ToDetectorPublishLabelOptions_fields (fun _ => None) viz _ _ _ _ _ ""); reflexivity.
Defined.

(** The palette of the tests: ["red"] is the colour of index 0. *)
Definition test_palette (c : string) : option Z :=
  if String.eqb c "red" then Some 0%Z else None.

(** The cases of [convert_visual_options_test.go]: nil gives nil,
    the default map gives the label and unit with no palette index, and
    the full map gives every field with the index of ["red"]; a map
    lacking ["color"] panics. *)
Example publish_label_tests :
  ToDetectorPublishLabelOptions test_palette AnyNil = Ok None /\
  ToDetectorPublishLabelOptions test_palette
    (AnyMap [("label", AnyString "pub-01"); ("display_name", AnyString "");
             ("value_unit", AnyString "s"); ("value_prefix", AnyString "");
             ("value_suffix", AnyString ""); ("color", AnyString "")]) =
    Ok (Some {| Label := "pub-01"; DisplayName := ""; ValueUnit := "s";
                ValuePrefix := ""; ValueSuffix := ""; PaletteIndex := None |}) /\
  ToDetectorPublishLabelOptions test_palette
    (AnyMap [("label", AnyString "pub-01"); ("display_name", AnyString "P-01");
             ("value_unit", AnyString "s"); ("value_prefix", AnyString "^");
             ("value_suffix", AnyString "$"); ("color", AnyString "red")]) =
    Ok (Some {| Label := "pub-01"; DisplayName := "P-01"; ValueUnit := "s";
                ValuePrefix := "^"; ValueSuffix := "$"; PaletteIndex := Some 0%Z |}) /\
  ToDetectorPublishLabelOptions test_palette
    (AnyMap [("label", AnyString "pub-01"); ("display_name", AnyString "");
             ("value_unit", AnyString "s"); ("value_prefix", AnyString "");
             ("value_suffix", AnyString "")]) = Err TypeAssertionPanic.
Proof. split_and!; reflexivity. Qed.

End Convert.
